(** * Run-lifecycle orchestrator and configuration resolver

    A shallow embedding of
    [queue_processors/queue_processor/handle_message.py] (class
    [HandleMessage]) and
    [queue_processors/queue_processor/instrument_variable_utils.py]
    (class [InstrumentVariablesUtils]).

    Python objects are records, the relational store is a record of
    tables, a handler is a function in a state-and-exception monad over
    the store, and a raised exception is the [Raised] outcome. *)

From Stdlib Require Import ZArith Ascii String.
From stdpp Require Import gmap strings list fin_maps pretty.

Local Open Scope string_scope.
Local Open Scope Z_scope.
Local Open Scope list_scope.

(** ** Exceptions *)

(** The exceptions that leave the modelled functions.  The formatted
    text of [InvalidStateException] is kept as its literal part and the
    three message attributes the f-string interpolates. *)
Inductive exn : Type :=
| InvalidStateException (text : string) (rb_number : Z) (run_number : Z)
                        (run_version : option Z)
| TypeError (text : string)
| KeyError (key : string)
| ValueError (text : string)
| ObjectDoesNotExist
| MultipleObjectsReturned.

Global Instance exn_eq_dec : EqDecision exn.
Proof. solve_decision. Defined.

Definition is_InvalidStateException (e : exn) : bool :=
  match e with
  | InvalidStateException _ _ _ _ => true
  | _ => false
  end.

(** ** State-and-exception monad

    A write made before an exception is raised stays in the store: the
    handlers open a transaction around each single [save] only. *)

Inductive outcome (A : Type) : Type :=
| Returned (a : A)
| Raised (e : exn).
Arguments Returned {A} a.
Arguments Raised {A} e.

Definition M (S : Type) (A : Type) : Type := S → outcome A * S.

Global Instance M_ret {S} : MRet (M S) := λ A a s, (Returned a, s).

Global Instance M_bind {S} : MBind (M S) := λ A B f m s,
  match m s with
  | (Returned a, s') => f a s'
  | (Raised e, s') => (Raised e, s')
  end.

Definition raise {S A} (e : exn) : M S A := λ s, (Raised e, s).
Definition get_state {S} : M S S := λ s, (Returned s, s).

(** Python's [for x in xs: body], the body run for its effect. *)
Fixpoint for_each {S A} (xs : list A) (body : A → M S unit) : M S unit :=
  match xs with
  | [] => mret tt
  | x :: xs' => body x ;; for_each xs' body
  end.

(** ** Tables of the relational store

    A table maps primary keys to rows and hands out keys from a counter,
    as an auto-increment column does. *)

Record Table (A : Type) : Type := mkTable {
  rows : gmap nat A;
  next_id : nat
}.
Arguments mkTable {A} rows next_id.
Arguments rows {A} t.
Arguments next_id {A} t.

Definition empty_table {A} : Table A := mkTable ∅ 0%nat.

(** Every key in use was issued by the counter. *)
Definition table_wf {A} (t : Table A) : Prop :=
  ∀ i r, rows t !! i = Some r → (i < next_id t)%nat.

(** [table_wf], decided on a given table. *)
Definition table_wfb {A} (t : Table A) : bool :=
  bool_decide (map_Forall (λ i _, (i < next_id t)%nat) (rows t)).

(** All rows in primary-key order. *)
Definition all_rows {A} (t : Table A) : list A :=
  omap (λ i, rows t !! i) (seq 0 (next_id t)).

(** Django's [Model]: an object knows its primary key, [None] until it
    has been saved. *)
Class Model (A : Type) : Type := {
  model_pk : A → option nat;
  model_with_pk : nat → A → A;
  model_pk_with_pk : ∀ i x, model_pk (model_with_pk i x) = Some i
}.

(** [obj.save()]: INSERT under a new key when the object has none,
    otherwise write the row stored under the object's key. *)
Definition save {A} `{Model A} (obj : A) (t : Table A) : A * Table A :=
  match model_pk obj with
  | None =>
      let i := next_id t in
      let obj' := model_with_pk i obj in
      (obj', mkTable (<[i := obj']> (rows t)) (S i))
  | Some i =>
      (obj, mkTable (<[i := obj]> (rows t)) (next_id t `max` S i))
  end.

(** ** Model classes *)

Inductive StatusName : Type :=
| Queued | Processing | Completed | Skipped | Error.

Global Instance StatusName_eq_dec : EqDecision StatusName.
Proof. solve_decision. Defined.

Module Instrument.
Record t : Type := mk {
  pk : option nat;
  name : string;
  is_active : bool;
  is_paused : bool
}.
Definition with_pk (i : nat) (x : t) : t :=
  mk (Some i) (name x) (is_active x) (is_paused x).
Definition set_is_active (b : bool) (x : t) : t :=
  mk (pk x) (name x) b (is_paused x).
End Instrument.

Module Experiment.
Record t : Type := mk {
  pk : option nat;
  reference_number : Z
}.
Definition with_pk (i : nat) (x : t) : t := mk (Some i) (reference_number x).
End Experiment.

Module ReductionRun.
Record t : Type := mk {
  pk : option nat;
  run_number : Z;
  run_version : Z;
  experiment : option nat;
  instrument : option nat;
  script : string;
  status : StatusName;
  started : option Z;
  finished : option Z;
  message : option string;
  reduction_log : option string;
  admin_log : option string
}.
Definition with_pk (i : nat) (r : t) : t :=
  mk (Some i) (run_number r) (run_version r) (experiment r) (instrument r)
     (script r) (status r) (started r) (finished r) (message r)
     (reduction_log r) (admin_log r).
Definition set_status (s : StatusName) (r : t) : t :=
  mk (pk r) (run_number r) (run_version r) (experiment r) (instrument r)
     (script r) s (started r) (finished r) (message r)
     (reduction_log r) (admin_log r).
Definition set_started (ts : Z) (r : t) : t :=
  mk (pk r) (run_number r) (run_version r) (experiment r) (instrument r)
     (script r) (status r) (Some ts) (finished r) (message r)
     (reduction_log r) (admin_log r).
Definition set_finished (ts : Z) (r : t) : t :=
  mk (pk r) (run_number r) (run_version r) (experiment r) (instrument r)
     (script r) (status r) (started r) (Some ts) (message r)
     (reduction_log r) (admin_log r).
Definition set_logs (m l a : option string) (r : t) : t :=
  mk (pk r) (run_number r) (run_version r) (experiment r) (instrument r)
     (script r) (status r) (started r) (finished r) m l a.
End ReductionRun.

Module DataLocation.
Record t : Type := mk {
  pk : option nat;
  file_path : string;
  reduction_run_id : option nat
}.
Definition with_pk (i : nat) (x : t) : t :=
  mk (Some i) (file_path x) (reduction_run_id x).
End DataLocation.

Module ReductionLocation.
Record t : Type := mk {
  pk : option nat;
  file_path : string;
  reduction_run : nat
}.
Definition with_pk (i : nat) (x : t) : t :=
  mk (Some i) (file_path x) (reduction_run x).
End ReductionLocation.

Global Instance Instrument_Model : Model Instrument.t :=
  {| model_pk := Instrument.pk; model_with_pk := Instrument.with_pk;
     model_pk_with_pk := λ _ _, eq_refl |}.
Global Instance Experiment_Model : Model Experiment.t :=
  {| model_pk := Experiment.pk; model_with_pk := Experiment.with_pk;
     model_pk_with_pk := λ _ _, eq_refl |}.
Global Instance ReductionRun_Model : Model ReductionRun.t :=
  {| model_pk := ReductionRun.pk; model_with_pk := ReductionRun.with_pk;
     model_pk_with_pk := λ _ _, eq_refl |}.
Global Instance DataLocation_Model : Model DataLocation.t :=
  {| model_pk := DataLocation.pk; model_with_pk := DataLocation.with_pk;
     model_pk_with_pk := λ _ _, eq_refl |}.
Global Instance ReductionLocation_Model : Model ReductionLocation.t :=
  {| model_pk := ReductionLocation.pk;
     model_with_pk := ReductionLocation.with_pk;
     model_pk_with_pk := λ _ _, eq_refl |}.


(** A Python [dict] with string keys: the items in insertion order, one
    item per key. *)
Abbreviation dict V := (list (string * V)).

Fixpoint dict_get {V} (d : dict V) (k : string) : option V :=
  match d with
  | [] => None
  | (k', v) :: d' => if String.eqb k' k then Some v else dict_get d' k
  end.

(** [d[k] = v]: an existing key keeps its place, a new key goes last. *)
Fixpoint dict_set {V} (d : dict V) (k : string) (v : V) : dict V :=
  match d with
  | [] => [(k, v)]
  | (k', v') :: d' =>
      if String.eqb k' k then (k', v) :: d' else (k', v') :: dict_set d' k v
  end.

Definition dict_keys {V} (d : dict V) : list string := d.*1.

(** The literals a [reduce_vars.py] declares.  A float is carried by the
    text Python prints for it. *)
#[warnings="-register-all"]
Inductive PyValue : Type :=
| PyNone
| PyBool (b : bool)
| PyInt (z : Z)
| PyFloat (repr : string)
| PyStr (s : string)
| PyList (items : list PyValue).

(** [{'standard_vars': {...}, 'advanced_vars': {...}}] by value. *)
Abbreviation ReductionArguments := (dict (dict PyValue)).

(** The message envelope.  [rb_number] is an integer, as the wire shape
    has it; which integers are acceptable is the validator's decision. *)
Module Message.
Record t : Type := mk {
  run_number : Z;
  instrument : string;
  rb_number : Z;
  run_version : option Z;
  data : string;
  reduction_script : option string;
  reduction_arguments : option ReductionArguments;
  message : option string;
  reduction_data : option (list string);
  reduction_log : option string;
  admin_log : option string
}.
Definition set_message (m : option string) (x : t) : t :=
  mk (run_number x) (instrument x) (rb_number x) (run_version x) (data x)
     (reduction_script x) (reduction_arguments x) m (reduction_data x)
     (reduction_log x) (admin_log x).
Definition set_rb_number (rb : Z) (x : t) : t :=
  mk (run_number x) (instrument x) rb (run_version x) (data x)
     (reduction_script x) (reduction_arguments x) (message x)
     (reduction_data x) (reduction_log x) (admin_log x).
Definition set_run_version (v : Z) (x : t) : t :=
  mk (run_number x) (instrument x) (rb_number x) (Some v) (data x)
     (reduction_script x) (reduction_arguments x) (message x)
     (reduction_data x) (reduction_log x) (admin_log x).
Definition set_script_and_arguments (s : string) (a : ReductionArguments)
    (x : t) : t :=
  mk (run_number x) (instrument x) (rb_number x) (run_version x) (data x)
     (Some s) (Some a) (message x) (reduction_data x) (reduction_log x)
     (admin_log x).
End Message.

(** A stored configuration entry, by the fields of the model: what
    [save()] writes and a query reads back. *)
Module InstrumentVariable.
Record t : Type := mk {
  pk : option nat;
  name : string;
  value : string;
  type : string;
  help_text : string;
  is_advanced : bool;
  instrument_id : nat;
  tracks_script : bool;
  experiment_reference : option Z;
  start_run : option Z
}.
Definition with_pk (i : nat) (x : t) : t :=
  mk (Some i) (name x) (value x) (type x) (help_text x) (is_advanced x)
     (instrument_id x) (tracks_script x) (experiment_reference x)
     (start_run x).
Definition clear_pk (x : t) : t :=
  mk None (name x) (value x) (type x) (help_text x) (is_advanced x)
     (instrument_id x) (tracks_script x) (experiment_reference x)
     (start_run x).
Definition set_value (v : string) (x : t) : t :=
  mk (pk x) (name x) v (type x) (help_text x) (is_advanced x)
     (instrument_id x) (tracks_script x) (experiment_reference x)
     (start_run x).
Definition set_type (ty : string) (x : t) : t :=
  mk (pk x) (name x) (value x) ty (help_text x) (is_advanced x)
     (instrument_id x) (tracks_script x) (experiment_reference x)
     (start_run x).
Definition set_help_text (h : string) (x : t) : t :=
  mk (pk x) (name x) (value x) (type x) h (is_advanced x)
     (instrument_id x) (tracks_script x) (experiment_reference x)
     (start_run x).
Definition set_tracks_script (b : bool) (x : t) : t :=
  mk (pk x) (name x) (value x) (type x) (help_text x) (is_advanced x)
     (instrument_id x) b (experiment_reference x)
     (start_run x).
Definition set_start_run (n : Z) (x : t) : t :=
  mk (pk x) (name x) (value x) (type x) (help_text x) (is_advanced x)
     (instrument_id x) (tracks_script x) (experiment_reference x)
     (Some n).
(** [variable.reference_number = r].  The model has no field of that
    name: the assignment sets an attribute of the Python object, which
    [save()] does not write and no code reads.  The fields stay as they
    are, [experiment_reference] among them. *)
Definition set_reference_number (r : Z) (x : t) : t := x.
End InstrumentVariable.

Global Instance InstrumentVariable_Model : Model InstrumentVariable.t :=
  {| model_pk := InstrumentVariable.pk;
     model_with_pk := InstrumentVariable.with_pk;
     model_pk_with_pk := λ _ _, eq_refl |}.

(** Modelled from the spec: the [RunVariable] model class is not among
    the sources.  Spec, section 3: ``a snapshot copy of the resolved
    InstrumentVariable set, bound 1:1 to a ReductionRun at creation
    time''. *)
Module RunVariable.
Record t : Type := mk {
  pk : option nat;
  name : string;
  value : string;
  type : string;
  help_text : string;
  is_advanced : bool;
  reduction_run : option nat
}.
Definition with_pk (i : nat) (x : t) : t :=
  mk (Some i) (name x) (value x) (type x) (help_text x) (is_advanced x)
     (reduction_run x).
End RunVariable.

Global Instance RunVariable_Model : Model RunVariable.t :=
  {| model_pk := RunVariable.pk; model_with_pk := RunVariable.with_pk;
     model_pk_with_pk := λ _ _, eq_refl |}.

(** ** The store *)

Record DB : Type := mkDB {
  instruments : Table Instrument.t;
  experiments : Table Experiment.t;
  reduction_runs : Table ReductionRun.t;
  data_locations : Table DataLocation.t;
  reduction_locations : Table ReductionLocation.t;
  instrument_variables : Table InstrumentVariable.t;
  run_variables : Table RunVariable.t
}.

Definition empty_db : DB :=
  mkDB empty_table empty_table empty_table empty_table empty_table
       empty_table empty_table.

(** Where the rows of a model class live in the store. *)
Class Stored (A : Type) : Type := {
  table_of : DB → Table A;
  with_table : Table A → DB → DB
}.

Global Instance Instrument_Stored : Stored Instrument.t :=
  {| table_of := instruments;
     with_table t db :=
       mkDB t (experiments db) (reduction_runs db) (data_locations db)
            (reduction_locations db) (instrument_variables db) (run_variables db) |}.
Global Instance Experiment_Stored : Stored Experiment.t :=
  {| table_of := experiments;
     with_table t db :=
       mkDB (instruments db) t (reduction_runs db) (data_locations db)
            (reduction_locations db) (instrument_variables db) (run_variables db) |}.
Global Instance ReductionRun_Stored : Stored ReductionRun.t :=
  {| table_of := reduction_runs;
     with_table t db :=
       mkDB (instruments db) (experiments db) t (data_locations db)
            (reduction_locations db) (instrument_variables db) (run_variables db) |}.
Global Instance DataLocation_Stored : Stored DataLocation.t :=
  {| table_of := data_locations;
     with_table t db :=
       mkDB (instruments db) (experiments db) (reduction_runs db) t
            (reduction_locations db) (instrument_variables db) (run_variables db) |}.
Global Instance ReductionLocation_Stored : Stored ReductionLocation.t :=
  {| table_of := reduction_locations;
     with_table t db :=
       mkDB (instruments db) (experiments db) (reduction_runs db) (data_locations db)
            t (instrument_variables db) (run_variables db) |}.
Global Instance InstrumentVariable_Stored : Stored InstrumentVariable.t :=
  {| table_of := instrument_variables;
     with_table t db :=
       mkDB (instruments db) (experiments db) (reduction_runs db) (data_locations db)
            (reduction_locations db) t (run_variables db) |}.
Global Instance RunVariable_Stored : Stored RunVariable.t :=
  {| table_of := run_variables;
     with_table t db :=
       mkDB (instruments db) (experiments db) (reduction_runs db) (data_locations db)
            (reduction_locations db) (instrument_variables db) t |}.

(** [obj.save()] against the store; the object comes back with its key. *)
Definition model_save {A} `{Model A} `{Stored A} (obj : A) : M DB A :=
  λ db, let '(obj', t') := save obj (table_of db) in
        (Returned obj', with_table t' db).

(** ** Collaborators of the handler

    Code the handler calls that is not among the sources, each taken as
    a parameter: the status table, the RB-number validator, the script
    provider, the instrument lookup, the variable service reached through
    [self._utils], the message validator and the process manager. *)

Record Collaborators : Type := mkCollaborators {
  (** [Status.value], the one-letter code of a status row *)
  status_value : StatusName → string;
  (** [validate_rb_number(rb_number)] *)
  validate_rb_number : Z → bool;
  (** [get_current_script_text(name)[0]], [None] when there is no script *)
  get_current_script_text : string → option string;
  (** [db_access.get_instrument(name, create=True)] *)
  get_instrument : string → M (Table Instrument.t) Instrument.t;
  (** [self._utils.instrument_variable.create_variables_for_run(run)];
      the handler looks at the result for emptiness only *)
  create_variables_for_run : ReductionRun.t → M DB (list RunVariable.t);
  (** [self._utils.reduction_run.get_script_and_arguments(run)] *)
  get_script_and_arguments :
    ReductionRun.t → M DB (string * ReductionArguments);
  (** [message.validate(destination)]: [false] when it raises
      [RuntimeError] *)
  message_validate : Message.t → string → bool;
  (** [ReductionProcessManager(message).run()] *)
  process_manager_run : Message.t → bool * Message.t * string
}.

(** Run a computation on one table inside the store. *)
Definition on_table {A B} `{Stored A} (m : M (Table A) B) : M DB B :=
  λ db, let '(r, t') := m (table_of db) in (r, with_table t' db).

(** Modelled from the spec: [db_access.get_experiment(rb_number,
    create=True)] is not among the sources.  Spec, section 3: an
    Experiment is ``created lazily, create=True semantics: look up or
    insert''. *)
Definition get_experiment (rb_number : Z) : M DB Experiment.t :=
  λ db,
    match filter (λ e, Experiment.reference_number e = rb_number)
                 (all_rows (experiments db)) with
    | e :: _ => (Returned e, db)
    | [] => model_save (Experiment.mk None rb_number) db
    end.

(** Modelled from the spec: [db_access.find_highest_run_version] is not
    among the sources.  Spec, section 3: ``run_version is the smallest
    non-negative integer strictly greater than every existing version for
    the same (instrument, run_number) experiment scope''.  The call in
    [data_ready] passes the run number and the experiment, and those two
    delimit the scope here. *)
Definition in_scope (run_number : Z) (experiment : Experiment.t)
    (r : ReductionRun.t) : Prop :=
  ReductionRun.run_number r = run_number
  ∧ ReductionRun.experiment r = Experiment.pk experiment.

Global Instance in_scope_dec rn e r : Decision (in_scope rn e r).
Proof. unfold in_scope. apply _. Defined.

Definition find_highest_run_version (run_number : Z)
    (experiment : Experiment.t) (db : DB) : Z :=
  foldr (λ r acc, (ReductionRun.run_version r + 1) `max` acc) 0
        (filter (in_scope run_number experiment)
                (all_rows (reduction_runs db))).

(** Modelled from the spec: [db_records.create_reduction_run_record] is
    not among the sources.  It builds the unsaved run from the keyword
    arguments of the call; spec, section 3 lists the attributes of a
    ReductionRun, and the timestamps and texts are unset until a
    transition stamps them. *)
Definition create_reduction_run_record (experiment : Experiment.t)
    (instrument : Instrument.t) (message : Message.t) (run_version : Z)
    (script_text : string) (status : StatusName) : ReductionRun.t :=
  ReductionRun.mk None (Message.run_number message) run_version
                  (Experiment.pk experiment) (Instrument.pk instrument)
                  script_text status None None None None None.

Section HandleMessage.

Variable self : Collaborators.

(** [safe_save]: the save inside [transaction.atomic()].  The schema and
    its constraints are not among the sources, so no save of the model
    violates one, and the branch that logs and re-raises
    [IntegrityError] is not taken. *)
Definition safe_save {A} `{Model A} `{Stored A} (obj : A) : M DB A :=
  model_save obj.

Definition _get_and_activate_db_inst (instrument_name : string)
    : M DB Instrument.t :=
  instrument ← on_table (get_instrument self instrument_name);
  if negb (Instrument.is_active instrument) then
    model_save (Instrument.set_is_active true instrument)
  else mret instrument.

Definition _common_reduction_run_update (reduction_run : ReductionRun.t)
    (status : StatusName) (message : Message.t) (utcnow : Z)
    : ReductionRun.t :=
  let reduction_run := ReductionRun.set_status status reduction_run in
  let reduction_run := ReductionRun.set_finished utcnow reduction_run in
  ReductionRun.set_logs (Message.message message)
                        (Message.reduction_log message)
                        (Message.admin_log message) reduction_run.

(** The value read from [datetime.datetime.utcnow()] is the last
    argument of each transition. *)
Definition reduction_started (reduction_run : ReductionRun.t)
    (message : Message.t) (utcnow : Z) : M DB ReductionRun.t :=
  if negb (bool_decide
             (status_value self (ReductionRun.status reduction_run)
              ∈ ["e"; "q"]))
  then
    raise (InvalidStateException
             "An invalid attempt to re-start a reduction run was captured."
             (Message.rb_number message) (Message.run_number message)
             (Message.run_version message))
  else
    let reduction_run := ReductionRun.set_status Processing reduction_run in
    let reduction_run := ReductionRun.set_started utcnow reduction_run in
    safe_save reduction_run.

(** [ReductionLocation(file_path=location, reduction_run=reduction_run)]
    followed by its save; Django refuses to save a row that points to an
    object without a key. *)
Definition save_reduction_location (reduction_run : ReductionRun.t)
    (location : string) : M DB unit :=
  match ReductionRun.pk reduction_run with
  | None =>
      raise (ValueError
               "save() prohibited to prevent data loss due to unsaved related object 'reduction_run'.")
  | Some run_id =>
      safe_save (ReductionLocation.mk None location run_id) ;; mret tt
  end.

Definition reduction_complete (reduction_run : ReductionRun.t)
    (message : Message.t) (utcnow : Z) : M DB ReductionRun.t :=
  if negb (String.eqb
             (status_value self (ReductionRun.status reduction_run)) "p")
  then
    raise (InvalidStateException
             "An invalid attempt to complete a reduction run that wasn't processing has been captured. "
             (Message.rb_number message) (Message.run_number message)
             (Message.run_version message))
  else
    let reduction_run :=
      _common_reduction_run_update reduction_run Completed message utcnow in
    match Message.reduction_data message with
    | Some locations =>
        for_each locations (save_reduction_location reduction_run)
    | None => mret tt
    end ;;
    safe_save reduction_run.

Definition reduction_skipped (reduction_run : ReductionRun.t)
    (message : Message.t) (utcnow : Z) : M DB ReductionRun.t :=
  safe_save
    (_common_reduction_run_update reduction_run Skipped message utcnow).

Definition reduction_error (reduction_run : ReductionRun.t)
    (message : Message.t) (utcnow : Z) : M DB ReductionRun.t :=
  safe_save
    (_common_reduction_run_update reduction_run Error message utcnow).

(** [do_reduction]: two clock readings, one at the start and one when
    the process manager has returned. *)
Definition do_reduction (reduction_run : ReductionRun.t)
    (message : Message.t) (t_start t_end : Z) : M DB ReductionRun.t :=
  reduction_run ← reduction_started reduction_run message t_start;
  let '(process_finished, message, err) :=
    process_manager_run self message in
  if process_finished then
    match Message.message message with
    | Some _ => reduction_error reduction_run message t_end
    | None => reduction_complete reduction_run message t_end
    end
  else mret reduction_run.

Definition send_message_onwards (reduction_run : ReductionRun.t)
    (message : Message.t) (instrument : Instrument.t) (t_start t_end : Z)
    : M DB ReductionRun.t :=
  if negb (message_validate self message "/queue/DataReady") then
    reduction_skipped reduction_run message t_start
  else if Instrument.is_paused instrument then
    reduction_skipped reduction_run message t_start
  else do_reduction reduction_run message t_start t_end.

(** [data_ready].  With no script text the handler calls
    [self.reduction_error(message)]: the method takes [reduction_run] and
    [message], so the call binds the message to [reduction_run], leaves
    [message] unbound, and Python raises [TypeError] before the body of
    [reduction_error] runs; the [raise InvalidStateException] on the next
    line is not reached. *)
Definition data_ready (message : Message.t) (t_start t_end : Z)
    : M DB ReductionRun.t :=
  let message :=
    if negb (validate_rb_number self (Message.rb_number message)) then
      let message :=
        Message.set_message
          (Some ("Found non-integer RB number: "
                 +:+ pretty (Message.rb_number message))) message in
      Message.set_rb_number 0 message
    else message in
  (* run_no = str(message.run_number): the store reads the text back as
     the integer it prints *)
  let run_no := Message.run_number message in
  instrument ← _get_and_activate_db_inst (Message.instrument message);
  let status :=
    if Instrument.is_paused instrument then Skipped else Queued in
  experiment ← get_experiment (Message.rb_number message);
  db ← get_state;
  let run_version := find_highest_run_version run_no experiment db in
  let message := Message.set_run_version run_version message in
  match get_current_script_text self (Instrument.name instrument) with
  | None =>
      raise (TypeError
               "reduction_error() missing 1 required positional argument: 'message'")
  | Some script_text =>
      let reduction_run :=
        create_reduction_run_record experiment instrument message
                                    run_version script_text status in
      reduction_run ← safe_save reduction_run;
      safe_save (DataLocation.mk None (Message.data message)
                                 (ReductionRun.pk reduction_run)) ;;
      create_variables_for_run self reduction_run ;;
      '(reduction_script, arguments) ←
        get_script_and_arguments self reduction_run;
      let message :=
        Message.set_script_and_arguments reduction_script arguments
                                         message in
      send_message_onwards reduction_run message instrument t_start t_end
  end.

End HandleMessage.

(** ** Python objects shared by reference

    The dictionaries a [reduce_vars] module declares are objects: the
    heap maps an object's address to its items, and an attribute holds an
    address. *)

Abbreviation Heap := (gmap nat (dict PyValue)).

Definition alloc (d : dict PyValue) : M Heap nat :=
  λ h, let l := fresh (dom h) in (Returned l, <[l := d]> h).

(** The items of the dictionary at [l]. *)
Definition heap_read (l : nat) : M Heap (dict PyValue) :=
  λ h, (Returned (default [] (h !! l)), h).

Definition heap_write (l : nat) (d : dict PyValue) : M Heap unit :=
  λ h, (Returned tt, <[l := d]> h).

(** [copy.deepcopy(d)]: a new object with the same items; the items are
    values here, so copying them is the identity. *)
Definition deepcopy (l : nat) : M Heap nat :=
  d ← heap_read l; alloc d.

(** A loaded [reduce_vars.py]: each attribute is the address of the
    dictionary it is bound to, [None] when the module does not define
    it.  [variable_help] is only ever read and is carried by value. *)
Module ReduceVarsModule.
Record t : Type := mk {
  standard_vars : option nat;
  advanced_vars : option nat;
  variable_help : option (dict (dict string))
}.
End ReduceVarsModule.

(** [getattr(module, name, {})]: the attribute's object, or a new empty
    dictionary. *)
Definition getattr_dict (attr : option nat) : M Heap nat :=
  match attr with
  | Some l => mret l
  | None => alloc []
  end.

(** The result of [merge_arguments]: the two merged dictionaries by
    address, and the help texts. *)
Module MergedArguments.
Record t : Type := mk {
  standard_vars : nat;
  advanced_vars : nat;
  variable_help : dict (dict string)
}.
End MergedArguments.

(** The argument of [find_or_make_variables], read off the heap. *)
Module ResolverArguments.
Record t : Type := mk {
  standard_vars : dict PyValue;
  advanced_vars : dict PyValue;
  variable_help : dict (dict string)
}.
End ResolverArguments.

(** ** Strings *)

(** [s.replace(old, new)] for a one-character [old]. *)
Fixpoint str_replace_char (old : Ascii.ascii) (new : string) (s : string)
    : string :=
  match s with
  | EmptyString => EmptyString
  | String c s' =>
      (if Ascii.eqb c old then new else String c EmptyString)
      +:+ str_replace_char old new s'
  end.

Definition char_dquote : Ascii.ascii := Ascii.ascii_of_nat 34.
Definition char_newline : Ascii.ascii := Ascii.ascii_of_nat 10.
Definition char_tab : Ascii.ascii := Ascii.ascii_of_nat 9.

(** [html.escape(s)], with its default [quote=True]. *)
Definition html_escape (s : string) : string :=
  let s := str_replace_char "&"%char "&amp;" s in
  let s := str_replace_char "<"%char "&lt;" s in
  let s := str_replace_char ">"%char "&gt;" s in
  let s := str_replace_char char_dquote "&quot;" s in
  str_replace_char "'"%char "&#x27;" s.

Definition _replace_special_chars (help_text : string) : string :=
  let help_text := html_escape help_text in
  str_replace_char char_tab "&nbsp;&nbsp;&nbsp;&nbsp;"
    (str_replace_char char_newline "<br>" help_text).

(** ** Queries on stored variables *)

(** A [QuerySet] over [InstrumentVariable]: the filter it stands for.
    It is lazy, so each use reads the table as it is then. *)
Definition QuerySet : Type := InstrumentVariable.t → bool.

Definition qs_all (qs : QuerySet) : M DB (list InstrumentVariable.t) :=
  λ db, (Returned (List.filter qs (all_rows (instrument_variables db))), db).

Definition qs_filter (qs : QuerySet) (cond : InstrumentVariable.t → bool)
    : QuerySet :=
  λ v, qs v && cond v.

(** [qs.get(...)]: the one matching row; [DoesNotExist] when there is
    none, [MultipleObjectsReturned] when there are several. *)
Definition qs_get (qs : QuerySet) (cond : InstrumentVariable.t → bool)
    : M DB InstrumentVariable.t :=
  found ← qs_all (qs_filter qs cond);
  match found with
  | [] => raise ObjectDoesNotExist
  | [v] => mret v
  | _ :: _ :: _ => raise MultipleObjectsReturned
  end.

(** Order of [start_run] values; NULL sorts lowest, as in MySQL and
    SQLite. *)
Definition start_run_lt (a b : option Z) : bool :=
  match a, b with
  | None, Some _ => true
  | Some x, Some y => x <? y
  | _, _ => false
  end.

(** [qs.order_by("-start_run").first()]: a row of greatest [start_run],
    the one of lowest key among equals. *)
Definition qs_first_by_start_run_desc (qs : QuerySet)
    : M DB (option InstrumentVariable.t) :=
  found ← qs_all qs;
  mret (foldl (λ best v,
                 match best with
                 | None => Some v
                 | Some b =>
                     if start_run_lt (InstrumentVariable.start_run b)
                                     (InstrumentVariable.start_run v)
                     then Some v else Some b
                 end) None found).

(** [try: m  except ObjectDoesNotExist: handler] *)
Definition try_except_ObjectDoesNotExist {S A} (m handler : M S A) : M S A :=
  λ s, match m s with
       | (Raised ObjectDoesNotExist, s') => handler s'
       | r => r
       end.

(** [field=value] in a filter; a [None] value is compared as
    [IS NULL]. *)
Definition exact {A} `{EqDecision A} (field value : option A) : bool :=
  bool_decide (field = value).

(** [start_run__lte=n]; a NULL [start_run] never matches. *)
Definition start_run_lte (v : InstrumentVariable.t) (n : Z) : bool :=
  match InstrumentVariable.start_run v with
  | Some s => s <=? n
  | None => false
  end.

(** ** Collaborators of the resolver *)

Record VariableServices : Type := mkVariableServices {
  (** the builtin [str] on a declared value *)
  py_str : PyValue → string;
  (** [VariableUtils.get_type_string(value)] *)
  get_type_string : PyValue → string;
  (** [VariableUtils.convert_variable_to_type(value, type_string)] *)
  convert_variable_to_type : PyValue → string → PyValue;
  (** [VariableUtils.save_run_variables(variables, reduction_run)] *)
  save_run_variables :
    list InstrumentVariable.t → ReductionRun.t → M DB (list RunVariable.t);
  (** [ReductionScript(instrument_name, 'reduce_vars.py').load()] *)
  load_reduce_vars : string → M Heap ReduceVarsModule.t
}.

(** ** The resolver *)

(** The state of a resolution: the Python heap and the store. *)
Record World : Type := mkWorld {
  heap : Heap;
  db : DB
}.

Definition in_heap {A} (m : M Heap A) : M World A :=
  λ w, let '(r, h) := m (heap w) in (r, mkWorld h (db w)).

Definition in_db {A} (m : M DB A) : M World A :=
  λ w, let '(r, d) := m (db w) in (r, mkWorld (heap w) d).

(** [@transaction.atomic]: an exception that leaves the function undoes
    its writes to the store. *)
Definition atomic {A} (m : M World A) : M World A :=
  λ w, match m w with
       | (Returned a, w') => (Returned a, w')
       | (Raised e, w') => (Raised e, mkWorld (heap w') (db w))
       end.

(** [obj.related]: the row a foreign key points to. *)
Definition related {A} (t : Table A) (fk : option nat) : outcome A :=
  match fk ≫= (λ i, rows t !! i) with
  | Some x => Returned x
  | None => Raised ObjectDoesNotExist
  end.

(** Python's [for x in xs], the results of the body collected in
    order. *)
Fixpoint for_collect {S A B} (xs : list A) (body : A → M S B)
    : M S (list B) :=
  match xs with
  | [] => mret []
  | x :: xs' => y ← body x; ys ← for_collect xs' body; mret (y :: ys)
  end.

(** [if experiment_reference:] holds for an integer other than zero. *)
Definition truthy (x : option Z) : bool :=
  match x with
  | Some z => negb (z =? 0)
  | None => false
  end.

Section InstrumentVariablesUtils.

Variable self : VariableServices.

Definition set_with_correct_type
    (message_reduction_arguments : ReductionArguments)
    (reduction_args : dict nat) (dict_name : string) : M Heap unit :=
  match dict_get message_reduction_arguments dict_name,
        dict_get reduction_args dict_name with
  | Some overrides, Some target =>
      for_each overrides (λ '(name, value),
        current ← heap_read target;
        match dict_get current name with
        | None => raise (KeyError name)
        | Some default_value =>
            let real_type := get_type_string self default_value in
            heap_write target
              (dict_set current name
                        (convert_variable_to_type self value real_type))
        end)
  | _, _ => mret tt
  end.

Definition merge_arguments
    (message_reduction_arguments : ReductionArguments)
    (reduce_vars_module : ReduceVarsModule.t) : M Heap MergedArguments.t :=
  standard ← getattr_dict (ReduceVarsModule.standard_vars reduce_vars_module);
  standard ← deepcopy standard;
  advanced ← getattr_dict (ReduceVarsModule.advanced_vars reduce_vars_module);
  advanced ← deepcopy advanced;
  let reduction_args : dict nat :=
    [("standard_vars", standard); ("advanced_vars", advanced)] in
  set_with_correct_type message_reduction_arguments reduction_args
                        "standard_vars" ;;
  set_with_correct_type message_reduction_arguments reduction_args
                        "advanced_vars" ;;
  mret (MergedArguments.mk standard advanced
          (default [] (ReduceVarsModule.variable_help reduce_vars_module))).

Definition get_help_text (dict_name key : string)
    (reduction_arguments : ResolverArguments.t) : string :=
  match dict_get (ResolverArguments.variable_help reduction_arguments)
                 dict_name with
  | Some help =>
      match dict_get help key with
      | Some text => _replace_special_chars text
      | None => ""
      end
  | None => ""
  end.

Definition _find_appropriate_variable (possible_variables : QuerySet)
    (name : string) (expriment_reference : option Z)
    : M DB (option InstrumentVariable.t) :=
  variables_set_for_experiment ←
    try_except_ObjectDoesNotExist
      (v ← qs_get possible_variables
             (λ v, String.eqb (InstrumentVariable.name v) name
                   && exact (InstrumentVariable.experiment_reference v)
                            expriment_reference);
       mret (Some v))
      (mret None);
  match variables_set_for_experiment with
  | None =>
      qs_first_by_start_run_desc
        (qs_filter possible_variables
                   (λ v, String.eqb (InstrumentVariable.name v) name))
  | Some v => mret (Some v)
  end.

Definition _update_or_copy_if_changed (variable : InstrumentVariable.t)
    (new_value new_type new_help_text : string) (run_number : Z)
    : M DB InstrumentVariable.t :=
  let changed := false in
  let '(variable, changed) :=
    if negb (String.eqb new_value (InstrumentVariable.value variable))
    then (InstrumentVariable.set_value new_value variable, true)
    else (variable, changed) in
  let '(variable, changed) :=
    if negb (String.eqb new_type (InstrumentVariable.type variable))
    then (InstrumentVariable.set_type new_type variable, true)
    else (variable, changed) in
  let '(variable, changed) :=
    if negb (String.eqb new_help_text
                        (InstrumentVariable.help_text variable))
    then (InstrumentVariable.set_help_text new_help_text variable, true)
    else (variable, changed) in
  if changed then
    let variable :=
      if negb (exact (InstrumentVariable.start_run variable)
                     (Some run_number))
      then InstrumentVariable.set_start_run run_number
             (InstrumentVariable.clear_pk variable)
      else variable in
    model_save variable
  else mret variable.

Definition find_or_make_variables (possible_variables : QuerySet)
    (run_number : Z) (instrument_id : nat)
    (reduction_arguments : ResolverArguments.t)
    (experiment_reference : option Z) (tracks_script force_update : bool)
    : M DB (list InstrumentVariable.t) :=
  let all_vars : list (string * PyValue * bool) :=
    (map (λ '(name, value), (name, value, false))
         (ResolverArguments.standard_vars reduction_arguments)
     ++ map (λ '(name, value), (name, value, true))
            (ResolverArguments.advanced_vars reduction_arguments))%list in
  for_collect all_vars (λ '(name, value, is_advanced),
    let script_help_text :=
      get_help_text
        (if negb is_advanced then "standard_vars" else "advanced_vars")
        name reduction_arguments in
    let script_value :=
      str_replace_char "]"%char ""
        (str_replace_char "["%char "" (py_str self value)) in
    let script_type := get_type_string self value in
    variable ← _find_appropriate_variable possible_variables name
                                          experiment_reference;
    match variable with
    | None =>
        (* possible_variables.create with var_kwargs; the columns the
           call does not name are unset *)
        variable ← model_save
          (InstrumentVariable.mk None name script_value script_type
             script_help_text is_advanced instrument_id false None
             None);
        let variable :=
          InstrumentVariable.set_tracks_script tracks_script variable in
        let variable :=
          if truthy experiment_reference then
            match experiment_reference with
            | Some r => InstrumentVariable.set_reference_number r variable
            | None => variable
            end
          else InstrumentVariable.set_start_run run_number variable in
        model_save variable
    | Some variable =>
        if InstrumentVariable.tracks_script variable || force_update then
          _update_or_copy_if_changed variable script_value script_type
                                     script_help_text run_number
        else mret variable
    end).

(** The items of the merged dictionaries, for the resolver to read. *)
Definition read_arguments (merged : MergedArguments.t)
    : M Heap ResolverArguments.t :=
  standard ← heap_read (MergedArguments.standard_vars merged);
  advanced ← heap_read (MergedArguments.advanced_vars merged);
  mret (ResolverArguments.mk standard advanced
          (MergedArguments.variable_help merged)).

Definition create_run_variables (reduction_run : ReductionRun.t)
    (message_reduction_arguments : ReductionArguments)
    : M World (list RunVariable.t) :=
  atomic (
    instrument ← in_db (λ d,
      (related (instruments d) (ReductionRun.instrument reduction_run), d));
    let instrument_name := Instrument.name instrument in
    experiment ← in_db (λ d,
      (related (experiments d) (ReductionRun.experiment reduction_run), d));
    let experiment_reference := Experiment.reference_number experiment in
    let run_number := ReductionRun.run_number reduction_run in
    (* reduction_run.instrument.id, the key of the row just read *)
    let instrument_id := default 0%nat (Instrument.pk instrument) in
    let possible_variables : QuerySet :=
      λ v, (exact (InstrumentVariable.experiment_reference v)
                  (Some experiment_reference)
            || start_run_lte v run_number)
           && bool_decide (InstrumentVariable.instrument_id v
                           = instrument_id) in
    reduce_vars_module ← in_heap (load_reduce_vars self instrument_name);
    final_reduction_arguments ←
      in_heap (merge_arguments message_reduction_arguments
                               reduce_vars_module);
    reduction_arguments ← in_heap (read_arguments final_reduction_arguments);
    (* experiment_reference, tracks_script and force_update are left at
       their defaults: None, True, False *)
    variables ← in_db
      (find_or_make_variables possible_variables run_number instrument_id
                              reduction_arguments None true false);
    in_db (save_run_variables self variables reduction_run)).

End InstrumentVariablesUtils.

(** ** Status codes

    The comments of [reduction_started] and [reduction_complete] name
    three codes: ['e'] is Error, ['q'] is Queued, ['p'] is Processing.
    The codes tell the five statuses apart. *)
Definition status_codes (self : Collaborators) : Prop :=
  status_value self Error = "e"
  ∧ status_value self Queued = "q"
  ∧ status_value self Processing = "p"
  ∧ NoDup (status_value self <$> [Queued; Processing; Completed; Skipped;
                                  Error]).

Global Instance status_codes_dec self : Decision (status_codes self).
Proof. unfold status_codes. apply _. Defined.

(** ** Sample collaborators and data, for evaluating the handlers *)

Definition sample_status_value (s : StatusName) : string :=
  match s with
  | Queued => "q"
  | Processing => "p"
  | Completed => "c"
  | Skipped => "s"
  | Error => "e"
  end.

Definition sample_get_instrument (name : string)
    : M (Table Instrument.t) Instrument.t :=
  λ t, match List.filter (λ i, String.eqb (Instrument.name i) name)
                         (all_rows t) with
       | i :: _ => (Returned i, t)
       | [] => let '(i, t') := save (Instrument.mk None name false false) t in
               (Returned i, t')
       end.

Definition sample_collaborators (script : option string) : Collaborators :=
  mkCollaborators
    sample_status_value
    (λ rb, bool_decide (1000000 ≤ rb ≤ 9999999))
    (λ _, script)
    sample_get_instrument
    (λ _, mret [])
    (λ _, mret ("print(1)", []))
    (λ _ _, true)
    (λ m, (true, m, "")).

(** A message as the data-ready queue delivers it: no error text, and
    the two logs the empty text a message has unless the sender sets
    them. *)
Definition sample_message : Message.t :=
  Message.mk 100 "DEMO" 1234567 None "/x/DEMO00100.nxs" None None None
             (Some ["/out/a"; "/out/b"]) (Some "") (Some "").

(** A stored run with no error text and empty logs. *)
Definition sample_run (status : StatusName) : ReductionRun.t :=
  ReductionRun.mk (Some 0%nat) 100 0 (Some 0%nat) (Some 0%nat) "print(1)"
                  status None None None (Some "") (Some "").

(** A store holding [sample_run status] and nothing else. *)
Definition sample_db (status : StatusName) : DB :=
  with_table (mkTable {[ 0%nat := sample_run status ]} 1%nat) empty_db.

(** ** A worker's events

    A data-ready event is a message with the two clock readings its
    handling makes.  The worker takes the next event whatever the outcome
    of the last one. *)
Definition data_ready_events (self : Collaborators)
    (events : list (Message.t * Z * Z)) (d : DB) : DB :=
  foldl (λ d '(message, t_start, t_end),
           (data_ready self message t_start t_end d).2) d events.

(** The reference [data_ready] files the run of a message under: the
    message's own when the validator accepts it, zero otherwise. *)
Definition effective_rb_number (self : Collaborators) (m : Message.t) : Z :=
  if validate_rb_number self (Message.rb_number m)
  then Message.rb_number m else 0.

(** The experiment row [get_experiment] answers with on a store. *)
Definition experiment_for (rb_number : Z) (d : DB) : Experiment.t :=
  match filter (λ e, Experiment.reference_number e = rb_number)
               (all_rows (experiments d)) with
  | e :: _ => e
  | [] => Experiment.mk (Some (next_id (experiments d))) rb_number
  end.

(** What identifies a run within its scope: run number, experiment and
    version. *)
Definition scope_fields (r : ReductionRun.t) : Z * option nat * Z :=
  (ReductionRun.run_number r, ReductionRun.experiment r,
   ReductionRun.run_version r).

(** Collaborators that write neither runs nor experiments. *)
Definition leaves_runs_alone (self : Collaborators) : Prop :=
  (∀ run d, reduction_runs (create_variables_for_run self run d).2
            = reduction_runs d
            ∧ experiments (create_variables_for_run self run d).2
              = experiments d)
  ∧ (∀ run d, reduction_runs (get_script_and_arguments self run d).2
              = reduction_runs d
              ∧ experiments (get_script_and_arguments self run d).2
                = experiments d).

(** Every event finds its instrument and a script for it. *)
Definition always_admits (self : Collaborators) : Prop :=
  (∀ name, is_Some (get_current_script_text self name))
  ∧ (∀ name t, ∃ i t', get_instrument self name t = (Returned i, t')).

(** ** Predicates for following a run through the handlers *)

(** The run is in the store under its key, with the scope fields the
    object has. *)
Definition stored (d : DB) (run : ReductionRun.t) : Prop :=
  ∃ k r0, ReductionRun.pk run = Some k
          ∧ rows (reduction_runs d) !! k = Some r0
          ∧ scope_fields r0 = scope_fields run.

(** Two stores with the same experiments, whose runs have the same keys
    and, key by key, the same scope fields. *)
Definition steady (d d' : DB) : Prop :=
  experiments d' = experiments d
  ∧ next_id (reduction_runs d') = next_id (reduction_runs d)
  ∧ ∀ i, scope_fields <$> rows (reduction_runs d') !! i
         = scope_fields <$> rows (reduction_runs d) !! i.

(** A computation that may rewrite a stored run but not its scope
    fields. *)
Definition keeps_run (run : ReductionRun.t) (m : M DB ReductionRun.t)
    : Prop :=
  ∀ d, table_wf (reduction_runs d) → stored d run →
       steady d (m d).2
       ∧ ∀ run', (m d).1 = Returned run' →
                 stored (m d).2 run' ∧ scope_fields run' = scope_fields run.

(** A computation that writes neither runs nor experiments. *)
Definition quiet {A} (m : M DB A) : Prop :=
  ∀ d, reduction_runs (m d).2 = reduction_runs d
       ∧ experiments (m d).2 = experiments d.

Definition fields_in_scope (rn : Z) (experiment_pk : option nat)
    (f : Z * option nat * Z) : Prop :=
  f.1.1 = rn ∧ f.1.2 = experiment_pk.

Global Instance fields_in_scope_dec rn e f :
  Decision (fields_in_scope rn e f).
Proof. unfold fields_in_scope. apply _. Defined.

(** [find_highest_run_version], read off the scope fields. *)
Definition fields_highest (rn : Z) (experiment_pk : option nat)
    (fs : list (Z * option nat * Z)) : Z :=
  foldr (λ f acc, (f.2 + 1) `max` acc) 0
        (filter (fields_in_scope rn experiment_pk) fs).

(** The scope fields of the [k] runs the events have created so far:
    versions [0], ..., [k - 1], in the order of creation. *)
Definition created_fields (rn : Z) (e : Experiment.t) (k : nat)
    : list (Z * option nat * Z) :=
  (λ v : nat, (rn, Experiment.pk e, Z.of_nat v)) <$> seq 0 k.

(** The store after [k] runs of the scope have been created on top of
    the rows [base]. *)
Definition scope_inv (rn rb : Z) (e : Experiment.t)
    (base : list (Z * option nat * Z)) (d : DB) (k : nat) : Prop :=
  table_wf (reduction_runs d)
  ∧ table_wf (experiments d)
  ∧ experiment_for rb d = e
  ∧ scope_fields <$> all_rows (reduction_runs d)
    = base ++ created_fields rn e k.

(** ** Sample services and data, for evaluating the resolver *)

(** Agrees with Python's [str] on [None], booleans, integers, strings
    and lists of integers. *)
Fixpoint sample_py_str (v : PyValue) : string :=
  match v with
  | PyNone => "None"
  | PyBool true => "True"
  | PyBool false => "False"
  | PyInt z => pretty z
  | PyFloat repr => repr
  | PyStr s => s
  | PyList items =>
      "[" +:+ String.concat ", " (map sample_py_str items) +:+ "]"
  end.

Definition sample_get_type_string (v : PyValue) : string :=
  match v with
  | PyBool _ => "boolean"
  | PyInt _ | PyFloat _ => "number"
  | PyList _ => "list_text"
  | PyNone | PyStr _ => "text"
  end.

Definition sample_convert_variable_to_type (v : PyValue) (ty : string)
    : PyValue :=
  if String.eqb ty "text" then PyStr (sample_py_str v) else v.

Definition sample_save_run_variables (variables : list InstrumentVariable.t)
    (reduction_run : ReductionRun.t) : M DB (list RunVariable.t) :=
  for_collect variables (λ v,
    model_save
      (RunVariable.mk None (InstrumentVariable.name v)
         (InstrumentVariable.value v) (InstrumentVariable.type v)
         (InstrumentVariable.help_text v) (InstrumentVariable.is_advanced v)
         (ReductionRun.pk reduction_run))).

(** A [reduce_vars.py] that declares [standard_vars = {'x': 1}] and no
    more. *)
Definition sample_load_reduce_vars (instrument_name : string)
    : M Heap ReduceVarsModule.t :=
  standard ← alloc [("x", PyInt 1)];
  mret (ReduceVarsModule.mk (Some standard) None None).

Definition sample_services : VariableServices :=
  mkVariableServices sample_py_str sample_get_type_string
    sample_convert_variable_to_type sample_save_run_variables
    sample_load_reduce_vars.

(** A variable [x] of instrument 0. *)
Definition sample_variable (pk : nat) (value : string) (tracks : bool)
    (experiment_reference start_run : option Z) : InstrumentVariable.t :=
  InstrumentVariable.mk (Some pk) "x" value "number" "" false 0%nat tracks
                        experiment_reference start_run.

Definition with_variables (vars : list InstrumentVariable.t) (d : DB) : DB :=
  with_table
    (mkTable (list_to_map (imap (λ i v, (i, v)) vars)) (length vars)) d.

(** The store of a run of experiment 1234567 on instrument DEMO, with the
    given stored variables. *)
Definition sample_resolver_db (vars : list InstrumentVariable.t) : DB :=
  with_variables vars
    (with_table
       (mkTable {[ 0%nat := Instrument.mk (Some 0%nat) "DEMO" true false ]}
                1%nat)
       (with_table
          (mkTable {[ 0%nat := Experiment.mk (Some 0%nat) 1234567 ]} 1%nat)
          (sample_db Queued))).

(** The queryset [create_run_variables] builds for a run with number
    [run_number] of experiment [experiment_reference] on instrument 0. *)
Definition sample_possible_variables (experiment_reference run_number : Z)
    : QuerySet :=
  λ v, (exact (InstrumentVariable.experiment_reference v)
              (Some experiment_reference)
        || start_run_lte v run_number)
       && bool_decide (InstrumentVariable.instrument_id v = 0%nat).

(** ** Notions for the further properties of the handler *)

(** The message [data_ready] works with after its first lines: as
    received when the validator accepts the RB number, otherwise with the
    RB number zeroed and the text that reports it. *)
Definition checked_message (self : Collaborators) (message : Message.t)
    : Message.t :=
  if negb (validate_rb_number self (Message.rb_number message)) then
    Message.set_rb_number 0
      (Message.set_message
         (Some ("Found non-integer RB number: "
                +:+ pretty (Message.rb_number message))) message)
  else message.

(** The variable service and the script service answer every call. *)
Definition always_resolves (self : Collaborators) : Prop :=
  (∀ run d, ∃ variables,
     (create_variables_for_run self run d).1 = Returned variables)
  ∧ (∀ run d, ∃ script_and_arguments,
       (get_script_and_arguments self run d).1
       = Returned script_and_arguments).

(** ** Notions for the further properties of the resolver *)

(** [c in s], for a character [c]. *)
Fixpoint str_has (c : Ascii.ascii) (s : string) : bool :=
  match s with
  | EmptyString => false
  | String c' s' => Ascii.eqb c' c || str_has c s'
  end.

(** The rows [possible_variables.get(name=..., experiment_reference=...)]
    finds on a store. *)
Definition reference_matches (possible_variables : QuerySet) (name : string)
    (experiment_reference : option Z) (d : DB)
    : list InstrumentVariable.t :=
  List.filter
    (qs_filter possible_variables
       (λ v, String.eqb (InstrumentVariable.name v) name
             && exact (InstrumentVariable.experiment_reference v)
                      experiment_reference))
    (all_rows (instrument_variables d)).

(** The rows [possible_variables.filter(name=...)] finds on a store. *)
Definition name_matches (possible_variables : QuerySet) (name : string)
    (d : DB) : list InstrumentVariable.t :=
  List.filter
    (qs_filter possible_variables
       (λ v, String.eqb (InstrumentVariable.name v) name))
    (all_rows (instrument_variables d)).

(** The value, type and help text the resolver derives from a declared
    default. *)
Definition script_value_of (self : VariableServices) (value : PyValue)
    : string :=
  str_replace_char "]"%char ""
    (str_replace_char "["%char "" (py_str self value)).

(** The names a script declares, standard ones first. *)
Definition declared_names (reduction_arguments : ResolverArguments.t)
    : list string :=
  dict_keys (ResolverArguments.standard_vars reduction_arguments)
  ++ dict_keys (ResolverArguments.advanced_vars reduction_arguments).

(** The items of the dictionary an attribute of the module is bound to;
    none when the module does not define the attribute. *)
Definition module_dict (h : Heap) (attr : option nat) : dict PyValue :=
  match attr with
  | Some l => default [] (h !! l)
  | None => []
  end.

(** The overrides a message carries for one of the two dictionaries. *)
Definition overrides_for (message_reduction_arguments : ReductionArguments)
    (dict_name : string) : dict PyValue :=
  default [] (dict_get message_reduction_arguments dict_name).

(** What the merge leaves under a name: the default, or the override
    converted to the type of the default. *)
Definition merged_entry (self : VariableServices)
    (defaults overrides : dict PyValue) (name : string) : option PyValue :=
  match dict_get overrides name with
  | Some value =>
      (λ default_value,
         convert_variable_to_type self value
           (get_type_string self default_value))
      <$> dict_get defaults name
  | None => dict_get defaults name
  end.

(** Every stored variable carries the key it is stored under. *)
Definition keyed (t : Table InstrumentVariable.t) : Prop :=
  map_Forall (λ i v, InstrumentVariable.pk v = Some i) (rows t).

(** The declared variables as [find_or_make_variables] walks them: the
    name, the default and whether the variable is an advanced one. *)
Definition all_vars (reduction_arguments : ResolverArguments.t)
    : list (string * PyValue * bool) :=
  map (λ '(name, value), (name, value, false))
      (ResolverArguments.standard_vars reduction_arguments)
  ++ map (λ '(name, value), (name, value, true))
         (ResolverArguments.advanced_vars reduction_arguments).

(** The help text [find_or_make_variables] looks up for a declared
    variable. *)
Definition script_help_text_of (reduction_arguments : ResolverArguments.t)
    (name : string) (is_advanced : bool) : string :=
  get_help_text
    (if negb is_advanced then "standard_vars" else "advanced_vars")
    name reduction_arguments.

(** The body of the loop of [find_or_make_variables], for one declared
    variable. *)
Definition resolve_variable (self : VariableServices)
    (possible_variables : QuerySet) (run_number : Z) (instrument_id : nat)
    (reduction_arguments : ResolverArguments.t)
    (experiment_reference : option Z) (tracks_script force_update : bool)
    : string * PyValue * bool → M DB InstrumentVariable.t :=
  λ '(name, value, is_advanced),
    let script_help_text :=
      get_help_text
        (if negb is_advanced then "standard_vars" else "advanced_vars")
        name reduction_arguments in
    let script_value :=
      str_replace_char "]"%char ""
        (str_replace_char "["%char "" (py_str self value)) in
    let script_type := get_type_string self value in
    variable ← _find_appropriate_variable possible_variables name
                                          experiment_reference;
    match variable with
    | None =>
        variable ← model_save
          (InstrumentVariable.mk None name script_value script_type
             script_help_text is_advanced instrument_id false None
             None);
        let variable :=
          InstrumentVariable.set_tracks_script tracks_script variable in
        let variable :=
          if truthy experiment_reference then
            match experiment_reference with
            | Some r => InstrumentVariable.set_reference_number r variable
            | None => variable
            end
          else InstrumentVariable.set_start_run run_number variable in
        model_save variable
    | Some variable =>
        if InstrumentVariable.tracks_script variable || force_update then
          _update_or_copy_if_changed variable script_value script_type
                                     script_help_text run_number
        else mret variable
    end.

(** The row [find_or_make_variables] stores under key [k] for a declared
    variable it finds no stored row for. *)
Definition created_variable (self : VariableServices) (run_number : Z)
    (instrument_id : nat) (reduction_arguments : ResolverArguments.t)
    (experiment_reference : option Z) (tracks_script : bool) (k : nat)
    (declared : string * PyValue * bool) : InstrumentVariable.t :=
  InstrumentVariable.mk (Some k) declared.1.1
    (script_value_of self declared.1.2)
    (get_type_string self declared.1.2)
    (script_help_text_of reduction_arguments declared.1.1 declared.2)
    declared.2 instrument_id tracks_script None
    (if truthy experiment_reference then None else Some run_number).

(** What a resolution of the variables named [names] keeps of the stored
    variables, on a store whose keys are in order: the keys stay in
    order, no other table changes, no row goes away, and a row stays as
    it is when its name is not among [names], or when it does not track
    the script and the resolution is not forced. *)
Definition keeps_variables (names : list string) (force_update : bool)
    (d d' : DB) : Prop :=
  table_wf (instrument_variables d) → keyed (instrument_variables d) →
  table_wf (instrument_variables d') ∧ keyed (instrument_variables d')
  ∧ d' = with_table (instrument_variables d') d
  ∧ ∀ k v, rows (instrument_variables d) !! k = Some v →
           is_Some (rows (instrument_variables d') !! k)
           ∧ (InstrumentVariable.name v ∉ names
              ∨ InstrumentVariable.tracks_script v = false
                ∧ force_update = false →
              rows (instrument_variables d') !! k = Some v).

(** An attribute of a loaded module is unset or bound to an object of the
    heap. *)
Definition bound (h : Heap) (attr : option nat) : Prop :=
  match attr with
  | Some l => is_Some (h !! l)
  | None => True
  end.

(** * Properties *)

(** ** Tables *)

Lemma table_wfb_wf {A} (t : Table A) : table_wfb t = true → table_wf t.
Proof.
  intros Hb i r Hi. apply bool_decide_eq_true_1 in Hb.
  exact (Hb i r Hi).
Qed.

Lemma save_stored {A} `{Model A} (obj : A) (t : Table A) :
  ∃ k, model_pk (save obj t).1 = Some k
       ∧ rows (save obj t).2 !! k = Some (save obj t).1
       ∧ ∀ j, j ≠ k → rows (save obj t).2 !! j = rows t !! j.
Proof.
  unfold save. destruct (model_pk obj) as [i|] eqn:Hpk; simpl.
  - exists i. split_and!; [done|by rewrite lookup_insert_eq|].
    intros j Hj. by rewrite lookup_insert_ne.
  - exists (next_id t). rewrite model_pk_with_pk.
    split_and!; [done|by rewrite lookup_insert_eq|].
    intros j Hj. by rewrite lookup_insert_ne.
Qed.

Lemma save_wf {A} `{Model A} (obj : A) (t : Table A) :
  table_wf t → table_wf (save obj t).2.
Proof.
  intros Hwf i r. unfold save.
  destruct (model_pk obj) as [k|]; simpl; intros Hi;
    destruct (decide (k = i)) as [->|] || destruct (decide (next_id t = i)) as [<-|];
    try lia; rewrite lookup_insert_ne in Hi by done;
    apply Hwf in Hi; lia.
Qed.

Lemma all_rows_insert_new {A} (t : Table A) (x : A) :
  table_wf t →
  all_rows (mkTable (<[next_id t := x]> (rows t)) (S (next_id t)))
  = all_rows t ++ [x].
Proof.
  intros Hwf. unfold all_rows. cbn [rows next_id].
  rewrite seq_S, omap_app. simpl. rewrite lookup_insert_eq. simpl.
  f_equal. apply list_omap_ext, Forall2_same_length_lookup_2; [done|].
  intros i a b Ha Hb. rewrite Ha in Hb. simplify_eq.
  apply lookup_seq in Ha as [-> ?]. simpl.
  rewrite lookup_insert_ne by lia. done.
Qed.

(** ** The state machine *)

Section Lifecycle_properties.

Variable self : Collaborators.
Hypothesis codes : status_codes self.

Lemma status_value_inj (a b : StatusName) :
  status_value self a = status_value self b → a = b.
Proof.
  destruct codes as (_ & _ & _ & Hnd). intros Hab.
  set (all := [Queued; Processing; Completed; Skipped; Error]) in *.
  assert (Hpos : ∀ s, ∃ i, all !! i = Some s).
  { intros []; [by exists 0%nat|by exists 1%nat|by exists 2%nat
               |by exists 3%nat|by exists 4%nat]. }
  destruct (Hpos a) as [i Hi], (Hpos b) as [j Hj].
  assert (Hi' : (status_value self <$> all) !! i
                = Some (status_value self a)).
  { by rewrite list_lookup_fmap, Hi. }
  assert (Hj' : (status_value self <$> all) !! j
                = Some (status_value self a)).
  { by rewrite list_lookup_fmap, Hj, Hab. }
  pose proof (NoDup_lookup _ _ _ _ Hnd Hi' Hj') as ->. congruence.
Qed.

Lemma restartable_iff (s : StatusName) :
  status_value self s ∈ ["e"; "q"] ↔ s ∈ [Queued; Error].
Proof.
  destruct codes as (He & Hq & _ & _).
  rewrite !elem_of_cons, !elem_of_nil. split.
  - intros [H|[H|[]]]; [right; left|left];
      apply status_value_inj; congruence.
  - intros [->|[->|[]]]; auto.
Qed.

Lemma processing_iff (s : StatusName) :
  String.eqb (status_value self s) "p" = true ↔ s = Processing.
Proof.
  destruct codes as (_ & _ & Hp & _). rewrite String.eqb_eq. split.
  - intros H. apply status_value_inj. congruence.
  - by intros ->.
Qed.

(** C1.  [reduction_started] raises [InvalidStateException], and writes
    nothing, when the run is Completed, Skipped or Processing.  When the
    run is Queued or Error it returns the run with status Processing and
    the start time stamped, every other attribute as it was; the run is
    stored under its key, and no other row or table changes. *)
Theorem reduction_started_transitions (reduction_run : ReductionRun.t)
    (message : Message.t) (utcnow : Z) (d : DB) :
  (ReductionRun.status reduction_run ∈ [Completed; Skipped; Processing] →
   ∃ e, reduction_started self reduction_run message utcnow d
        = (Raised e, d)
        ∧ is_InvalidStateException e = true)
  ∧ (ReductionRun.status reduction_run ∈ [Queued; Error] →
     ∃ saved d' k,
       reduction_started self reduction_run message utcnow d
       = (Returned saved, d')
       ∧ ReductionRun.status saved = Processing
       ∧ ReductionRun.started saved = Some utcnow
       ∧ ReductionRun.set_started utcnow
           (ReductionRun.set_status Processing
              (ReductionRun.with_pk k reduction_run)) = saved
       ∧ (∀ i, ReductionRun.pk reduction_run = Some i → i = k)
       ∧ rows (reduction_runs d') !! k = Some saved
       ∧ (∀ j, j ≠ k →
               rows (reduction_runs d') !! j = rows (reduction_runs d) !! j)
       ∧ d' = with_table (reduction_runs d') d).
Proof.
  split; intros Hst; unfold reduction_started.
  - rewrite bool_decide_eq_false_2; simpl.
    + eexists. split; reflexivity.
    + rewrite restartable_iff. intros Hin. revert Hst Hin.
      rewrite !elem_of_cons, !elem_of_nil.
      destruct (ReductionRun.status reduction_run);
        intros [?|[?|[?|[]]]] [?|[?|[]]]; discriminate.
  - rewrite bool_decide_eq_true_2 by by apply restartable_iff.
    simpl. unfold safe_save, model_save.
    set (r := ReductionRun.set_started utcnow
                (ReductionRun.set_status Processing reduction_run)).
    destruct (save_stored r (table_of d)) as (k & Hk & Hrow & Hframe).
    destruct (save r (table_of d)) as [saved t'] eqn:Hsave.
    simpl in Hk, Hrow, Hframe.
    exists saved, (with_table t' d), k.
    assert (saved = ReductionRun.set_started utcnow
              (ReductionRun.set_status Processing
                 (ReductionRun.with_pk k reduction_run))) as Heq.
    { unfold save in Hsave. simpl in Hsave.
      destruct reduction_run as [[i|] ? ? ? ? ? ? ? ? ? ? ?];
        simpl in *; simplify_eq; simpl in *; by simplify_eq. }
    assert (∀ i, ReductionRun.pk reduction_run = Some i → i = k) as Hkey.
    { intros i Hi. unfold save in Hsave. simpl in Hsave.
      rewrite Hi in Hsave. simplify_eq. simpl in Hk. by simplify_eq. }
    split_and!; [done|by rewrite Heq|by rewrite Heq|done..].
Qed.

(** C2, as amended.  [reduction_error] checks no status: on a run in
    any status, Queued, Completed or Skipped included, and a message
    that carries its two logs, it raises no [InvalidStateException] and
    moves the run to Error: the run it returns has status Error, the
    finish time stamped and the message text and logs of the message,
    and is stored under its key, the other runs as they were. *)
Theorem reduction_error_unguarded (reduction_run : ReductionRun.t)
    (message : Message.t) (reduction_log admin_log : string) (utcnow : Z)
    (d : DB) :
  Message.reduction_log message = Some reduction_log →
  Message.admin_log message = Some admin_log →
  ∃ saved d' k,
    reduction_error reduction_run message utcnow d = (Returned saved, d')
    ∧ ReductionRun.status saved = Error
    ∧ ReductionRun.finished saved = Some utcnow
    ∧ ReductionRun.message saved = Message.message message
    ∧ ReductionRun.reduction_log saved = Some reduction_log
    ∧ ReductionRun.admin_log saved = Some admin_log
    ∧ ReductionRun.pk saved = Some k
    ∧ rows (reduction_runs d') !! k = Some saved
    ∧ (∀ j, j ≠ k →
            rows (reduction_runs d') !! j = rows (reduction_runs d) !! j)
    ∧ d' = with_table (reduction_runs d') d.
Proof.
  intros Hreduction_log Hadmin_log.
  unfold reduction_error, safe_save, model_save.
  set (r := _common_reduction_run_update reduction_run Error message utcnow).
  destruct (save_stored r (table_of d)) as (k & Hk & Hrow & Hframe).
  destruct (save r (table_of d)) as [saved t'] eqn:Hsave.
  simpl in Hk, Hrow, Hframe.
  exists saved, (with_table t' d), k.
  assert (saved = r ∨ saved = ReductionRun.with_pk k r) as Heq.
  { unfold save in Hsave. simpl in Hsave.
    destruct (ReductionRun.pk reduction_run);
      simplify_eq; simpl in *; simplify_eq; auto. }
  split_and!; try done; destruct Heq as [-> | ->]; simpl; congruence.
Qed.

(** Saving the output locations of a stored run appends one row for
    each, in order, and touches no other table. *)
Lemma save_reduction_locations (reduction_run : ReductionRun.t) (k : nat)
    (locations : list string) (d : DB) :
  ReductionRun.pk reduction_run = Some k →
  table_wf (reduction_locations d) →
  ∃ t', for_each locations (save_reduction_location reduction_run) d
        = (Returned tt, with_table t' d)
        ∧ table_wf t'
        ∧ all_rows t'
          = all_rows (reduction_locations d)
            ++ imap (λ j location,
                       ReductionLocation.mk
                         (Some (next_id (reduction_locations d) + j)%nat)
                         location k) locations.
Proof.
  intros Hk. revert d.
  induction locations as [|location locations IH]; intros d Hwf.
  - exists (reduction_locations d). simpl.
    rewrite app_nil_r. by destruct d.
  - simpl. unfold mbind at 1, M_bind.
    unfold save_reduction_location at 1. rewrite Hk.
    unfold mbind at 1, M_bind, safe_save, model_save, save. simpl.
    set (row := ReductionLocation.mk
                  (Some (next_id (reduction_locations d))) location k).
    set (t1 := mkTable (<[next_id (reduction_locations d) := row]>
                          (rows (reduction_locations d)))
                       (S (next_id (reduction_locations d)))).
    assert (table_wf t1) as Hwf1.
    { exact (save_wf (ReductionLocation.mk None location k) _ Hwf). }
    specialize (IH (@with_table _ ReductionLocation_Stored t1 d)).
    simpl in IH. destruct (IH Hwf1) as (t' & Hrun & Hwf2 & Hrows).
    exists t'. split_and!; [|done|].
    + exact Hrun.
    + rewrite Hrows. simpl.
      pose proof (all_rows_insert_new (reduction_locations d) row Hwf)
        as Hins.
      fold t1 in Hins. rewrite Hins, <- app_assoc. simpl. unfold row.
      rewrite Nat.add_0_r. do 2 f_equal.
      apply imap_ext. intros j x _. simpl. do 2 f_equal. lia.
Qed.

(** C3.  [reduction_complete] raises [InvalidStateException], and writes
    nothing, when the run is not Processing.  On a stored Processing run
    it returns the run with status Completed and the finish time stamped,
    stores it under its key, and appends to the ReductionLocation table
    one new row for each location of [message.reduction_data], in order,
    each pointing to the run.  [do_reduction] reaches it when the process
    manager has finished and the returned message carries no text. *)
Theorem reduction_complete_transitions (reduction_run : ReductionRun.t)
    (message : Message.t) (utcnow : Z) (d : DB) :
  (ReductionRun.status reduction_run ≠ Processing →
   ∃ e, reduction_complete self reduction_run message utcnow d
        = (Raised e, d)
        ∧ is_InvalidStateException e = true)
  ∧ (∀ k, ReductionRun.status reduction_run = Processing →
          ReductionRun.pk reduction_run = Some k →
          table_wf (reduction_locations d) →
          let completed :=
            _common_reduction_run_update reduction_run Completed message
                                         utcnow in
          ∃ d', reduction_complete self reduction_run message utcnow d
                = (Returned completed, d')
                ∧ ReductionRun.status completed = Completed
                ∧ ReductionRun.finished completed = Some utcnow
                ∧ rows (reduction_runs d') !! k = Some completed
                ∧ (∀ j, j ≠ k → rows (reduction_runs d') !! j
                                = rows (reduction_runs d) !! j)
                ∧ all_rows (reduction_locations d')
                  = all_rows (reduction_locations d)
                    ++ imap (λ j location,
                               ReductionLocation.mk
                                 (Some (next_id (reduction_locations d)
                                        + j)%nat)
                                 location k)
                            (default [] (Message.reduction_data message))
                ∧ d' = with_table (reduction_runs d')
                         (with_table (reduction_locations d') d))
  ∧ (∀ t_start started d1 message' err,
       reduction_started self reduction_run message t_start d
       = (Returned started, d1) →
       process_manager_run self message = (true, message', err) →
       Message.message message' = None →
       do_reduction self reduction_run message t_start utcnow d
       = reduction_complete self started message' utcnow d1).
Proof.
  split_and!.
  - intros Hst. unfold reduction_complete.
    destruct (String.eqb _ "p") eqn:Hp.
    + by apply processing_iff in Hp.
    + simpl. eexists. split; reflexivity.
  - intros k Hst Hk Hwf completed. unfold reduction_complete.
    rewrite (proj2 (processing_iff _) Hst). simpl.
    fold completed.
    assert (ReductionRun.pk completed = Some k) as Hk' by done.
    destruct (save_reduction_locations completed k
                (default [] (Message.reduction_data message)) d Hk' Hwf)
      as (t' & Hrun & _ & Hrows).
    exists (with_table
              (mkTable (<[k := completed]> (rows (reduction_runs d)))
                       (next_id (reduction_runs d) `max` S k))
              (with_table t' d)).
    repeat apply conj; try done.
    + unfold mbind, M_bind.
      assert (match Message.reduction_data message with
              | Some locations =>
                  for_each locations (save_reduction_location completed)
              | None => mret tt
              end d = (Returned tt, with_table t' d)) as ->.
      { destruct (Message.reduction_data message); [done|].
        simpl in Hrun. done. }
      unfold safe_save, model_save, save. simpl. rewrite Hk. by destruct d.
    + simpl. by rewrite lookup_insert_eq.
    + intros j Hj. simpl. by rewrite lookup_insert_ne.
  - intros t_start started d1 message' err Hstart Hrun Hmsg.
    unfold do_reduction. unfold mbind, M_bind. rewrite Hstart, Hrun.
    by rewrite Hmsg.
Qed.

End Lifecycle_properties.

(** C2, counterexample to a guard on the Error transition: a stored
    run that is Queued, not Processing, and a message whose two logs are
    the empty text.  [reduction_error] raises nothing, and the stored
    run becomes Error. *)
Lemma reduction_error_on_queued_run :
  ReductionRun.status (sample_run Queued) ≠ Processing
  ∧ Message.reduction_log sample_message = Some ""
  ∧ Message.admin_log sample_message = Some ""
  ∧ reduction_error (sample_run Queued) sample_message 7 (sample_db Queued)
    = (Returned (ReductionRun.mk (Some 0%nat) 100 0 (Some 0%nat)
                   (Some 0%nat) "print(1)" Error None (Some 7) None
                   (Some "") (Some "")),
       with_table
         (mkTable {[ 0%nat :=
                     ReductionRun.mk (Some 0%nat) 100 0 (Some 0%nat)
                       (Some 0%nat) "print(1)" Error None (Some 7) None
                       (Some "") (Some "") ]} 1%nat)
         empty_db).
Proof. split_and!; [done|done|done|]. vm_compute. reflexivity. Qed.

Lemma reduction_error_unguarded_witness :
  ∃ saved d' k,
    reduction_error (sample_run Completed) sample_message 7
      (sample_db Completed)
    = (Returned saved, d')
    ∧ ReductionRun.status saved = Error
    ∧ ReductionRun.pk saved = Some k
    ∧ rows (reduction_runs d') !! k = Some saved.
Proof.
  destruct (reduction_error_unguarded (sample_run Completed) sample_message
              "" "" 7 (sample_db Completed))
    as (saved & d' & k & Hrun & Hstatus & _ & _ & _ & _ & Hpk & Hrow & _).
  - reflexivity.
  - reflexivity.
  - exists saved, d', k. split_and!; [exact Hrun|exact Hstatus|exact Hpk|].
    exact Hrow.
Defined.

Lemma reduction_started_transitions_witness :
  (∃ e, reduction_started (sample_collaborators None) (sample_run Completed)
          sample_message 5 (sample_db Completed)
        = (Raised e, sample_db Completed)
        ∧ is_InvalidStateException e = true)
  ∧ (∃ saved d' k,
       reduction_started (sample_collaborators None) (sample_run Queued)
         sample_message 5 (sample_db Queued)
       = (Returned saved, d')
       ∧ ReductionRun.status saved = Processing
       ∧ ReductionRun.started saved = Some 5
       ∧ ReductionRun.set_started 5
           (ReductionRun.set_status Processing
              (ReductionRun.with_pk k (sample_run Queued))) = saved
       ∧ (∀ i, ReductionRun.pk (sample_run Queued) = Some i → i = k)
       ∧ rows (reduction_runs d') !! k = Some saved
       ∧ (∀ j, j ≠ k →
               rows (reduction_runs d') !! j
               = rows (reduction_runs (sample_db Queued)) !! j)
       ∧ d' = with_table (reduction_runs d') (sample_db Queued)).
Proof.
  assert (status_codes (sample_collaborators None)) as codes.
  { apply (bool_decide_unpack _). vm_compute. exact I. }
  split.
  - apply (reduction_started_transitions (sample_collaborators None) codes).
    simpl. apply elem_of_cons. by left.
  - apply (reduction_started_transitions (sample_collaborators None) codes).
    simpl. apply elem_of_cons. by left.
Defined.

Lemma reduction_complete_transitions_witness :
  ∃ d', reduction_complete (sample_collaborators None)
          (sample_run Processing) sample_message 9 (sample_db Processing)
        = (Returned
             (_common_reduction_run_update (sample_run Processing)
                Completed sample_message 9), d')
        ∧ all_rows (reduction_locations d')
          = [ReductionLocation.mk (Some 0%nat) "/out/a" 0;
             ReductionLocation.mk (Some 1%nat) "/out/b" 0].
Proof.
  assert (status_codes (sample_collaborators None)) as codes.
  { apply (bool_decide_unpack _). vm_compute. exact I. }
  assert (table_wf (reduction_locations (sample_db Processing))) as Hwf.
  { intros i r Hi. vm_compute in Hi. discriminate. }
  destruct (proj1 (proj2 (reduction_complete_transitions
                            (sample_collaborators None) codes
                            (sample_run Processing) sample_message 9
                            (sample_db Processing)))
                  0%nat eq_refl eq_refl Hwf)
    as (d' & Hrun & _ & _ & _ & _ & Hlocations & _).
  exists d'. split; [exact Hrun|exact Hlocations].
Defined.

(** ** Run versions *)

Lemma steady_refl (d : DB) : steady d d.
Proof. by split_and!. Qed.

Lemma steady_trans (d1 d2 d3 : DB) :
  steady d1 d2 → steady d2 d3 → steady d1 d3.
Proof.
  intros (He & Hn & Hf) (He' & Hn' & Hf'). split_and!; [congruence..|].
  intros i. by rewrite Hf', Hf.
Qed.

Lemma quiet_steady {A} (m : M DB A) (d : DB) : quiet m → steady d (m d).2.
Proof.
  intros Hq. destruct (Hq d) as [Hr He]. split_and!; [done|..];
    by rewrite Hr.
Qed.

Lemma steady_wf (d d' : DB) :
  steady d d' → table_wf (reduction_runs d) → table_wf (reduction_runs d').
Proof.
  intros (_ & Hn & Hf) Hwf i r Hi. rewrite Hn.
  specialize (Hf i). rewrite Hi in Hf. simpl in Hf.
  destruct (rows (reduction_runs d) !! i) as [r0|] eqn:Hr0; [|done].
  by eapply Hwf.
Qed.

Lemma steady_fields (d d' : DB) :
  steady d d' →
  scope_fields <$> all_rows (reduction_runs d')
  = scope_fields <$> all_rows (reduction_runs d).
Proof.
  intros (_ & Hn & Hf). unfold all_rows.
  rewrite !list_fmap_omap, Hn.
  apply list_omap_ext, Forall2_same_length_lookup_2; [done|].
  intros i a b Ha Hb. rewrite Ha in Hb. simplify_eq. apply Hf.
Qed.

Lemma steady_stored (d d' : DB) (run : ReductionRun.t) :
  steady d d' → stored d run → stored d' run.
Proof.
  intros (_ & _ & Hf) (k & r0 & Hk & Hrow & Hfields).
  specialize (Hf k). rewrite Hrow in Hf. simpl in Hf.
  destruct (rows (reduction_runs d') !! k) as [r1|] eqn:Hr1; [|done].
  exists k, r1. simpl in Hf. split_and!; [done..|congruence].
Qed.

Lemma keeps_run_raise (run : ReductionRun.t) (e : exn) :
  keeps_run run (raise e).
Proof. intros d _ _. split; [apply steady_refl|done]. Qed.

Lemma keeps_run_ret (run : ReductionRun.t) : keeps_run run (mret run).
Proof.
  intros d _ Hst. split; [apply steady_refl|].
  intros run' Hr. simpl in Hr. unfold mret, M_ret in Hr. by simplify_eq.
Qed.

Lemma keeps_run_save (run run' : ReductionRun.t) :
  ReductionRun.pk run' = ReductionRun.pk run →
  scope_fields run' = scope_fields run →
  keeps_run run (safe_save run').
Proof.
  intros Hpk Hfields d Hwf (k & r0 & Hk & Hrow & Hr0).
  unfold safe_save, model_save, save. simpl. rewrite Hpk, Hk. simpl.
  assert (k < next_id (reduction_runs d))%nat as Hlt by by eapply Hwf.
  split.
  - split_and!; simpl; [done|lia|].
    intros i. destruct (decide (k = i)) as [<-|Hne].
    + rewrite lookup_insert_eq, Hrow. simpl. congruence.
    + by rewrite lookup_insert_ne.
  - intros ? [= <-]. split; [|done].
    exists k, run'. simpl. rewrite lookup_insert_eq.
    split_and!; congruence.
Qed.

Lemma keeps_run_bind (run : ReductionRun.t) (m : M DB ReductionRun.t)
    (f : ReductionRun.t → M DB ReductionRun.t) :
  keeps_run run m →
  (∀ run', scope_fields run' = scope_fields run → keeps_run run' (f run')) →
  keeps_run run (m ≫= f).
Proof.
  intros Hm Hf d Hwf Hst. unfold mbind, M_bind.
  destruct (Hm d Hwf Hst) as [Hsteady Hres].
  destruct (m d) as [[run1|e] d1]; simpl in *; [|by split].
  destruct (Hres run1 eq_refl) as [Hst1 Hfields1].
  destruct (Hf run1 Hfields1 d1 (steady_wf _ _ Hsteady Hwf) Hst1)
    as [Hsteady2 Hres2].
  split; [by eapply steady_trans|].
  intros run2 Hr2. destruct (Hres2 run2 Hr2). split; [done|congruence].
Qed.

Lemma keeps_run_after_quiet {A} (run : ReductionRun.t) (m : M DB A)
    (f : A → M DB ReductionRun.t) :
  quiet m → (∀ a, keeps_run run (f a)) → keeps_run run (m ≫= f).
Proof.
  intros Hq Hf d Hwf Hst. unfold mbind, M_bind.
  pose proof (quiet_steady m d Hq) as Hsteady.
  destruct (m d) as [[a|e] d1]; simpl in *; [|by split].
  destruct (Hf a d1 (steady_wf _ _ Hsteady Hwf)
              (steady_stored _ _ _ Hsteady Hst)) as [Hsteady2 Hres2].
  split; [by eapply steady_trans|done].
Qed.

Lemma quiet_bind {A B} (m : M DB A) (f : A → M DB B) :
  quiet m → (∀ a, quiet (f a)) → quiet (m ≫= f).
Proof.
  intros Hm Hf d. unfold mbind, M_bind.
  destruct (Hm d) as [Hr He].
  destruct (m d) as [[a|e] d1]; simpl in *; [|done].
  destruct (Hf a d1) as [Hr' He']. split; congruence.
Qed.

Lemma quiet_for_each {A} (xs : list A) (body : A → M DB unit) :
  (∀ x, quiet (body x)) → quiet (for_each xs body).
Proof.
  intros Hbody. induction xs as [|x xs IH]; [done|].
  simpl. apply quiet_bind; [apply Hbody|done].
Qed.

Lemma quiet_save_reduction_location (run : ReductionRun.t)
    (location : string) :
  quiet (save_reduction_location run location).
Proof.
  intros d. unfold save_reduction_location.
  by destruct (ReductionRun.pk run).
Qed.

Lemma fields_highest_of_runs (rn : Z) (e : Experiment.t) (d : DB) :
  find_highest_run_version rn e d
  = fields_highest rn (Experiment.pk e)
      (scope_fields <$> all_rows (reduction_runs d)).
Proof.
  unfold find_highest_run_version, fields_highest.
  induction (all_rows (reduction_runs d)) as [|r l IH]; [done|].
  rewrite fmap_cons, !filter_cons.
  destruct (decide (in_scope rn e r)) as [Hin|Hout];
    destruct (decide (fields_in_scope rn (Experiment.pk e) (scope_fields r)))
      as [Hin'|Hout']; simpl; try by rewrite IH.
Qed.

Lemma fields_highest_created (rn : Z) (e : Experiment.t) (k : nat) :
  fields_highest rn (Experiment.pk e) (created_fields rn e k) = Z.of_nat k.
Proof.
  unfold fields_highest, created_fields.
  assert (∀ j a, 0 ≤ a →
            foldr (λ f acc, (f.2 + 1) `max` acc) a
              (filter (fields_in_scope rn (Experiment.pk e))
                 ((λ v : nat, (rn, Experiment.pk e, Z.of_nat v))
                    <$> seq j k))
            = (if decide (k = 0%nat) then a
               else a `max` Z.of_nat (j + k))) as Hgen.
  { induction k as [|k IH]; intros j a Ha; [done|].
    rewrite seq_S, fmap_app, filter_app, foldr_app. simpl.
    rewrite filter_cons_True by done. simpl.
    rewrite IH by lia. destruct (decide (k = 0%nat)); simpl; lia. }
  rewrite Hgen by done. case_decide; lia.
Qed.

Lemma fields_highest_base (rn : Z) (pk : option nat)
    (base fs : list (Z * option nat * Z)) :
  Forall (λ f, ¬ fields_in_scope rn pk f) base →
  fields_highest rn pk (base ++ fs) = fields_highest rn pk fs.
Proof.
  intros Hbase. unfold fields_highest. rewrite filter_app.
  assert (filter (fields_in_scope rn pk) base = []) as ->; [|done].
  induction Hbase as [|f base Hf _ IH]; [done|].
  by rewrite filter_cons_False.
Qed.

Lemma created_fields_S (rn : Z) (e : Experiment.t) (k : nat) :
  created_fields rn e (S k)
  = created_fields rn e k ++ [(rn, Experiment.pk e, Z.of_nat k)].
Proof. unfold created_fields. by rewrite seq_S, fmap_app. Qed.

Lemma scope_inv_ext (rn rb : Z) (e : Experiment.t)
    (base : list (Z * option nat * Z)) (d d' : DB) (k : nat) :
  reduction_runs d' = reduction_runs d → experiments d' = experiments d →
  scope_inv rn rb e base d k → scope_inv rn rb e base d' k.
Proof.
  intros Hr He (Hwf & Hwfe & Hexp & Hfields).
  unfold scope_inv, experiment_for in *. by rewrite Hr, He.
Qed.

Lemma scope_inv_steady (rn rb : Z) (e : Experiment.t)
    (base : list (Z * option nat * Z)) (d d' : DB) (k : nat) :
  steady d d' → scope_inv rn rb e base d k → scope_inv rn rb e base d' k.
Proof.
  intros Hsteady (Hwf & Hwfe & Hexp & Hfields).
  pose proof (steady_fields _ _ Hsteady) as Hf.
  pose proof (steady_wf _ _ Hsteady Hwf) as Hwf'.
  destruct Hsteady as (He & _ & _).
  unfold scope_inv, experiment_for in *. rewrite He.
  split_and!; [done..|congruence].
Qed.

(** [get_experiment] answers with [experiment_for], and keeps answering
    with it. *)
Lemma get_experiment_spec (rb : Z) (d : DB) :
  table_wf (experiments d) →
  ∃ d', get_experiment rb d = (Returned (experiment_for rb d), d')
        ∧ reduction_runs d' = reduction_runs d
        ∧ table_wf (experiments d')
        ∧ experiment_for rb d' = experiment_for rb d.
Proof.
  intros Hwf. unfold get_experiment, experiment_for.
  destruct (filter _ (all_rows (experiments d))) as [|e l] eqn:Hfilter.
  - unfold model_save, save. simpl.
    eexists. split_and!; [reflexivity|done|..].
    + exact (save_wf (Experiment.mk None rb) _ Hwf).
    + simpl. rewrite (all_rows_insert_new (experiments d)) by done.
      rewrite filter_app, Hfilter. simpl.
      by rewrite filter_cons_True.
  - exists d. by rewrite Hfilter.
Qed.

Section Data_ready_properties.

Variable self : Collaborators.

Lemma keeps_run_reduction_skipped (run : ReductionRun.t)
    (message : Message.t) (utcnow : Z) :
  keeps_run run (reduction_skipped run message utcnow).
Proof. by apply keeps_run_save. Qed.

Lemma keeps_run_reduction_error (run : ReductionRun.t)
    (message : Message.t) (utcnow : Z) :
  keeps_run run (reduction_error run message utcnow).
Proof. by apply keeps_run_save. Qed.

Lemma keeps_run_reduction_started (run : ReductionRun.t)
    (message : Message.t) (utcnow : Z) :
  keeps_run run (reduction_started self run message utcnow).
Proof.
  unfold reduction_started. case_match.
  - apply keeps_run_raise.
  - by apply keeps_run_save.
Qed.

Lemma keeps_run_reduction_complete (run : ReductionRun.t)
    (message : Message.t) (utcnow : Z) :
  keeps_run run (reduction_complete self run message utcnow).
Proof.
  unfold reduction_complete. case_match.
  - apply keeps_run_raise.
  - apply keeps_run_after_quiet.
    + destruct (Message.reduction_data message); [|done].
      apply quiet_for_each. intros x.
      apply quiet_save_reduction_location.
    + intros _. by apply keeps_run_save.
Qed.

Lemma keeps_run_do_reduction (run : ReductionRun.t) (message : Message.t)
    (t_start t_end : Z) :
  keeps_run run (do_reduction self run message t_start t_end).
Proof.
  unfold do_reduction. apply keeps_run_bind.
  - apply keeps_run_reduction_started.
  - intros run' _.
    destruct (process_manager_run self message) as [[finished m'] err].
    destruct finished; [|apply keeps_run_ret].
    destruct (Message.message m').
    + apply keeps_run_reduction_error.
    + apply keeps_run_reduction_complete.
Qed.

Lemma keeps_run_send_message_onwards (run : ReductionRun.t)
    (message : Message.t) (instrument : Instrument.t) (t_start t_end : Z) :
  keeps_run run
    (send_message_onwards self run message instrument t_start t_end).
Proof.
  unfold send_message_onwards. repeat case_match.
  - apply keeps_run_reduction_skipped.
  - apply keeps_run_reduction_skipped.
  - apply keeps_run_do_reduction.
Qed.

Lemma quiet_get_and_activate (name : string) :
  quiet (_get_and_activate_db_inst self name).
Proof.
  unfold _get_and_activate_db_inst. apply quiet_bind.
  - intros d. unfold on_table.
    by destruct (get_instrument self name (table_of d)).
  - intros i. case_match; intros d; [|done].
    unfold model_save. by destruct (save _ (table_of d)).
Qed.

(** One event: the store keeps the invariant, with one more run of the
    scope when the event gets as far as creating it. *)
Lemma data_ready_step (rn rb : Z) (e : Experiment.t)
    (base : list (Z * option nat * Z)) (message : Message.t)
    (t_start t_end : Z) (d : DB) (k : nat) :
  leaves_runs_alone self →
  Forall (λ f, ¬ fields_in_scope rn (Experiment.pk e) f) base →
  Message.run_number message = rn →
  effective_rb_number self message = rb →
  scope_inv rn rb e base d k →
  (scope_inv rn rb e base (data_ready self message t_start t_end d).2 k
   ∨ scope_inv rn rb e base (data_ready self message t_start t_end d).2
               (S k))
  ∧ (always_admits self →
     scope_inv rn rb e base (data_ready self message t_start t_end d).2
               (S k)).
Proof.
  intros [Hvars Hargs] Hbase Hrn Hrb Hinv.
  set (Q := λ d' : DB,
         (scope_inv rn rb e base d' k ∨ scope_inv rn rb e base d' (S k))
         ∧ (always_admits self → scope_inv rn rb e base d' (S k))).
  change (Q (data_ready self message t_start t_end d).2).
  unfold data_ready.
  set (message1 := if negb _ then _ else message).
  assert (Message.rb_number message1 = rb) as Hrb1.
  { unfold message1, effective_rb_number in *.
    by destruct (validate_rb_number self _). }
  assert (Message.run_number message1 = rn) as Hrn1.
  { unfold message1. by destruct (negb _). }
  assert (Message.instrument message1 = Message.instrument message)
    as Hinst1.
  { unfold message1. by destruct (negb _). }
  rewrite Hrb1, Hrn1, Hinst1. clearbody message1.
  unfold mbind at 1, M_bind at 1.
  destruct (quiet_get_and_activate (Message.instrument message) d)
    as [Hr0 He0].
  assert (always_admits self →
          ∃ i, (_get_and_activate_db_inst self
                  (Message.instrument message) d).1 = Returned i) as Hadm.
  { intros [_ Hget]. unfold _get_and_activate_db_inst.
    unfold mbind, M_bind, on_table.
    destruct (Hget (Message.instrument message) (table_of d))
      as (i & t' & ->).
    destruct (negb (Instrument.is_active i)); [|by eexists].
    unfold model_save. destruct (save _ _). by eexists. }
  destruct (_get_and_activate_db_inst self (Message.instrument message) d)
    as [[instrument|err] d1]; simpl in Hr0, He0, Hadm.
  2:{ pose proof (scope_inv_ext _ _ _ _ _ _ _ Hr0 He0 Hinv) as Hinv1.
      split; [by left|]. intros Ha. by destruct (Hadm Ha). }
  pose proof (scope_inv_ext _ _ _ _ _ _ _ Hr0 He0 Hinv) as Hinv1.
  clear Hadm Hinv Hr0 He0.
  destruct Hinv1 as (Hwf & Hwfe & Hexp & Hfields).
  destruct (get_experiment_spec rb d1 Hwfe) as (d2 & Hget & Hr2 & Hwfe2 & Hexp2).
  unfold mbind at 1, M_bind at 1. rewrite Hget, Hexp.
  unfold mbind at 1, M_bind at 1, get_state at 1.
  assert (scope_inv rn rb e base d2 k) as Hinv2.
  { unfold scope_inv. rewrite Hr2, Hexp2. done. }
  assert (find_highest_run_version rn e d2 = Z.of_nat k) as ->.
  { rewrite fields_highest_of_runs, Hr2, Hfields.
    rewrite fields_highest_base by done. apply fields_highest_created. }
  destruct (get_current_script_text self (Instrument.name instrument))
    as [script_text|] eqn:Hscript.
  2:{ split; [by left|]. intros [Hs _].
      destruct (Hs (Instrument.name instrument)) as [? Hx]. congruence. }
  set (run0 := create_reduction_run_record _ _ _ _ _ _).
  unfold mbind at 1, M_bind at 1.
  unfold safe_save at 1, model_save at 1, save. simpl.
  set (run1 := ReductionRun.with_pk (next_id (reduction_runs d2)) run0).
  match goal with |- Q (_ ?s).2 => set (d3 := s) end.
  assert (scope_inv rn rb e base d3 (S k) ∧ stored d3 run1) as [Hinv3 Hst3].
  { destruct Hinv2 as (Hwf2 & Hwfe2' & Hexp2' & Hfields2). split.
    - unfold scope_inv, d3. simpl. split_and!; [|done|exact Hexp2'|].
      + exact (save_wf run0 _ Hwf2).
      + rewrite (all_rows_insert_new (reduction_runs d2)) by done.
        rewrite fmap_app, Hfields2, created_fields_S, <- app_assoc.
        unfold scope_fields, run1, run0. simpl. by rewrite Hrn1.
    - exists (next_id (reduction_runs d2)), run1. unfold d3. simpl.
      by rewrite lookup_insert_eq. }
  match goal with
  | |- Q (?m d3).2 => assert (keeps_run run1 m) as Hkeeps
  end.
  { apply keeps_run_after_quiet.
    { intros x. by unfold safe_save, model_save, save. }
    intros _. apply keeps_run_after_quiet.
    { intros x. apply Hvars. }
    intros _. apply keeps_run_after_quiet.
    { intros x. apply Hargs. }
    intros [script arguments]. apply keeps_run_send_message_onwards. }
  destruct (Hkeeps d3 (proj1 Hinv3) Hst3) as [Hsteady _].
  pose proof (scope_inv_steady _ _ _ _ _ _ _ Hsteady Hinv3).
  split; [by right|done].
Qed.

End Data_ready_properties.

Lemma data_ready_events_inv (self : Collaborators) (rn rb : Z)
    (e : Experiment.t) (base : list (Z * option nat * Z))
    (events : list (Message.t * Z * Z)) :
  leaves_runs_alone self →
  Forall (λ f, ¬ fields_in_scope rn (Experiment.pk e) f) base →
  Forall (λ ev, Message.run_number ev.1.1 = rn
                ∧ effective_rb_number self ev.1.1 = rb) events →
  ∀ d k, scope_inv rn rb e base d k →
         ∃ n, (n ≤ length events)%nat
              ∧ scope_inv rn rb e base (data_ready_events self events d)
                          (k + n)
              ∧ (always_admits self → n = length events).
Proof.
  intros Halone Hbase Hevents.
  induction Hevents as [|[[message t_start] t_end] events [Hrn Hrb] _ IH];
    intros d k Hinv.
  - exists 0%nat. rewrite Nat.add_0_r. by split_and!.
  - simpl in Hrn, Hrb.
    destruct (data_ready_step self rn rb e base message t_start t_end d k
                Halone Hbase Hrn Hrb Hinv) as [[Hsame|Hmore] Hadm].
    + destruct (IH _ _ Hsame) as (n & Hn & Hinv' & Hall).
      exists n. split_and!; [simpl; lia|exact Hinv'|].
      intros Ha. specialize (Hadm Ha).
      destruct Hsame as (_ & _ & _ & Hk), Hadm as (_ & _ & _ & HSk).
      rewrite Hk, created_fields_S in HSk.
      apply (f_equal length) in HSk. rewrite !length_app in HSk.
      simpl in HSk. lia.
    + destruct (IH _ _ Hmore) as (n & Hn & Hinv' & Hall).
      exists (S n). split_and!; [simpl; lia| |].
      * replace (k + S n)%nat with (S k + n)%nat by lia. exact Hinv'.
      * intros Ha. simpl. by rewrite Hall.
Qed.

(** C4.  Data-ready events for one run number that all resolve to one
    experiment reference, handled one after another on a store that holds
    no run of that scope yet: the runs created are appended in order and
    carry the versions 0, 1, 2, ..., one run for each event that finds its
    instrument and a script.  The version comes from
    [find_highest_run_version] as the specification describes it, scoped
    by run number and experiment as the call in [data_ready] is. *)
Theorem run_versions_increase (self : Collaborators)
    (events : list (Message.t * Z * Z)) (rn rb : Z) (d : DB) :
  leaves_runs_alone self →
  table_wf (reduction_runs d) →
  table_wf (experiments d) →
  Forall (λ ev, Message.run_number ev.1.1 = rn
                ∧ effective_rb_number self ev.1.1 = rb) events →
  Forall (λ r, ¬ in_scope rn (experiment_for rb d) r)
         (all_rows (reduction_runs d)) →
  ∃ n, (n ≤ length events)%nat
       ∧ scope_fields
           <$> all_rows (reduction_runs (data_ready_events self events d))
         = (scope_fields <$> all_rows (reduction_runs d))
           ++ ((λ v : nat,
                  (rn, Experiment.pk (experiment_for rb d), Z.of_nat v))
               <$> seq 0 n)
       ∧ (always_admits self → n = length events).
Proof.
  intros Halone Hwf Hwfe Hevents Hnone.
  destruct (data_ready_events_inv self rn rb (experiment_for rb d)
              (scope_fields <$> all_rows (reduction_runs d)) events
              Halone) with (d := d) (k := 0%nat)
    as (n & Hn & (_ & _ & _ & Hfields) & Hall); [|done|..].
  - apply Forall_fmap. eapply Forall_impl; [exact Hnone|].
    intros r Hr [Hrn He]. apply Hr. by split.
  - unfold scope_inv, created_fields. simpl. by rewrite app_nil_r.
  - exists n. by split_and!.
Qed.

Lemma run_versions_increase_witness :
  ∃ n, (n ≤ 3)%nat
       ∧ scope_fields
           <$> all_rows
                 (reduction_runs
                    (data_ready_events (sample_collaborators (Some "pass"))
                       [(sample_message, 1, 2); (sample_message, 3, 4);
                        (sample_message, 5, 6)] empty_db))
         = [] ++ ((λ v : nat, (100, Some 0%nat, Z.of_nat v)) <$> seq 0 n)
       ∧ (always_admits (sample_collaborators (Some "pass")) → n = 3%nat).
Proof.
  apply (run_versions_increase (sample_collaborators (Some "pass"))
           [(sample_message, 1, 2); (sample_message, 3, 4);
            (sample_message, 5, 6)] 100 1234567 empty_db).
  - split; intros run d; split; reflexivity.
  - intros i r Hi. vm_compute in Hi. discriminate.
  - intros i r Hi. vm_compute in Hi. discriminate.
  - repeat constructor.
  - constructor.
Defined.

(** The scenario of the specification: three events for run 100 of
    experiment 1234567 on an unpaused instrument end as three Completed
    runs with versions 0, 1 and 2, one input location each. *)
Example data_ready_events_sample :
  let d := data_ready_events (sample_collaborators (Some "pass"))
             [(sample_message, 1, 2); (sample_message, 3, 4);
              (sample_message, 5, 6)] empty_db in
  (λ r, (ReductionRun.run_version r, ReductionRun.status r))
    <$> all_rows (reduction_runs d)
  = [(0, Completed); (1, Completed); (2, Completed)]
  ∧ DataLocation.reduction_run_id <$> all_rows (data_locations d)
    = [Some 0%nat; Some 1%nat; Some 2%nat].
Proof. split; vm_compute; reflexivity. Qed.

(** ** The missing script *)

Lemma get_experiment_returns (rb : Z) (d : DB) :
  ∃ e d', get_experiment rb d = (Returned e, d')
          ∧ reduction_runs d' = reduction_runs d.
Proof.
  unfold get_experiment.
  destruct (filter _ (all_rows (experiments d))) as [|e l].
  - unfold model_save. destruct (save _ (table_of d)) as [e t'].
    by exists e, (with_table t' d).
  - by exists e, d.
Qed.

(** C5, what the code does.  When the instrument is found and has no
    script text, [data_ready] ends in the [TypeError] of the call
    [self.reduction_error(message)]: no [InvalidStateException] is
    raised, and the table of runs is as it was, so no run has been set to
    Error. *)
Theorem data_ready_without_script (self : Collaborators)
    (message : Message.t) (t_start t_end : Z) (d d1 : DB)
    (instrument : Instrument.t) :
  _get_and_activate_db_inst self (Message.instrument message) d
  = (Returned instrument, d1) →
  get_current_script_text self (Instrument.name instrument) = None →
  ∃ d', data_ready self message t_start t_end d
        = (Raised
             (TypeError
                "reduction_error() missing 1 required positional argument: 'message'"),
           d')
        ∧ reduction_runs d' = reduction_runs d.
Proof.
  intros Hinst Hscript. unfold data_ready.
  set (message1 := if negb _ then _ else message).
  assert (Message.instrument message1 = Message.instrument message) as ->.
  { unfold message1. by destruct (negb _). }
  pose proof (quiet_get_and_activate self (Message.instrument message) d)
    as [Hruns _].
  unfold mbind at 1, M_bind at 1. rewrite Hinst in *. simpl in Hruns.
  destruct (get_experiment_returns (Message.rb_number message1) d1)
    as (e & d2 & Hget & Hruns2).
  unfold mbind at 1, M_bind at 1. rewrite Hget.
  unfold mbind at 1, M_bind at 1, get_state at 1. rewrite Hscript.
  exists d2. split; [done|congruence].
Qed.

Lemma data_ready_without_script_witness :
  ∃ d', data_ready (sample_collaborators None) sample_message 1 2 empty_db
        = (Raised
             (TypeError
                "reduction_error() missing 1 required positional argument: 'message'"),
           d')
        ∧ reduction_runs d' = reduction_runs empty_db.
Proof.
  eapply (data_ready_without_script (sample_collaborators None)
            sample_message 1 2 empty_db).
  - vm_compute. reflexivity.
  - reflexivity.
Defined.

(** ** The resolver *)

Section Resolver_properties.

Variable self : VariableServices.

(** C6.  A stored variable whose value, type or help text differs from
    the resolved one, met at a run number other than its [start_run]:
    [_update_or_copy_if_changed] inserts a new row under a new key,
    carrying the new value, type and help text, [start_run] the run
    number and every other attribute of the old row; the old row stays
    in the store with every field as it was, and so does every other
    row.  A resolution reaches it on a row that tracks the script: when
    the selection returns the row for the one variable a script declares,
    [find_or_make_variables] answers with the new row and leaves that
    same store. *)
Theorem update_or_copy_keeps_old_row (variable : InstrumentVariable.t)
    (new_value new_type new_help_text : string) (run_number : Z) (d : DB)
    (k : nat) :
  table_wf (instrument_variables d) →
  InstrumentVariable.pk variable = Some k →
  rows (instrument_variables d) !! k = Some variable →
  InstrumentVariable.start_run variable ≠ Some run_number →
  new_value ≠ InstrumentVariable.value variable
  ∨ new_type ≠ InstrumentVariable.type variable
  ∨ new_help_text ≠ InstrumentVariable.help_text variable →
  let new_key := next_id (instrument_variables d) in
  let new_row :=
    InstrumentVariable.mk (Some new_key) (InstrumentVariable.name variable)
      new_value new_type new_help_text
      (InstrumentVariable.is_advanced variable)
      (InstrumentVariable.instrument_id variable)
      (InstrumentVariable.tracks_script variable)
      (InstrumentVariable.experiment_reference variable)
      (Some run_number) in
  ∃ d', _update_or_copy_if_changed variable new_value new_type
          new_help_text run_number d
        = (Returned new_row, d')
        ∧ new_key ≠ k
        ∧ rows (instrument_variables d') !! k = Some variable
        ∧ rows (instrument_variables d') !! new_key = Some new_row
        ∧ (∀ j, j ≠ new_key →
                rows (instrument_variables d') !! j
                = rows (instrument_variables d) !! j)
        ∧ all_rows (instrument_variables d')
          = all_rows (instrument_variables d) ++ [new_row]
        ∧ d' = with_table (instrument_variables d') d
        ∧ ∀ possible_variables instrument_id name default_value
            variable_help experiment_reference force_update,
            let reduction_arguments :=
              ResolverArguments.mk [(name, default_value)] []
                                   variable_help in
            str_replace_char "]"%char ""
              (str_replace_char "["%char "" (py_str self default_value))
            = new_value →
            get_type_string self default_value = new_type →
            get_help_text "standard_vars" name reduction_arguments
            = new_help_text →
            _find_appropriate_variable possible_variables name
                                       experiment_reference d
            = (Returned (Some variable), d) →
            InstrumentVariable.tracks_script variable = true →
            find_or_make_variables self possible_variables run_number
              instrument_id reduction_arguments experiment_reference true
              force_update d
            = (Returned [new_row], d').
Proof.
  intros Hwf Hpk Hrow Hstart Hchanged new_key new_row.
  assert (new_key ≠ k) as Hne.
  { apply Hwf in Hrow. unfold new_key. lia. }
  exists (with_table
            (mkTable (<[new_key := new_row]> (rows (instrument_variables d)))
                     (S new_key)) d).
  match goal with
  | |- ?run ∧ _ => assert (run) as Hrun
  end.
  2:{ split_and!; [exact Hrun|done|simpl; by rewrite lookup_insert_ne
                  |simpl; by rewrite lookup_insert_eq
                  |intros j Hj; simpl; by rewrite lookup_insert_ne
                  |simpl; by apply all_rows_insert_new|done|].
      intros qs instrument_id name default_value variable_help exp force
        reduction_arguments Hvalue Htype Hhelp Hfind Htracks.
      unfold find_or_make_variables. simpl.
      unfold mbind at 1, M_bind at 1. unfold mbind at 1, M_bind at 1.
      rewrite Hfind, Htracks. simpl.
      fold reduction_arguments. rewrite Hvalue, Htype, Hhelp, Hrun.
      reflexivity. }
  unfold _update_or_copy_if_changed.
  assert (exact (InstrumentVariable.start_run variable) (Some run_number)
          = false) as Hexact.
  { by apply bool_decide_eq_false_2. }
  destruct variable as [pk name value type help adv inst tracks exp start].
  simpl in *.
  destruct (decide (new_value = value)) as [->|Hv];
    destruct (decide (new_type = type)) as [->|Ht];
    destruct (decide (new_help_text = help)) as [->|Hh];
    try (by destruct Hchanged as [?|[?|?]]);
    repeat (simpl;
            first [rewrite String.eqb_refl
                  |rewrite (proj2 (String.eqb_neq _ _) Hv)
                  |rewrite (proj2 (String.eqb_neq _ _) Ht)
                  |rewrite (proj2 (String.eqb_neq _ _) Hh)]);
    simpl; rewrite Hexact; reflexivity.
Qed.

(** *** The heap under [merge_arguments] *)

Lemma alloc_spec (d : dict PyValue) (h : Heap) :
  ∃ l, alloc d h = (Returned l, <[l := d]> h) ∧ h !! l = None.
Proof.
  exists (fresh (dom h)). split; [done|].
  apply not_elem_of_dom, is_fresh.
Qed.

Lemma deepcopy_spec (l : nat) (h : Heap) :
  ∃ l', deepcopy l h = (Returned l', <[l' := default [] (h !! l)]> h)
        ∧ h !! l' = None.
Proof.
  unfold deepcopy, mbind, M_bind, heap_read.
  destruct (alloc_spec (default [] (h !! l)) h) as (l' & -> & Hl').
  by exists l'.
Qed.

Lemma getattr_dict_spec (attr : option nat) (h : Heap) :
  ∃ l h', getattr_dict attr h = (Returned l, h') ∧ h ⊆ h'
          ∧ (∀ a, attr = Some a → l = a ∧ h' = h).
Proof.
  destruct attr as [a|]; simpl.
  - exists a, h. split_and!; [done|done|]. by intros ? [= <-].
  - destruct (alloc_spec [] h) as (l & -> & Hl).
    exists l, (<[l := []]> h). split_and!; [done|by apply insert_subseteq|done].
Qed.

(** The loop of [set_with_correct_type] writes to its target only. *)
Lemma coerce_loop_frame (target : nat) (overrides : dict PyValue)
    (h0 h : Heap) :
  h0 !! target = None → h0 ⊆ h →
  h0 ⊆ (for_each overrides (λ '(name, value),
          current ← heap_read target;
          match dict_get current name with
          | None => raise (KeyError name)
          | Some default_value =>
              heap_write target
                (dict_set current name
                   (convert_variable_to_type self value
                      (get_type_string self default_value)))
          end) h).2.
Proof.
  intros Hnone. revert h.
  induction overrides as [|[name value] overrides IH]; intros h Hsub;
    [done|].
  simpl. unfold mbind at 1, M_bind at 1.
  unfold mbind at 1, M_bind at 1, heap_read at 1.
  destruct (dict_get (default [] (h !! target)) name) as [dv|]; [|done].
  unfold heap_write at 1. apply IH. by apply insert_subseteq_r.
Qed.

Lemma set_with_correct_type_frame
    (message_reduction_arguments : ReductionArguments)
    (reduction_args : dict nat) (dict_name : string) (h0 h : Heap) :
  (∀ target, dict_get reduction_args dict_name = Some target →
             h0 !! target = None) →
  h0 ⊆ h →
  h0 ⊆ (set_with_correct_type self message_reduction_arguments
          reduction_args dict_name h).2.
Proof.
  intros Htarget Hsub. unfold set_with_correct_type.
  destruct (dict_get message_reduction_arguments dict_name) as [ov|];
    [|done].
  destruct (dict_get reduction_args dict_name) as [target|]; [|done].
  apply coerce_loop_frame; [by apply Htarget|done].
Qed.

(** C10.  Whatever the overrides and whatever the outcome,
    [merge_arguments] leaves every object of the heap it started from as
    it was, the dictionaries behind the module's [standard_vars] and
    [advanced_vars] among them; the two dictionaries it returns are new
    objects, distinct from each other and from every object that was
    there. *)
Theorem merge_arguments_copies
    (message_reduction_arguments : ReductionArguments)
    (reduce_vars_module : ReduceVarsModule.t) (h : Heap) :
  h ⊆ (merge_arguments self message_reduction_arguments
         reduce_vars_module h).2
  ∧ (∀ l d, ReduceVarsModule.standard_vars reduce_vars_module = Some l →
            h !! l = Some d →
            (merge_arguments self message_reduction_arguments
               reduce_vars_module h).2 !! l = Some d)
  ∧ (∀ l d, ReduceVarsModule.advanced_vars reduce_vars_module = Some l →
            h !! l = Some d →
            (merge_arguments self message_reduction_arguments
               reduce_vars_module h).2 !! l = Some d)
  ∧ (∀ merged,
       (merge_arguments self message_reduction_arguments
          reduce_vars_module h).1 = Returned merged →
       h !! MergedArguments.standard_vars merged = None
       ∧ h !! MergedArguments.advanced_vars merged = None
       ∧ MergedArguments.standard_vars merged
         ≠ MergedArguments.advanced_vars merged).
Proof.
  assert (h ⊆ (merge_arguments self message_reduction_arguments
                 reduce_vars_module h).2
          ∧ ∀ merged,
              (merge_arguments self message_reduction_arguments
                 reduce_vars_module h).1 = Returned merged →
              h !! MergedArguments.standard_vars merged = None
              ∧ h !! MergedArguments.advanced_vars merged = None
              ∧ MergedArguments.standard_vars merged
                ≠ MergedArguments.advanced_vars merged) as [Hsub Hnew].
  2:{ split_and!; [done| | |done];
        intros l d _ Hl; by eapply lookup_weaken. }
  set (Q := λ res : outcome MergedArguments.t * Heap,
         h ⊆ res.2
         ∧ ∀ merged, res.1 = Returned merged →
                     h !! MergedArguments.standard_vars merged = None
                     ∧ h !! MergedArguments.advanced_vars merged = None
                     ∧ MergedArguments.standard_vars merged
                       ≠ MergedArguments.advanced_vars merged).
  change (Q (merge_arguments self message_reduction_arguments
               reduce_vars_module h)).
  unfold merge_arguments.
  destruct (getattr_dict_spec
              (ReduceVarsModule.standard_vars reduce_vars_module) h)
    as (s0 & h1 & Hs0 & Hsub1 & _).
  unfold mbind at 1, M_bind at 1. rewrite Hs0.
  destruct (deepcopy_spec s0 h1) as (s & Hs & Hs_new).
  unfold mbind at 1, M_bind at 1. rewrite Hs.
  set (h2 := <[s := default [] (h1 !! s0)]> h1).
  destruct (getattr_dict_spec
              (ReduceVarsModule.advanced_vars reduce_vars_module) h2)
    as (a0 & h3 & Ha0 & Hsub3 & _).
  unfold mbind at 1, M_bind at 1. rewrite Ha0.
  destruct (deepcopy_spec a0 h3) as (a & Ha & Ha_new).
  unfold mbind at 1, M_bind at 1. rewrite Ha.
  set (h4 := <[a := default [] (h3 !! a0)]> h3).
  assert (h ⊆ h4) as Hsub4.
  { transitivity h1; [done|]. transitivity h2.
    { by apply insert_subseteq. }
    transitivity h3; [done|]. by apply insert_subseteq. }
  assert (h !! s = None) as Hs_h by by eapply lookup_weaken_None.
  assert (h2 !! a = None) as Ha_h2 by by eapply lookup_weaken_None.
  assert (s ≠ a) as Hsa.
  { intros ->. unfold h2 in Ha_h2. by rewrite lookup_insert_eq in Ha_h2. }
  assert (h !! a = None) as Ha_h.
  { eapply lookup_weaken_None; [exact Ha_new|].
    transitivity h1; [done|]. transitivity h2; [|done].
    by apply insert_subseteq. }
  assert (∀ name target,
            dict_get [("standard_vars", s); ("advanced_vars", a)] name
            = Some target → h !! target = None) as Htargets.
  { intros name target. cbn [dict_get].
    destruct (String.eqb "standard_vars" name); [by intros [= <-]|].
    destruct (String.eqb "advanced_vars" name); [by intros [= <-]|].
    discriminate. }
  set (ra := [("standard_vars", s); ("advanced_vars", a)]) in *.
  pose proof (set_with_correct_type_frame message_reduction_arguments ra
                "standard_vars" h h4 (Htargets _) Hsub4) as Hsub5.
  unfold mbind at 1, M_bind at 1.
  destruct (set_with_correct_type self message_reduction_arguments ra
              "standard_vars" h4) as [[[]|err] h5]; simpl in Hsub5;
    [|by split].
  pose proof (set_with_correct_type_frame message_reduction_arguments ra
                "advanced_vars" h h5 (Htargets _) Hsub5) as Hsub6.
  unfold mbind at 1, M_bind at 1.
  destruct (set_with_correct_type self message_reduction_arguments ra
              "advanced_vars" h5) as [[[]|err] h6]; simpl in Hsub6;
    [|by split].
  split; [done|]. intros merged [= <-]. by simpl.
Qed.

(** *** Coercion of overrides *)

Lemma dict_get_set_eq {V} (d : dict V) (k : string) (v : V) :
  dict_get (dict_set d k v) k = Some v.
Proof.
  induction d as [|[k' v'] d IH]; simpl.
  - by rewrite String.eqb_refl.
  - destruct (String.eqb k' k) eqn:Hk; simpl; by rewrite Hk.
Qed.

Lemma dict_get_set_ne {V} (d : dict V) (k k' : string) (v : V) :
  k ≠ k' → dict_get (dict_set d k v) k' = dict_get d k'.
Proof.
  intros Hne. induction d as [|[k0 v0] d IH]; simpl.
  - by rewrite (proj2 (String.eqb_neq _ _) Hne).
  - destruct (String.eqb k0 k) eqn:Hk; simpl; [|by rewrite IH].
    apply String.eqb_eq in Hk as ->.
    by rewrite (proj2 (String.eqb_neq _ _) Hne).
Qed.

Lemma dict_keys_set {V} (d : dict V) (k : string) (v : V) :
  is_Some (dict_get d k) → dict_keys (dict_set d k v) = dict_keys d.
Proof.
  unfold dict_keys. induction d as [|[k' v'] d IH]; simpl.
  - by intros [? ?].
  - destruct (String.eqb k' k) eqn:Hk; simpl; [done|].
    intros Hsome. f_equal. by apply IH.
Qed.

Lemma dict_get_None {V} (d : dict V) (k : string) :
  dict_get d k = None ↔ k ∉ dict_keys d.
Proof.
  unfold dict_keys. induction d as [|[k' v'] d IH]; simpl.
  - split; [intros _; apply not_elem_of_nil|done].
  - rewrite not_elem_of_cons.
    destruct (String.eqb k' k) eqn:Hk.
    + apply String.eqb_eq in Hk as ->. split; [done|by intros [? _]].
    + apply String.eqb_neq in Hk. rewrite IH.
      split; [by intros ?; split; [congruence|]|by intros [_ ?]].
Qed.

(** The loop of [set_with_correct_type] on a target that holds
    [current]: with every override name among the keys, each named entry
    becomes the override converted to the type of the entry it replaces;
    otherwise the first name that is not a key raises [KeyError]. *)
Lemma coerce_loop_spec (target : nat) (overrides current : dict PyValue)
    (h : Heap) :
  h !! target = Some current →
  NoDup (dict_keys overrides) →
  let loop :=
    for_each overrides (λ '(name, value),
      current ← heap_read target;
      match dict_get current name with
      | None => raise (KeyError name)
      | Some default_value =>
          heap_write target
            (dict_set current name
               (convert_variable_to_type self value
                  (get_type_string self default_value)))
      end) in
  (Forall (λ name, is_Some (dict_get current name)) (dict_keys overrides) →
   ∃ merged,
     loop h = (Returned tt, <[target := merged]> h)
     ∧ dict_keys merged = dict_keys current
     ∧ ∀ name,
         dict_get merged name
         = match dict_get overrides name with
           | Some value =>
               (λ default_value,
                  convert_variable_to_type self value
                    (get_type_string self default_value))
               <$> dict_get current name
           | None => dict_get current name
           end)
  ∧ (∀ name, name ∈ dict_keys overrides → dict_get current name = None →
       ∃ unknown h',
         loop h = (Raised (KeyError unknown), h')
         ∧ unknown ∈ dict_keys overrides
         ∧ dict_get current unknown = None).
Proof.
  intros Hcur Hnodup loop. subst loop.
  match goal with |- context [for_each _ ?b _] => set (body := b) end.
  revert current h Hcur.
  induction overrides as [|[name value] overrides IH];
    intros current h Hcur.
  - split.
    + intros _. exists current. rewrite insert_id by done. by split_and!.
    + intros name Hin. by apply elem_of_nil in Hin.
  - unfold dict_keys in Hnodup. simpl in Hnodup.
    apply NoDup_cons in Hnodup as [Hfresh Hnodup].
    assert (for_each ((name, value) :: overrides) body h
            = match dict_get current name with
              | None => (Raised (KeyError name), h)
              | Some dv =>
                  for_each overrides body
                    (<[target := dict_set current name
                                   (convert_variable_to_type self value
                                      (get_type_string self dv))]> h)
              end) as ->.
    { simpl. unfold mbind at 1, M_bind at 1.
      unfold mbind at 1, M_bind at 1, heap_read at 1. rewrite Hcur. simpl.
      by destruct (dict_get current name). }
    destruct (dict_get current name) as [dv|] eqn:Hname.
    2:{ split.
        - intros Hall. apply Forall_cons in Hall as [[? Hx] _].
          simpl in Hx. congruence.
        - intros _ _ _. exists name, h.
          split_and!; [done|apply elem_of_cons; by left|done]. }
    set (current1 := dict_set current name
                       (convert_variable_to_type self value
                          (get_type_string self dv))).
    destruct (IH Hnodup current1 (<[target := current1]> h))
      as [IHok IHbad]; [by rewrite lookup_insert_eq|].
    assert (∀ other, other ≠ name →
                     dict_get current1 other = dict_get current other)
      as Hother.
    { intros other Hne. unfold current1. by rewrite dict_get_set_ne. }
    assert (∀ other, other ∈ dict_keys overrides →
                     dict_get current1 other = dict_get current other)
      as Hrest.
    { intros other Hin. apply Hother. by intros ->. }
    split.
    + intros Hall. apply Forall_cons in Hall as [_ Hall].
      destruct IHok as (merged & Hrun & Hkeys & Hget).
      { apply Forall_forall. intros other Hin. rewrite Hrest by done.
        by apply (proj1 (Forall_forall _ _) Hall). }
      exists merged. rewrite Hrun, insert_insert_eq.
      split_and!; [done| |].
      * rewrite Hkeys. unfold current1. by apply dict_keys_set.
      * intros other. rewrite Hget. simpl.
        destruct (String.eqb name other) eqn:Hno.
        -- apply String.eqb_eq in Hno as <-.
           assert (dict_get overrides name = None) as ->.
           { by apply dict_get_None. }
           unfold current1. by rewrite dict_get_set_eq, Hname.
        -- apply String.eqb_neq in Hno.
           rewrite Hother by done. done.
    + intros other Hin Hnone. apply elem_of_cons in Hin as [->|Hin].
      { simpl in Hnone. congruence. }
      destruct (IHbad other Hin) as (unknown & h' & Hrun & Hin' & Hnone').
      { by rewrite Hrest. }
      exists unknown, h'. split_and!; [done|apply elem_of_cons; by right|].
      by rewrite <- Hrest.
Qed.

(** C8, as amended.  Within [set_with_correct_type], an override whose
    name the script defaults declare is stored converted to the type of
    the default it replaces, and the names and their order stay those of
    the defaults; an override whose name the defaults do not declare is
    not dropped: the lookup of its default raises [KeyError]. *)
Theorem set_with_correct_type_coerces
    (message_reduction_arguments : ReductionArguments)
    (reduction_args : dict nat) (dict_name : string)
    (overrides defaults : dict PyValue) (target : nat) (h : Heap) :
  dict_get message_reduction_arguments dict_name = Some overrides →
  dict_get reduction_args dict_name = Some target →
  h !! target = Some defaults →
  NoDup (dict_keys overrides) →
  (Forall (λ name, is_Some (dict_get defaults name)) (dict_keys overrides) →
   ∃ merged,
     set_with_correct_type self message_reduction_arguments reduction_args
                           dict_name h
     = (Returned tt, <[target := merged]> h)
     ∧ dict_keys merged = dict_keys defaults
     ∧ ∀ name,
         dict_get merged name
         = match dict_get overrides name with
           | Some value =>
               (λ default_value,
                  convert_variable_to_type self value
                    (get_type_string self default_value))
               <$> dict_get defaults name
           | None => dict_get defaults name
           end)
  ∧ (∀ name, name ∈ dict_keys overrides → dict_get defaults name = None →
       ∃ unknown h',
         set_with_correct_type self message_reduction_arguments
                               reduction_args dict_name h
         = (Raised (KeyError unknown), h')
         ∧ unknown ∈ dict_keys overrides
         ∧ dict_get defaults unknown = None).
Proof.
  intros Hov Htarget Hcur Hnodup. unfold set_with_correct_type.
  rewrite Hov, Htarget.
  exact (coerce_loop_spec target overrides defaults h Hcur Hnodup).
Qed.

End Resolver_properties.

Lemma update_or_copy_keeps_old_row_witness :
  ∃ d', _update_or_copy_if_changed (sample_variable 0 "0" true None (Some 5))
          "1" "number" "" 10
          (sample_resolver_db [sample_variable 0 "0" true None (Some 5)])
        = (Returned (sample_variable 1 "1" true None (Some 10)), d')
        ∧ rows (instrument_variables d') !! 0%nat
          = Some (sample_variable 0 "0" true None (Some 5))
        ∧ rows (instrument_variables d') !! 1%nat
          = Some (sample_variable 1 "1" true None (Some 10))
        ∧ find_or_make_variables sample_services
            (sample_possible_variables 1234567 10) 10 0%nat
            (ResolverArguments.mk [("x", PyInt 1)] [] []) None true false
            (sample_resolver_db [sample_variable 0 "0" true None (Some 5)])
          = (Returned [sample_variable 1 "1" true None (Some 10)], d').
Proof.
  destruct (update_or_copy_keeps_old_row sample_services
              (sample_variable 0 "0" true None (Some 5)) "1" "number" "" 10
              (sample_resolver_db [sample_variable 0 "0" true None (Some 5)])
              0%nat)
    as (d' & Hrun & _ & Hold & Hnew & _ & _ & _ & Hresolve).
  - apply table_wfb_wf. vm_compute. reflexivity.
  - reflexivity.
  - reflexivity.
  - simpl. intros Heq. discriminate Heq.
  - left. simpl. intros Heq. discriminate Heq.
  - exists d'. split_and!; [exact Hrun|exact Hold|exact Hnew|].
    apply (Hresolve (sample_possible_variables 1234567 10) 0%nat "x"
             (PyInt 1) [] None false).
    + vm_compute. reflexivity.
    + reflexivity.
    + reflexivity.
    + vm_compute. reflexivity.
    + reflexivity.
Defined.

Lemma merge_arguments_copies_witness :
  (merge_arguments sample_services
     [("standard_vars", [("x", PyInt 5)])]
     (ReduceVarsModule.mk (Some 0%nat) None None)
     {[ 0%nat := [("x", PyStr "a")] ]}).2 !! 0%nat
  = Some [("x", PyStr "a")].
Proof.
  apply (proj1 (proj2 (merge_arguments_copies sample_services
                         [("standard_vars", [("x", PyInt 5)])]
                         (ReduceVarsModule.mk (Some 0%nat) None None)
                         {[ 0%nat := [("x", PyStr "a")] ]}))).
  - reflexivity.
  - reflexivity.
Defined.

Lemma set_with_correct_type_coerces_witness :
  ∃ merged,
    set_with_correct_type sample_services
      [("standard_vars", [("x", PyInt 5)])] [("standard_vars", 0%nat)]
      "standard_vars" {[ 0%nat := [("x", PyStr "a")] ]}
    = (Returned tt, <[0%nat := merged]> {[ 0%nat := [("x", PyStr "a")] ]})
    ∧ dict_get merged "x" = Some (PyStr "5").
Proof.
  destruct (set_with_correct_type_coerces sample_services
              [("standard_vars", [("x", PyInt 5)])]
              [("standard_vars", 0%nat)] "standard_vars"
              [("x", PyInt 5)] [("x", PyStr "a")] 0%nat
              {[ 0%nat := [("x", PyStr "a")] ]}) as [Hknown _].
  - reflexivity.
  - reflexivity.
  - reflexivity.
  - apply NoDup_singleton.
  - destruct Hknown as (merged & Hrun & _ & Hget).
    + repeat constructor. by exists (PyStr "a").
    + exists merged. split; [exact Hrun|]. exact (Hget "x").
Defined.

(** C8, counterexample to the silent drop: an override named [zz],
    which the defaults do not declare, is not dropped;
    [set_with_correct_type] raises [KeyError], and so does
    [merge_arguments]. *)
Lemma unknown_override_raises_KeyError :
  dict_get [("x", PyInt 1)] "zz" = None
  ∧ set_with_correct_type sample_services
      [("standard_vars", [("zz", PyInt 1)])] [("standard_vars", 0%nat)]
      "standard_vars" {[ 0%nat := [("x", PyInt 1)] ]}
    = (Raised (KeyError "zz"), {[ 0%nat := [("x", PyInt 1)] ]})
  ∧ (merge_arguments sample_services
       [("standard_vars", [("zz", PyInt 1)])]
       (ReduceVarsModule.mk (Some 0%nat) None None)
       {[ 0%nat := [("x", PyInt 1)] ]}).1
    = Raised (KeyError "zz").
Proof. split_and!; vm_compute; reflexivity. Qed.

(** C7, what the code does.  A run of experiment 1234567 with run number
    100, and two stored rows for [x]: one scoped to experiment 1234567
    (value 7), one scoped to the run range from 50 (value 3).
    [create_run_variables] calls [find_or_make_variables] without the
    experiment reference, and the run-range row is selected, for every
    service and every script default; with the reference passed,
    [_find_appropriate_variable] selects the experiment-scoped row. *)
Theorem create_run_variables_selects_run_range_row :
  let for_experiment := sample_variable 0 "7" false (Some 1234567) None in
  let for_run_range := sample_variable 1 "3" false None (Some 50) in
  let d := sample_resolver_db [for_experiment; for_run_range] in
  (∀ self default_value,
     find_or_make_variables self (sample_possible_variables 1234567 100)
       100 0%nat (ResolverArguments.mk [("x", default_value)] [] [])
       None true false d
     = (Returned [for_run_range], d))
  ∧ (create_run_variables sample_services (sample_run Queued) []
       (mkWorld ∅ d)).1
    = Returned [RunVariable.mk (Some 0%nat) "x" "3" "number" "" false
                               (Some 0%nat)]
  ∧ _find_appropriate_variable (sample_possible_variables 1234567 100) "x"
      (Some 1234567) d
    = (Returned (Some for_experiment), d).
Proof.
  intros for_experiment for_run_range d. split_and!.
  - intros self default_value. vm_compute. reflexivity.
  - vm_compute. reflexivity.
  - vm_compute. reflexivity.
Qed.

(** C9, what the code does.  A stored row for [x] that tracks the script
    (value 0, from run 5) and a script default of 1, resolved for run 10:
    the first call copies the row; the second call, with the same
    arguments on the store the first one left, finds two rows for [x]
    with no experiment reference and ends in
    [MultipleObjectsReturned]. *)
Theorem find_or_make_variables_twice :
  let stored_row := sample_variable 0 "0" true None (Some 5) in
  let copied_row := sample_variable 1 "1" true None (Some 10) in
  let resolve :=
    find_or_make_variables sample_services
      (sample_possible_variables 1234567 10) 10 0%nat
      (ResolverArguments.mk [("x", PyInt 1)] [] []) None true false in
  resolve (sample_resolver_db [stored_row])
  = (Returned [copied_row], sample_resolver_db [stored_row; copied_row])
  ∧ resolve (sample_resolver_db [stored_row; copied_row])
    = (Raised MultipleObjectsReturned,
       sample_resolver_db [stored_row; copied_row]).
Proof. split; vm_compute; reflexivity. Qed.

(** * Further properties of the handler *)

Section Handler_properties.

Variable self : Collaborators.

(** The save that ends a transition, on any run: the finalized run is
    returned with a key and stored under it; the key is the run's own
    when it has one, and then the stored row is exactly the finalized
    run. *)
Lemma finalize_and_save (reduction_run : ReductionRun.t)
    (status : StatusName) (message : Message.t) (utcnow : Z) (d : DB) :
  let finalized :=
    _common_reduction_run_update reduction_run status message utcnow in
  ∃ saved d' k,
    safe_save finalized d = (Returned saved, d')
    ∧ ReductionRun.pk saved = Some k
    ∧ saved = ReductionRun.with_pk k finalized
    ∧ (∀ i, ReductionRun.pk reduction_run = Some i → i = k)
    ∧ rows (reduction_runs d') !! k = Some saved
    ∧ (∀ j, j ≠ k →
            rows (reduction_runs d') !! j = rows (reduction_runs d) !! j)
    ∧ d' = with_table (reduction_runs d') d.
Proof.
  intros finalized. subst finalized.
  unfold safe_save, model_save, save.
  destruct reduction_run as [[i|] ? ? ? ? ? ? ? ? ? ? ?]; simpl.
  - eexists _, _, i.
    split_and!; [reflexivity|done|done|by intros ? [= <-]|..].
    + simpl. by rewrite lookup_insert_eq.
    + intros j Hj. simpl. by rewrite lookup_insert_ne.
    + done.
  - eexists _, _, (next_id (reduction_runs d)).
    split_and!; [reflexivity|done|done|done|..].
    + simpl. by rewrite lookup_insert_eq.
    + intros j Hj. simpl. by rewrite lookup_insert_ne.
    + done.
Qed.

(** X1.  [reduction_skipped] checks no status: on every run, a
    Completed or Error one included, it returns the run with status
    Skipped, the finish time stamped and the message and logs of the
    message copied, stored under its key; the start time, run number,
    version, experiment, instrument and script stay as they were and no
    other run changes. *)
Theorem reduction_skipped_unguarded (reduction_run : ReductionRun.t)
    (message : Message.t) (utcnow : Z) (d : DB) :
  ∃ saved d' k,
    reduction_skipped reduction_run message utcnow d = (Returned saved, d')
    ∧ ReductionRun.status saved = Skipped
    ∧ ReductionRun.finished saved = Some utcnow
    ∧ ReductionRun.message saved = Message.message message
    ∧ ReductionRun.reduction_log saved = Message.reduction_log message
    ∧ ReductionRun.admin_log saved = Message.admin_log message
    ∧ ReductionRun.started saved = ReductionRun.started reduction_run
    ∧ scope_fields saved = scope_fields reduction_run
    ∧ ReductionRun.instrument saved = ReductionRun.instrument reduction_run
    ∧ ReductionRun.script saved = ReductionRun.script reduction_run
    ∧ ReductionRun.pk saved = Some k
    ∧ (∀ i, ReductionRun.pk reduction_run = Some i → i = k)
    ∧ rows (reduction_runs d') !! k = Some saved
    ∧ (∀ j, j ≠ k →
            rows (reduction_runs d') !! j = rows (reduction_runs d) !! j)
    ∧ d' = with_table (reduction_runs d') d.
Proof.
  destruct (finalize_and_save reduction_run Skipped message utcnow d)
    as (saved & d' & k & Hrun & Hk & Hsaved & Hkey & Hrow & Hframe & Hd).
  exists saved, d', k. rewrite Hsaved at 2 3 4 5 6 7 8 9 10.
  by split_and!.
Qed.

Lemma finalize_stored (reduction_run : ReductionRun.t) (k : nat)
    (status : StatusName) (message : Message.t) (utcnow : Z) (d : DB) :
  ReductionRun.pk reduction_run = Some k →
  let finalized :=
    _common_reduction_run_update reduction_run status message utcnow in
  safe_save finalized d
  = (Returned finalized,
     with_table
       (mkTable (<[k := finalized]> (rows (reduction_runs d)))
                (next_id (reduction_runs d) `max` S k)) d).
Proof.
  intros Hk finalized. unfold safe_save, model_save, save. simpl.
  by rewrite Hk.
Qed.

Lemma reduction_started_stored (reduction_run : ReductionRun.t) (k : nat)
    (message : Message.t) (utcnow : Z) (d : DB) :
  status_codes self →
  ReductionRun.status reduction_run ∈ [Queued; Error] →
  ReductionRun.pk reduction_run = Some k →
  let started :=
    ReductionRun.set_started utcnow
      (ReductionRun.set_status Processing reduction_run) in
  reduction_started self reduction_run message utcnow d
  = (Returned started,
     with_table
       (mkTable (<[k := started]> (rows (reduction_runs d)))
                (next_id (reduction_runs d) `max` S k)) d).
Proof.
  intros codes Hst Hk started. unfold reduction_started.
  rewrite bool_decide_eq_true_2 by by apply restartable_iff.
  simpl. unfold safe_save, model_save, save. simpl. by rewrite Hk.
Qed.

Lemma save_reduction_locations_returns (reduction_run : ReductionRun.t)
    (k : nat) (locations : list string) (d : DB) :
  ReductionRun.pk reduction_run = Some k →
  ∃ t' : Table ReductionLocation.t,
    for_each locations (save_reduction_location reduction_run) d
    = (Returned tt, with_table t' d).
Proof.
  intros Hk. revert d.
  induction locations as [|location locations IH]; intros d.
  - exists (reduction_locations d). by destruct d.
  - simpl. unfold mbind at 1, M_bind at 1.
    unfold save_reduction_location at 1. rewrite Hk.
    unfold mbind at 1, M_bind at 1, safe_save, model_save, save. simpl.
    match goal with |- ∃ _, _ ?s = _ => destruct (IH s) as [t' Ht'] end.
    exists t'. rewrite Ht'. done.
Qed.

Lemma do_reduction_stored (reduction_run : ReductionRun.t) (k : nat)
    (message message' : Message.t) (process_finished : bool) (err : string)
    (t_start t_end : Z) (d : DB) :
  status_codes self →
  ReductionRun.status reduction_run ∈ [Queued; Error] →
  ReductionRun.pk reduction_run = Some k →
  process_manager_run self message = (process_finished, message', err) →
  let started :=
    ReductionRun.set_started t_start
      (ReductionRun.set_status Processing reduction_run) in
  let final :=
    if process_finished then
      _common_reduction_run_update started
        (match Message.message message' with
         | Some _ => Error
         | None => Completed
         end) message' t_end
    else started in
  ∃ d', do_reduction self reduction_run message t_start t_end d
        = (Returned final, d')
        ∧ rows (reduction_runs d') !! k = Some final
        ∧ (∀ j, j ≠ k →
                rows (reduction_runs d') !! j
                = rows (reduction_runs d) !! j)
        ∧ experiments d' = experiments d
        ∧ next_id (reduction_runs d')
          = (next_id (reduction_runs d) `max` S k)%nat.
Proof.
  intros codes Hst Hk Hrun started final.
  unfold do_reduction. unfold mbind at 1, M_bind at 1.
  rewrite (reduction_started_stored reduction_run k message t_start d
             codes Hst Hk).
  fold started. rewrite Hrun.
  set (d1 := with_table _ d).
  assert (ReductionRun.pk started = Some k) as Hk1 by done.
  assert (rows (reduction_runs d1) !! k = Some started) as Hrow1.
  { unfold d1. simpl. by rewrite lookup_insert_eq. }
  assert (∀ j, j ≠ k → rows (reduction_runs d1) !! j
                       = rows (reduction_runs d) !! j) as Hframe1.
  { intros j Hj. unfold d1. simpl. by rewrite lookup_insert_ne. }
  destruct process_finished.
  2:{ exists d1. by split_and!. }
  destruct (Message.message message') as [text|] eqn:Htext.
  - unfold reduction_error.
    rewrite (finalize_stored started k Error message' t_end d1 Hk1).
    eexists. split_and!; [reflexivity| | |done|simpl; lia].
    + simpl. by rewrite lookup_insert_eq.
    + intros j Hj. simpl. rewrite lookup_insert_ne by done.
      by apply Hframe1.
  - unfold reduction_complete.
    assert (String.eqb (status_value self (ReductionRun.status started))
                       "p" = true) as ->.
    { by apply processing_iff. }
    simpl.
    set (completed :=
           _common_reduction_run_update started Completed message' t_end).
    assert (ReductionRun.pk completed = Some k) as Hk2 by done.
    destruct (save_reduction_locations_returns completed k
                (default [] (Message.reduction_data message')) d1 Hk2)
      as [t' Ht'].
    unfold mbind at 1, M_bind at 1.
    assert (match Message.reduction_data message' with
            | Some locations =>
                for_each locations (save_reduction_location completed)
            | None => mret tt
            end d1 = (Returned tt, with_table t' d1)) as ->.
    { destruct (Message.reduction_data message'); [exact Ht'|].
      simpl in Ht'. exact Ht'. }
    unfold safe_save, model_save, save. simpl. rewrite Hk.
    eexists. split_and!; [reflexivity| | |done|simpl; lia].
    + simpl. by rewrite lookup_insert_eq.
    + intros j Hj. simpl. rewrite lookup_insert_ne by done.
      by apply Hframe1.
Qed.



(** X3.  [send_message_onwards] on a message that fails validation, or
    for a paused instrument: the run ends Skipped with the finish time
    stamped at the first clock reading, stored under its key; the
    outcome is the same whatever the process manager would report, and
    no reduction location is written. *)
Theorem send_message_onwards_skips (reduction_run : ReductionRun.t)
    (k : nat) (message : Message.t) (instrument : Instrument.t)
    (t_start t_end : Z) (d : DB) :
  message_validate self message "/queue/DataReady" = false
  ∨ Instrument.is_paused instrument = true →
  ReductionRun.pk reduction_run = Some k →
  let skipped :=
    _common_reduction_run_update reduction_run Skipped message t_start in
  ∃ d', send_message_onwards self reduction_run message instrument
          t_start t_end d
        = (Returned skipped, d')
        ∧ ReductionRun.status skipped = Skipped
        ∧ ReductionRun.finished skipped = Some t_start
        ∧ ReductionRun.started skipped = ReductionRun.started reduction_run
        ∧ rows (reduction_runs d') !! k = Some skipped
        ∧ (∀ j, j ≠ k →
                rows (reduction_runs d') !! j
                = rows (reduction_runs d) !! j)
        ∧ reduction_locations d' = reduction_locations d.
Proof.
  intros Hskip Hk skipped.
  assert (send_message_onwards self reduction_run message instrument
            t_start t_end d
          = reduction_skipped reduction_run message t_start d) as ->.
  { unfold send_message_onwards.
    destruct (message_validate self message "/queue/DataReady"); [|done].
    simpl. destruct Hskip as [Hv|Hp]; [done|by rewrite Hp]. }
  unfold reduction_skipped.
  rewrite (finalize_stored reduction_run k Skipped message t_start d Hk).
  eexists. split_and!; [reflexivity|done..| | |done].
  - simpl. by rewrite lookup_insert_eq.
  - intros j Hj. simpl. by rewrite lookup_insert_ne.
Qed.

(** X4.  [send_message_onwards] on a stored run neither creates nor
    removes a run, and leaves the run number, experiment and version of
    every stored run as they were, whichever branch it takes and whether
    it returns or raises. *)
Theorem send_message_onwards_keeps_runs (reduction_run : ReductionRun.t)
    (message : Message.t) (instrument : Instrument.t) (t_start t_end : Z)
    (d : DB) :
  table_wf (reduction_runs d) →
  stored d reduction_run →
  let d' := (send_message_onwards self reduction_run message instrument
               t_start t_end d).2 in
  scope_fields <$> all_rows (reduction_runs d')
  = scope_fields <$> all_rows (reduction_runs d)
  ∧ next_id (reduction_runs d') = next_id (reduction_runs d)
  ∧ experiments d' = experiments d
  ∧ table_wf (reduction_runs d').
Proof.
  intros Hwf Hstored d'.
  destruct (keeps_run_send_message_onwards self reduction_run message
              instrument t_start t_end d Hwf Hstored) as [Hsteady _].
  fold d' in Hsteady.
  split_and!; [by apply steady_fields|apply Hsteady..|by eapply steady_wf].
Qed.

(** X5.  [_get_and_activate_db_inst], when the lookup answers with an
    instrument: the instrument returned is active, with the name and the
    paused flag of the one looked up.  An instrument that was active
    already is returned as it is and nothing is written; an inactive one
    is saved as active under its key.  No table but the instruments is
    touched. *)
Theorem get_and_activate_returns_active (instrument_name : string)
    (d : DB) (looked_up : Instrument.t) (t1 : Table Instrument.t) :
  get_instrument self instrument_name (instruments d)
  = (Returned looked_up, t1) →
  ∃ instrument d',
    _get_and_activate_db_inst self instrument_name d
    = (Returned instrument, d')
    ∧ Instrument.is_active instrument = true
    ∧ Instrument.name instrument = Instrument.name looked_up
    ∧ Instrument.is_paused instrument = Instrument.is_paused looked_up
    ∧ (Instrument.is_active looked_up = true →
       instrument = looked_up ∧ instruments d' = t1)
    ∧ (Instrument.is_active looked_up = false →
       ∃ k, Instrument.pk instrument = Some k
            ∧ rows (instruments d') !! k = Some instrument
            ∧ ∀ j, j ≠ k → rows (instruments d') !! j = rows t1 !! j)
    ∧ d' = with_table (instruments d') d.
Proof.
  intros Hget. unfold _get_and_activate_db_inst.
  unfold mbind, M_bind, on_table.
  change (table_of d) with (instruments d). rewrite Hget.
  destruct (Instrument.is_active looked_up) eqn:Hactive; simpl.
  - exists looked_up, (with_table t1 d). by split_and!.
  - unfold model_save. cbn [table_of Instrument_Stored instruments].
    destruct (save_stored (Instrument.set_is_active true looked_up) t1)
      as (k & Hk & Hrow & Hframe).
    destruct (save (Instrument.set_is_active true looked_up) t1)
      as [saved t2] eqn:Hsave.
    simpl in Hk, Hrow, Hframe.
    assert (Instrument.is_active saved = true
            ∧ Instrument.name saved = Instrument.name looked_up
            ∧ Instrument.is_paused saved = Instrument.is_paused looked_up)
      as (? & ? & ?).
    { unfold save in Hsave. simpl in Hsave.
      destruct (Instrument.pk looked_up); by simplify_eq. }
    exists saved, (with_table t2 (with_table t1 d)).
    split_and!; [done..| |done]. intros _. by exists k.
Qed.

Lemma get_experiment_answer (rb : Z) (d : DB) :
  ∃ d', get_experiment rb d = (Returned (experiment_for rb d), d')
        ∧ reduction_runs d' = reduction_runs d.
Proof.
  unfold get_experiment, experiment_for.
  destruct (filter _ (all_rows (experiments d))) as [|e l].
  - unfold model_save, save. simpl. by eexists.
  - by exists d.
Qed.

(** [data_ready] up to the hand-over: with an instrument and a script
    for it, and services that answer, the event comes down to
    [send_message_onwards] on the newly stored run. *)
Lemma data_ready_reaches_dispatch (message : Message.t) (t_start t_end : Z)
    (d d1 : DB) (instrument : Instrument.t) (script_text : string) :
  leaves_runs_alone self →
  always_resolves self →
  _get_and_activate_db_inst self (Message.instrument message) d
  = (Returned instrument, d1) →
  get_current_script_text self (Instrument.name instrument)
  = Some script_text →
  let checked := checked_message self message in
  let experiment := experiment_for (Message.rb_number checked) d in
  let run_version :=
    find_highest_run_version (Message.run_number message) experiment d in
  let key := next_id (reduction_runs d) in
  let created :=
    ReductionRun.with_pk key
      (create_reduction_run_record experiment instrument
         (Message.set_run_version run_version checked) run_version
         script_text
         (if Instrument.is_paused instrument then Skipped else Queued)) in
  ∃ d6 reduction_script arguments,
    data_ready self message t_start t_end d
    = send_message_onwards self created
        (Message.set_script_and_arguments reduction_script arguments
           (Message.set_run_version run_version checked))
        instrument t_start t_end d6
    ∧ reduction_runs d6
      = mkTable (<[key := created]> (rows (reduction_runs d))) (S key).
Proof.
  intros [Hvars Hargs] [Hvars_ok Hargs_ok] Hinst Hscript
    checked experiment run_version key created.
  pose proof (quiet_get_and_activate self (Message.instrument message) d)
    as [Hruns1 Hexp1].
  rewrite Hinst in Hruns1, Hexp1. simpl in Hruns1, Hexp1.
  unfold data_ready.
  change (if negb (validate_rb_number self (Message.rb_number message))
          then _ else message) with checked.
  assert (Message.instrument checked = Message.instrument message) as ->.
  { unfold checked, checked_message. by destruct (negb _). }
  assert (Message.run_number checked = Message.run_number message) as ->.
  { unfold checked, checked_message. by destruct (negb _). }
  unfold mbind at 1, M_bind at 1. rewrite Hinst.
  destruct (get_experiment_answer (Message.rb_number checked) d1)
    as (d2 & Hget & Hruns2).
  unfold mbind at 1, M_bind at 1. rewrite Hget.
  assert (experiment_for (Message.rb_number checked) d1 = experiment) as ->.
  { unfold experiment, experiment_for. by rewrite Hexp1. }
  unfold mbind at 1, M_bind at 1, get_state at 1.
  assert (find_highest_run_version (Message.run_number message)
            experiment d2 = run_version) as ->.
  { unfold run_version, find_highest_run_version.
    by rewrite Hruns2, Hruns1. }
  rewrite Hscript.
  unfold mbind at 1, M_bind at 1.
  unfold safe_save at 1, model_save at 1, save. simpl.
  rewrite Hruns2, Hruns1. fold key. fold created.
  unfold mbind at 1, M_bind at 1.
  unfold safe_save at 1, model_save at 1, save. simpl.
  unfold mbind at 1, M_bind at 1.
  match goal with
  | |- ∃ _ _ _, (let (_, _) := create_variables_for_run self created ?s in _)
                = _ ∧ _ =>
      set (d4 := s);
      destruct (Hvars_ok created d4) as [variables Hv];
      pose proof (Hvars created d4) as [Hruns5 _]
  end.
  destruct (create_variables_for_run self created d4) as [r5 d5].
  simpl in Hv, Hruns5. subst r5.
  unfold mbind at 1, M_bind at 1.
  destruct (Hargs_ok created d5) as [[reduction_script arguments] Ha].
  pose proof (Hargs created d5) as [Hruns6 _].
  destruct (get_script_and_arguments self created d5) as [r6 d6].
  simpl in Ha, Hruns6. subst r6.
  exists d6, reduction_script, arguments. split; [done|].
  by rewrite Hruns6, Hruns5.
Qed.

(** X6.  One data-ready event, end to end, when the instrument is found,
    has a script, and the variable and script services answer without
    writing runs: one run is stored under the next key, with the run
    number of the message, the experiment of the checked RB number, the
    next version of that scope, the instrument and the script text; no
    other run changes.  It ends Skipped when the outgoing message fails
    validation or the instrument is paused; otherwise Processing when the
    process could not be launched, Error when the process returned a
    message text, and Completed when it returned none. *)
Theorem data_ready_files_the_run (message : Message.t) (t_start t_end : Z)
    (d d1 : DB) (instrument : Instrument.t) (script_text : string) :
  status_codes self →
  leaves_runs_alone self →
  always_resolves self →
  _get_and_activate_db_inst self (Message.instrument message) d
  = (Returned instrument, d1) →
  get_current_script_text self (Instrument.name instrument)
  = Some script_text →
  let checked := checked_message self message in
  let experiment := experiment_for (Message.rb_number checked) d in
  let run_version :=
    find_highest_run_version (Message.run_number message) experiment d in
  let key := next_id (reduction_runs d) in
  ∃ final d' reduction_script arguments,
    data_ready self message t_start t_end d = (Returned final, d')
    ∧ rows (reduction_runs d') !! key = Some final
    ∧ (∀ j, j ≠ key →
            rows (reduction_runs d') !! j = rows (reduction_runs d) !! j)
    ∧ ReductionRun.pk final = Some key
    ∧ scope_fields final
      = (Message.run_number message, Experiment.pk experiment, run_version)
    ∧ ReductionRun.instrument final = Instrument.pk instrument
    ∧ ReductionRun.script final = script_text
    ∧ ReductionRun.status final
      = let outgoing :=
          Message.set_script_and_arguments reduction_script arguments
            (Message.set_run_version run_version checked) in
        if negb (message_validate self outgoing "/queue/DataReady")
           || Instrument.is_paused instrument
        then Skipped
        else match process_manager_run self outgoing with
             | (false, _, _) => Processing
             | (true, returned, _) =>
                 match Message.message returned with
                 | Some _ => Error
                 | None => Completed
                 end
             end.
Proof.
  intros codes Halone Hresolves Hinst Hscript
    checked experiment run_version key.
  destruct (data_ready_reaches_dispatch message t_start t_end d d1
              instrument script_text Halone Hresolves Hinst Hscript)
    as (d6 & reduction_script & arguments & -> & Hruns6).
  fold checked experiment run_version key in Hruns6 |- *.
  set (created := ReductionRun.with_pk key _) in *.
  set (outgoing := Message.set_script_and_arguments _ _ _).
  assert (ReductionRun.pk created = Some key) as Hkey by done.
  assert (scope_fields created
          = (Message.run_number message, Experiment.pk experiment,
             run_version)) as Hfields.
  { unfold scope_fields, created. simpl. do 2 f_equal.
    unfold checked, checked_message. by destruct (negb _). }
  assert (∀ j, j ≠ key → rows (reduction_runs d6) !! j
                         = rows (reduction_runs d) !! j) as Hframe6.
  { intros j Hj. rewrite Hruns6. simpl. by rewrite lookup_insert_ne. }
  destruct (negb (message_validate self outgoing "/queue/DataReady")
            || Instrument.is_paused instrument) eqn:Hskip.
  - assert (send_message_onwards self created outgoing instrument
              t_start t_end d6
            = reduction_skipped created outgoing t_start d6) as ->.
    { unfold send_message_onwards.
      destruct (message_validate self outgoing "/queue/DataReady");
        [|done].
      simpl in *. by rewrite Hskip. }
    unfold reduction_skipped.
    rewrite (finalize_stored created key Skipped outgoing t_start d6 Hkey).
    exists (_common_reduction_run_update created Skipped outgoing t_start).
    eexists _, reduction_script, arguments.
    split_and!; [reflexivity| | |done|exact Hfields|done|done|].
    + simpl. by rewrite lookup_insert_eq.
    + intros j Hj. simpl. rewrite lookup_insert_ne by done.
      by apply Hframe6.
    + simpl. fold outgoing. by rewrite Hskip.
  - apply orb_false_iff in Hskip as [Hvalid Hpaused].
    apply negb_false_iff in Hvalid.
    assert (send_message_onwards self created outgoing instrument
              t_start t_end d6
            = do_reduction self created outgoing t_start t_end d6) as ->.
    { unfold send_message_onwards. by rewrite Hvalid, Hpaused. }
    assert (ReductionRun.status created ∈ [Queued; Error]) as Hstatus.
    { unfold created. simpl. rewrite Hpaused. apply elem_of_cons. by left. }
    destruct (process_manager_run self outgoing)
      as [[process_finished returned] err] eqn:Hprocess.
    destruct (do_reduction_stored created key outgoing returned
                process_finished err t_start t_end d6 codes Hstatus Hkey
                Hprocess) as (d' & Hdo & Hrow & Hframe & _).
    eexists _, d', reduction_script, arguments.
    split_and!; [exact Hdo|exact Hrow| | | | | |].
    + intros j Hj. rewrite Hframe by done. by apply Hframe6.
    + by destruct process_finished.
    + rewrite <- Hfields. by destruct process_finished.
    + by destruct process_finished.
    + by destruct process_finished.
    + simpl. fold outgoing. rewrite Hvalid, Hpaused, Hprocess. simpl.
      destruct process_finished; [|done].
      by destruct (Message.message returned).
Qed.

End Handler_properties.


Lemma send_message_onwards_skips_witness :
  ∃ d', send_message_onwards (sample_collaborators None) (sample_run Queued)
          sample_message (Instrument.mk (Some 0%nat) "DEMO" true true) 1 2
          (sample_db Queued)
        = (Returned
             (ReductionRun.mk (Some 0%nat) 100 0 (Some 0%nat) (Some 0%nat)
                "print(1)" Skipped None (Some 1) None (Some "")
                (Some "")), d')
        ∧ reduction_locations d' = reduction_locations (sample_db Queued).
Proof.
  destruct (send_message_onwards_skips (sample_collaborators None)
              (sample_run Queued) 0%nat sample_message
              (Instrument.mk (Some 0%nat) "DEMO" true true) 1 2
              (sample_db Queued))
    as (d' & Hrun & _ & _ & _ & _ & _ & Hlocations).
  - right. reflexivity.
  - reflexivity.
  - exists d'. split; [exact Hrun|exact Hlocations].
Defined.

Lemma send_message_onwards_keeps_runs_witness :
  scope_fields
    <$> all_rows
          (reduction_runs
             (send_message_onwards (sample_collaborators None)
                (sample_run Queued) sample_message
                (Instrument.mk (Some 0%nat) "DEMO" true false) 1 2
                (sample_db Queued)).2)
  = scope_fields <$> all_rows (reduction_runs (sample_db Queued)).
Proof.
  apply (send_message_onwards_keeps_runs (sample_collaborators None)
           (sample_run Queued) sample_message
           (Instrument.mk (Some 0%nat) "DEMO" true false) 1 2
           (sample_db Queued)).
  - apply table_wfb_wf. vm_compute. reflexivity.
  - exists 0%nat, (sample_run Queued). split_and!; reflexivity.
Defined.

Lemma get_and_activate_returns_active_witness :
  ∃ instrument d',
    _get_and_activate_db_inst (sample_collaborators None) "DEMO" empty_db
    = (Returned instrument, d')
    ∧ Instrument.is_active instrument = true
    ∧ Instrument.name instrument = "DEMO".
Proof.
  destruct (get_and_activate_returns_active (sample_collaborators None)
              "DEMO" empty_db (Instrument.mk (Some 0%nat) "DEMO" false false)
              (mkTable {[ 0%nat := Instrument.mk (Some 0%nat) "DEMO" false
                                                 false ]} 1%nat))
    as (instrument & d' & Hrun & Hactive & Hname & _).
  - vm_compute. reflexivity.
  - exists instrument, d'. split_and!; [exact Hrun|exact Hactive|exact Hname].
Defined.

Lemma data_ready_files_the_run_witness :
  ∃ final d',
    data_ready (sample_collaborators (Some "pass")) sample_message 1 2
               empty_db
    = (Returned final, d')
    ∧ rows (reduction_runs d') !! 0%nat = Some final
    ∧ scope_fields final = (100, Some 0%nat, 0)
    ∧ ReductionRun.status final = Completed.
Proof.
  edestruct (data_ready_files_the_run (sample_collaborators (Some "pass"))
               sample_message 1 2 empty_db)
    as (final & d' & reduction_script & arguments & Hrun & Hrow & _ & _
        & Hfields & _ & _ & Hstatus).
  - apply (bool_decide_unpack _). vm_compute. exact I.
  - split; intros run d; split; reflexivity.
  - split; intros run d; eexists; reflexivity.
  - vm_compute. reflexivity.
  - reflexivity.
  - exists final, d'.
    split_and!; [exact Hrun|exact Hrow|exact Hfields|exact Hstatus].
Defined.

(** * Further properties of the resolver *)

(** ** Help texts *)

Lemma str_app_cons (c : Ascii.ascii) (a b : string) :
  String c a +:+ b = String c (a +:+ b).
Proof. reflexivity. Qed.

Lemma str_app_assoc (a b c : string) : (a +:+ b) +:+ c = a +:+ (b +:+ c).
Proof.
  induction a as [|x a IH]; [done|].
  by rewrite !str_app_cons, IH.
Qed.

Lemma str_replace_char_app (old : Ascii.ascii) (new a b : string) :
  str_replace_char old new (a +:+ b)
  = str_replace_char old new a +:+ str_replace_char old new b.
Proof.
  induction a as [|c a IH]; [done|].
  rewrite str_app_cons. simpl. rewrite IH. by rewrite str_app_assoc.
Qed.

Lemma str_has_app (c : Ascii.ascii) (a b : string) :
  str_has c (a +:+ b) = str_has c a || str_has c b.
Proof.
  induction a as [|c' a IH]; [done|].
  rewrite str_app_cons. simpl. rewrite IH. by rewrite orb_assoc.
Qed.

(** A character is in the result of a replacement when it was there and
    is not the one replaced, or when it comes in with a replacement. *)
Lemma str_has_replace (c old : Ascii.ascii) (new s : string) :
  str_has c (str_replace_char old new s)
  = (negb (Ascii.eqb old c) && str_has c s)
    || (str_has old s && str_has c new).
Proof.
  induction s as [|c' s IH]; simpl.
  - by rewrite andb_false_r.
  - rewrite str_has_app, IH.
    destruct (Ascii.eqb_spec c' old) as [->|Hne].
    + destruct (Ascii.eqb old c), (str_has c new), (str_has old s),
        (str_has c s); done.
    + simpl. rewrite orb_false_r.
      destruct (Ascii.eqb_spec c' c) as [->|Hne'].
      * rewrite (proj2 (Ascii.eqb_neq old c)) by done. simpl.
        by destruct (str_has old s), (str_has c new).
      * simpl. done.
Qed.

Lemma str_replace_char_absent (old : Ascii.ascii) (new s : string) :
  str_has old s = false → str_replace_char old new s = s.
Proof.
  induction s as [|c s IH]; [done|]. simpl.
  intros [Hc Hs]%orb_false_iff. rewrite Hc. rewrite str_app_cons.
  by rewrite IH.
Qed.

Lemma sanitized_chars (text : string) :
  str_has char_newline (_replace_special_chars text) = false
  ∧ str_has char_tab (_replace_special_chars text) = false
  ∧ str_has char_dquote (_replace_special_chars text) = false
  ∧ str_has "'"%char (_replace_special_chars text) = false
  ∧ str_has "<"%char (_replace_special_chars text)
    = str_has char_newline text
  ∧ str_has ">"%char (_replace_special_chars text)
    = str_has char_newline text.
Proof.
  unfold _replace_special_chars, html_escape.
  rewrite !str_has_replace.
  change char_newline with "010"%char.
  change char_tab with "009"%char.
  change char_dquote with "034"%char.
  cbn.
  destruct (str_has "010" text), (str_has "009" text),
    (str_has "034" text), (str_has "'" text), (str_has "<" text),
    (str_has ">" text), (str_has "&" text); done.
Qed.

(** X7.  The help text the resolver stores is sanitized: whatever the
    script declares, the text [_replace_special_chars] returns holds no
    line break, no tab and no quote of either kind, and it holds an
    angle bracket exactly when the text given held a line break (the
    [<br>] that stands for it); the same four characters are absent
    from every result of [get_help_text], found or not. *)
Theorem help_text_is_sanitized :
  (∀ text,
     Forall (λ c, str_has c (_replace_special_chars text) = false)
            [char_newline; char_tab; char_dquote; "'"%char]
     ∧ str_has "<"%char (_replace_special_chars text)
       = str_has char_newline text
     ∧ str_has ">"%char (_replace_special_chars text)
       = str_has char_newline text)
  ∧ (∀ dict_name key reduction_arguments,
       Forall (λ c, str_has c (get_help_text dict_name key
                                  reduction_arguments) = false)
              [char_newline; char_tab; char_dquote; "'"%char]).
Proof.
  split.
  - intros text.
    destruct (sanitized_chars text) as (? & ? & ? & ? & ? & ?).
    split_and!; [|done..]. by repeat constructor.
  - intros dict_name key reduction_arguments. unfold get_help_text.
    destruct (dict_get _ dict_name) as [help|]; [|by repeat constructor].
    destruct (dict_get help key) as [text|]; [|by repeat constructor].
    destruct (sanitized_chars text) as (? & ? & ? & ? & _).
    by repeat constructor.
Qed.

(** X8.  [_replace_special_chars] works character by character: the
    sanitized form of a text in two parts is the sanitized first part
    followed by the sanitized second part. *)
Theorem replace_special_chars_app (a b : string) :
  _replace_special_chars (a +:+ b)
  = _replace_special_chars a +:+ _replace_special_chars b.
Proof.
  unfold _replace_special_chars, html_escape.
  by rewrite !str_replace_char_app.
Qed.

(** X9.  A text with none of the seven characters the sanitizer looks
    for (ampersand, angle brackets, both quotes, line break, tab) is
    stored as it is. *)
Theorem replace_special_chars_plain (text : string) :
  Forall (λ c, str_has c text = false)
         ["&"%char; "<"%char; ">"%char; char_dquote; "'"%char;
          char_newline; char_tab] →
  _replace_special_chars text = text.
Proof.
  intros Hplain.
  repeat match goal with
         | H : Forall _ (_ :: _) |- _ =>
             apply Forall_cons in H as [? H]
         end.
  unfold _replace_special_chars, html_escape. cbv zeta.
  rewrite (str_replace_char_absent "&") by assumption.
  rewrite (str_replace_char_absent "<") by assumption.
  rewrite (str_replace_char_absent ">") by assumption.
  rewrite (str_replace_char_absent char_dquote) by assumption.
  rewrite (str_replace_char_absent "'") by assumption.
  rewrite (str_replace_char_absent char_newline) by assumption.
  by rewrite (str_replace_char_absent char_tab).
Qed.

Lemma replace_special_chars_plain_witness :
  _replace_special_chars "wavelength (A)" = "wavelength (A)".
Proof.
  apply replace_special_chars_plain.
  repeat constructor.
Defined.

(** ** Selection of a stored variable *)

Lemma start_run_ge_trans (a b c : option Z) :
  start_run_lt a b = false → start_run_lt b c = false →
  start_run_lt a c = false.
Proof.
  destruct a, b, c; simpl; try done; rewrite !Z.ltb_ge; lia.
Qed.

Lemma start_run_ge_lt (a b c : option Z) :
  start_run_lt a b = false → start_run_lt c b = true →
  start_run_lt a c = false.
Proof.
  destruct a, b, c; simpl; try done;
    rewrite ?Z.ltb_ge, ?Z.ltb_lt; lia.
Qed.

Lemma start_run_lt_irrefl (a : option Z) : start_run_lt a a = false.
Proof. destruct a; simpl; [apply Z.ltb_irrefl|done]. Qed.

(** The row [order_by("-start_run").first()] settles on is one of the
    rows, and none of them has a greater [start_run]. *)
Lemma first_by_start_run_desc_max (b : InstrumentVariable.t)
    (found : list InstrumentVariable.t) :
  ∃ v, foldl (λ best v,
                match best with
                | None => Some v
                | Some b =>
                    if start_run_lt (InstrumentVariable.start_run b)
                                    (InstrumentVariable.start_run v)
                    then Some v else Some b
                end) (Some b) found = Some v
       ∧ v ∈ b :: found
       ∧ Forall (λ u, start_run_lt (InstrumentVariable.start_run v)
                                   (InstrumentVariable.start_run u) = false)
                (b :: found).
Proof.
  revert b. induction found as [|u found IH]; intros b.
  - exists b. split_and!; [done|by left|].
    constructor; [apply start_run_lt_irrefl|done].
  - cbn [foldl].
    destruct (start_run_lt (InstrumentVariable.start_run b)
                           (InstrumentVariable.start_run u)) eqn:Hlt.
    + destruct (IH u) as (v & -> & Hin & Hmax).
      exists v. split_and!; [done|by right|].
      apply Forall_cons in Hmax as [Hu Hrest].
      constructor; [|by constructor].
      by eapply start_run_ge_lt.
    + destruct (IH b) as (v & -> & Hin & Hmax).
      exists v. apply Forall_cons in Hmax as [Hb Hrest].
      split_and!; [done| |].
      * apply elem_of_cons in Hin as [->|Hin]; [by left|by do 2 right].
      * constructor; [done|]. constructor; [|done].
        by eapply start_run_ge_trans.
Qed.

(** [_find_appropriate_variable], by the rows its two queries find. *)
Lemma find_appropriate_variable_eq (possible_variables : QuerySet)
    (name : string) (expriment_reference : option Z) (d : DB) :
  _find_appropriate_variable possible_variables name expriment_reference d
  = match reference_matches possible_variables name expriment_reference d
    with
    | [] =>
        qs_first_by_start_run_desc
          (qs_filter possible_variables
             (λ v, String.eqb (InstrumentVariable.name v) name)) d
    | [v] => (Returned (Some v), d)
    | _ :: _ :: _ => (Raised MultipleObjectsReturned, d)
    end.
Proof.
  unfold _find_appropriate_variable, reference_matches,
    try_except_ObjectDoesNotExist, qs_get, qs_all, mbind, M_bind.
  by destruct (List.filter _ _) as [|v [|v' rest]].
Qed.

Lemma reference_matches_name (possible_variables : QuerySet)
    (name : string) (expriment_reference : option Z) (d : DB)
    (v : InstrumentVariable.t) :
  v ∈ reference_matches possible_variables name expriment_reference d →
  v ∈ name_matches possible_variables name d.
Proof.
  unfold reference_matches, name_matches, qs_filter.
  rewrite !list_elem_of_In, !filter_In, !andb_true_iff.
  tauto.
Qed.

Lemma name_matches_name (possible_variables : QuerySet) (name : string)
    (d : DB) (v : InstrumentVariable.t) :
  v ∈ name_matches possible_variables name d →
  InstrumentVariable.name v = name ∧ possible_variables v = true
  ∧ v ∈ all_rows (instrument_variables d).
Proof.
  unfold name_matches, qs_filter.
  rewrite !list_elem_of_In, !filter_In, !andb_true_iff, String.eqb_eq.
  tauto.
Qed.

(** The selection reads only, and a row it returns is one the name
    query finds. *)
Lemma find_appropriate_variable_found (possible_variables : QuerySet)
    (name : string) (expriment_reference : option Z) (d : DB) :
  (_find_appropriate_variable possible_variables name expriment_reference
     d).2 = d
  ∧ ∀ v, (_find_appropriate_variable possible_variables name
            expriment_reference d).1 = Returned (Some v) →
         v ∈ name_matches possible_variables name d.
Proof.
  rewrite find_appropriate_variable_eq.
  destruct (reference_matches _ _ _ _) as [|v [|v' rest]] eqn:Href.
  - unfold qs_first_by_start_run_desc, qs_all, mbind, M_bind, mret, M_ret.
    fold (name_matches possible_variables name d).
    split; [done|]. intros v. cbn [fst].
    destruct (name_matches possible_variables name d) as [|b found];
      [done|].
    cbn [foldl].
    destruct (first_by_start_run_desc_max b found) as (w & -> & Hin & _).
    by intros [= <-].
  - split; [done|]. intros w [= <-].
    apply (reference_matches_name _ _ expriment_reference).
    rewrite Href. by left.
  - split; [done|]. by intros w.
Qed.

(** X10.  [_find_appropriate_variable] never writes.  With one stored
    row for the name and the experiment reference it returns that row;
    with several it raises [MultipleObjectsReturned]; with none it
    falls back to the rows of that name: it returns [None] when there
    are none, and otherwise one of them whose [start_run] no other
    exceeds (an unset [start_run] counting as lowest). *)
Theorem find_appropriate_variable_selects (possible_variables : QuerySet)
    (name : string) (expriment_reference : option Z) (d : DB) :
  ∃ r, _find_appropriate_variable possible_variables name
         expriment_reference d = (r, d)
       ∧ match reference_matches possible_variables name
                 expriment_reference d with
         | [v] => r = Returned (Some v)
         | _ :: _ :: _ => r = Raised MultipleObjectsReturned
         | [] =>
             match name_matches possible_variables name d with
             | [] => r = Returned None
             | by_name =>
                 ∃ v, r = Returned (Some v) ∧ v ∈ by_name
                      ∧ ∀ u, u ∈ by_name →
                             start_run_lt (InstrumentVariable.start_run v)
                               (InstrumentVariable.start_run u) = false
             end
         end.
Proof.
  rewrite find_appropriate_variable_eq.
  destruct (reference_matches _ _ _ _) as [|v [|v' rest]];
    [|by eexists..].
  unfold qs_first_by_start_run_desc, qs_all, mbind, M_bind, mret, M_ret.
  fold (name_matches possible_variables name d).
  destruct (name_matches possible_variables name d) as [|b found].
  - by eexists.
  - cbn [foldl].
    destruct (first_by_start_run_desc_max b found) as (w & -> & Hin & Hmax).
    eexists. split; [done|]. exists w. split_and!; [done|done|].
    intros u Hu. by eapply Forall_forall in Hmax.
Qed.
(** ** Updating a stored variable *)

(** [variable.save()] on a stored variable. *)
Lemma model_save_variable (obj : InstrumentVariable.t) (d : DB) :
  ∃ j, model_save obj d
       = (Returned (InstrumentVariable.with_pk j obj),
          with_table
            (mkTable (<[j := InstrumentVariable.with_pk j obj]>
                        (rows (instrument_variables d)))
                     (next_id (instrument_variables d) `max` S j)) d)
       ∧ (InstrumentVariable.pk obj = None
          ∧ j = next_id (instrument_variables d)
          ∨ InstrumentVariable.pk obj = Some j
            ∧ InstrumentVariable.with_pk j obj = obj).
Proof.
  destruct obj as [[i|] name value type help adv inst tracks exp start].
  - exists i. split; [reflexivity|]. by right.
  - exists (next_id (instrument_variables d)). split; [|by left].
    unfold model_save, save. cbn.
    by replace (next_id (instrument_variables d)
                `max` S (next_id (instrument_variables d)))%nat
      with (S (next_id (instrument_variables d))) by lia.
Qed.

Lemma update_or_copy_unchanged (variable : InstrumentVariable.t)
    (new_value new_type new_help_text : string) (run_number : Z) (d : DB) :
  new_value = InstrumentVariable.value variable →
  new_type = InstrumentVariable.type variable →
  new_help_text = InstrumentVariable.help_text variable →
  _update_or_copy_if_changed variable new_value new_type new_help_text
                             run_number d
  = (Returned variable, d).
Proof.
  intros -> -> ->. unfold _update_or_copy_if_changed.
  repeat (rewrite String.eqb_refl; simpl). done.
Qed.

(** What [_update_or_copy_if_changed] returns and writes: the variable
    with the new value, type and help text, every other attribute but the
    key and [start_run] as before; the store as it was, or with that one
    row written, under the variable's key or under a new one. *)
Lemma update_or_copy_step (variable : InstrumentVariable.t)
    (new_value new_type new_help_text : string) (run_number : Z) (d : DB) :
  ∃ v' d',
    _update_or_copy_if_changed variable new_value new_type new_help_text
                               run_number d
    = (Returned v', d')
    ∧ InstrumentVariable.value v' = new_value
    ∧ InstrumentVariable.type v' = new_type
    ∧ InstrumentVariable.help_text v' = new_help_text
    ∧ InstrumentVariable.name v' = InstrumentVariable.name variable
    ∧ InstrumentVariable.tracks_script v'
      = InstrumentVariable.tracks_script variable
    ∧ (d' = d
       ∨ ∃ j, InstrumentVariable.pk v' = Some j
              ∧ d' = with_table
                       (mkTable (<[j := v']> (rows (instrument_variables d)))
                                (next_id (instrument_variables d) `max` S j))
                       d
              ∧ (j = next_id (instrument_variables d)
                 ∨ InstrumentVariable.pk variable = Some j)).
Proof.
  unfold _update_or_copy_if_changed.
  set (v1 := if negb (String.eqb new_value (InstrumentVariable.value variable))
             then (InstrumentVariable.set_value new_value variable, true)
             else (variable, false)).
  assert (InstrumentVariable.value v1.1 = new_value
          ∧ InstrumentVariable.type v1.1 = InstrumentVariable.type variable
          ∧ InstrumentVariable.help_text v1.1
            = InstrumentVariable.help_text variable
          ∧ InstrumentVariable.name v1.1 = InstrumentVariable.name variable
          ∧ InstrumentVariable.tracks_script v1.1
            = InstrumentVariable.tracks_script variable
          ∧ InstrumentVariable.pk v1.1 = InstrumentVariable.pk variable
          ∧ (v1.2 = false → v1.1 = variable)) as H1.
  { unfold v1.
    destruct (String.eqb_spec new_value (InstrumentVariable.value variable));
      simpl; by split_and!. }
  destruct v1 as [v1 c1]. simpl in H1.
  destruct H1 as (Hval1 & Hty1 & Hh1 & Hn1 & Htr1 & Hpk1 & Hsame1).
  set (v2 := if negb (String.eqb new_type (InstrumentVariable.type v1))
             then (InstrumentVariable.set_type new_type v1, true)
             else (v1, c1)).
  assert (InstrumentVariable.value v2.1 = new_value
          ∧ InstrumentVariable.type v2.1 = new_type
          ∧ InstrumentVariable.help_text v2.1
            = InstrumentVariable.help_text variable
          ∧ InstrumentVariable.name v2.1 = InstrumentVariable.name variable
          ∧ InstrumentVariable.tracks_script v2.1
            = InstrumentVariable.tracks_script variable
          ∧ InstrumentVariable.pk v2.1 = InstrumentVariable.pk variable
          ∧ (v2.2 = false → v2.1 = variable)) as H2.
  { unfold v2.
    destruct (String.eqb_spec new_type (InstrumentVariable.type v1));
      simpl; by split_and!. }
  destruct v2 as [v2 c2]. simpl in H2. clear Hval1 Hty1 Hh1 Hn1 Htr1 Hpk1 Hsame1.
  destruct H2 as (Hval2 & Hty2 & Hh2 & Hn2 & Htr2 & Hpk2 & Hsame2).
  set (v3 := if negb (String.eqb new_help_text
                                 (InstrumentVariable.help_text v2))
             then (InstrumentVariable.set_help_text new_help_text v2, true)
             else (v2, c2)).
  assert (InstrumentVariable.value v3.1 = new_value
          ∧ InstrumentVariable.type v3.1 = new_type
          ∧ InstrumentVariable.help_text v3.1 = new_help_text
          ∧ InstrumentVariable.name v3.1 = InstrumentVariable.name variable
          ∧ InstrumentVariable.tracks_script v3.1
            = InstrumentVariable.tracks_script variable
          ∧ InstrumentVariable.pk v3.1 = InstrumentVariable.pk variable
          ∧ (v3.2 = false → v3.1 = variable)) as H3.
  { unfold v3.
    destruct (String.eqb_spec new_help_text
                (InstrumentVariable.help_text v2));
      simpl; by split_and!. }
  destruct v3 as [v3 c3]. simpl in H3. clear Hval2 Hty2 Hh2 Hn2 Htr2 Hpk2 Hsame2.
  destruct H3 as (Hval3 & Hty3 & Hh3 & Hn3 & Htr3 & Hpk3 & Hsame3).
  destruct c3.
  2:{ exists v3, d. rewrite (Hsame3 eq_refl) in *.
      split_and!; try done. by left. }
  set (v4 := if negb (exact (InstrumentVariable.start_run v3)
                            (Some run_number))
             then InstrumentVariable.set_start_run run_number
                    (InstrumentVariable.clear_pk v3)
             else v3).
  assert (InstrumentVariable.value v4 = new_value
          ∧ InstrumentVariable.type v4 = new_type
          ∧ InstrumentVariable.help_text v4 = new_help_text
          ∧ InstrumentVariable.name v4 = InstrumentVariable.name variable
          ∧ InstrumentVariable.tracks_script v4
            = InstrumentVariable.tracks_script variable
          ∧ (InstrumentVariable.pk v4 = None
             ∨ InstrumentVariable.pk v4 = InstrumentVariable.pk variable))
    as (Hval4 & Hty4 & Hh4 & Hn4 & Htr4 & Hpk4).
  { unfold v4.
    destruct (exact (InstrumentVariable.start_run v3) (Some run_number));
      simpl; split_and!; try done; (by left) || (by right). }
  clearbody v4.
  destruct (model_save_variable v4 d) as (j & -> & Hj).
  exists (InstrumentVariable.with_pk j v4). eexists.
  split_and!; [done|done..|].
  right. exists j. split_and!; [done|done|].
  destruct Hj as [[_ ->]|[Hj _]]; [by left|].
  destruct Hpk4 as [Hpk4|Hpk4]; [congruence|]. right. congruence.
Qed.

(** X11.  A stored variable whose [start_run] is the run number is
    updated in place: [_update_or_copy_if_changed] returns it under its
    own key with the new value, type and help text, that row alone is
    written, and no key is issued; with nothing to change the store is
    left as it was. *)
Theorem update_or_copy_same_run (variable : InstrumentVariable.t)
    (new_value new_type new_help_text : string) (run_number : Z) (d : DB)
    (k : nat) :
  table_wf (instrument_variables d) →
  InstrumentVariable.pk variable = Some k →
  rows (instrument_variables d) !! k = Some variable →
  InstrumentVariable.start_run variable = Some run_number →
  let updated :=
    InstrumentVariable.mk (Some k) (InstrumentVariable.name variable)
      new_value new_type new_help_text
      (InstrumentVariable.is_advanced variable)
      (InstrumentVariable.instrument_id variable)
      (InstrumentVariable.tracks_script variable)
      (InstrumentVariable.experiment_reference variable)
      (Some run_number) in
  ∃ d', _update_or_copy_if_changed variable new_value new_type
          new_help_text run_number d
        = (Returned updated, d')
        ∧ rows (instrument_variables d')
          = <[k := updated]> (rows (instrument_variables d))
        ∧ next_id (instrument_variables d')
          = next_id (instrument_variables d)
        ∧ d' = with_table (instrument_variables d') d
        ∧ (new_value = InstrumentVariable.value variable →
           new_type = InstrumentVariable.type variable →
           new_help_text = InstrumentVariable.help_text variable →
           d' = d).
Proof.
  intros Hwf Hpk Hrow Hstart updated.
  assert (k < next_id (instrument_variables d))%nat as Hk
    by by eapply Hwf.
  exists (with_table
            (mkTable (<[k := updated]> (rows (instrument_variables d)))
                     (next_id (instrument_variables d))) d).
  assert (new_value = InstrumentVariable.value variable →
          new_type = InstrumentVariable.type variable →
          new_help_text = InstrumentVariable.help_text variable →
          with_table
            (mkTable (<[k := updated]> (rows (instrument_variables d)))
                     (next_id (instrument_variables d))) d = d) as Hsame.
  { intros -> -> ->.
    assert (updated = variable) as ->.
    { unfold updated. destruct variable. simpl in *. congruence. }
    rewrite insert_id by done.
    destruct d as [? ? ? ? ? [? ?] ?]. done. }
  split_and!; [|done..].
  destruct (decide (new_value = InstrumentVariable.value variable
                    ∧ new_type = InstrumentVariable.type variable
                    ∧ new_help_text = InstrumentVariable.help_text variable))
    as [(Hv & Ht & Hh)|Hchanged].
  { rewrite update_or_copy_unchanged, Hsame by done.
    f_equal. f_equal. unfold updated. destruct variable. simpl in *.
    congruence. }
  unfold _update_or_copy_if_changed.
  destruct variable as [pk name value type help adv inst tracks exp start].
  simpl in *. subst pk start.
  assert (exact (Some run_number) (Some run_number) = true) as Hexact
    by by apply bool_decide_eq_true_2.
  destruct (decide (new_value = value)) as [->|Hv];
    destruct (decide (new_type = type)) as [->|Ht];
    destruct (decide (new_help_text = help)) as [->|Hh];
    try (by destruct Hchanged);
    repeat (simpl;
            first [rewrite String.eqb_refl
                  |rewrite (proj2 (String.eqb_neq _ _) Hv)
                  |rewrite (proj2 (String.eqb_neq _ _) Ht)
                  |rewrite (proj2 (String.eqb_neq _ _) Hh)]);
    simpl; rewrite Hexact; simpl;
    unfold model_save, save; cbn;
    by replace (next_id (instrument_variables d) `max` S k)%nat
      with (next_id (instrument_variables d)) by lia.
Qed.

(** X12.  [_update_or_copy_if_changed] always returns, and with the
    variable carrying the value, type and help text given; run again on
    its own result with the same three texts it changes nothing: it
    returns that variable and leaves the store the first run left. *)
Theorem update_or_copy_idempotent (variable : InstrumentVariable.t)
    (new_value new_type new_help_text : string) (run_number : Z) (d : DB) :
  ∃ v' d',
    _update_or_copy_if_changed variable new_value new_type new_help_text
                               run_number d
    = (Returned v', d')
    ∧ InstrumentVariable.value v' = new_value
    ∧ InstrumentVariable.type v' = new_type
    ∧ InstrumentVariable.help_text v' = new_help_text
    ∧ _update_or_copy_if_changed v' new_value new_type new_help_text
                                 run_number d'
      = (Returned v', d').
Proof.
  destruct (update_or_copy_step variable new_value new_type new_help_text
              run_number d)
    as (v' & d' & Hrun & Hv & Ht & Hh & _).
  exists v', d'. split_and!; [done..|].
  by apply update_or_copy_unchanged.
Qed.
(** ** Resolution of the declared variables *)

Lemma find_or_make_variables_loop (self : VariableServices)
    (possible_variables : QuerySet) (run_number : Z) (instrument_id : nat)
    (reduction_arguments : ResolverArguments.t)
    (experiment_reference : option Z) (tracks_script force_update : bool) :
  find_or_make_variables self possible_variables run_number instrument_id
    reduction_arguments experiment_reference tracks_script force_update
  = for_collect (all_vars reduction_arguments)
      (resolve_variable self possible_variables run_number instrument_id
         reduction_arguments experiment_reference tracks_script
         force_update).
Proof. reflexivity. Qed.

Lemma all_vars_names (reduction_arguments : ResolverArguments.t) :
  (λ x, x.1.1) <$> all_vars reduction_arguments
  = declared_names reduction_arguments.
Proof.
  unfold all_vars, declared_names, dict_keys.
  rewrite fmap_app. f_equal.
  - induction (ResolverArguments.standard_vars _) as [|[? ?] ? IH];
      [done|]. simpl. by f_equal.
  - induction (ResolverArguments.advanced_vars _) as [|[? ?] ? IH];
      [done|]. simpl. by f_equal.
Qed.

Lemma for_collect_cons {S A B} (x : A) (xs : list A) (body : A → M S B)
    (s : S) :
  for_collect (x :: xs) body s
  = match body x s with
    | (Returned y, s1) =>
        match for_collect xs body s1 with
        | (Returned ys, s2) => (Returned (y :: ys), s2)
        | (Raised e, s2) => (Raised e, s2)
        end
    | (Raised e, s1) => (Raised e, s1)
    end.
Proof.
  cbn [for_collect]. unfold mbind, M_bind, mret, M_ret.
  destruct (body x s) as [[y|e] s1]; [|done].
  by destruct (for_collect xs body s1) as [[ys|e] s2].
Qed.

Lemma for_collect_Forall2 {S A B} (P : A → B → Prop) (xs : list A)
    (body : A → M S B) :
  (∀ x s y s', body x s = (Returned y, s') → P x y) →
  ∀ s ys s', for_collect xs body s = (Returned ys, s') → Forall2 P xs ys.
Proof.
  intros Hbody. induction xs as [|x xs IH]; intros s ys s'.
  - intros [= <- _]. constructor.
  - rewrite for_collect_cons.
    destruct (body x s) as [[y|e] s1] eqn:Hx; [|done].
    destruct (for_collect xs body s1) as [[zs|e] s2] eqn:Hxs; [|done].
    intros [= <- _]. constructor; [by eapply Hbody|by eapply IH].
Qed.

(** What the loop of [find_or_make_variables] answers for one declared
    variable. *)
Lemma resolve_variable_result (self : VariableServices)
    (possible_variables : QuerySet) (run_number : Z) (instrument_id : nat)
    (reduction_arguments : ResolverArguments.t)
    (experiment_reference : option Z) (tracks_script force_update : bool)
    (declared : string * PyValue * bool) (d d' : DB)
    (v : InstrumentVariable.t) :
  resolve_variable self possible_variables run_number instrument_id
    reduction_arguments experiment_reference tracks_script force_update
    declared d
  = (Returned v, d') →
  InstrumentVariable.name v = declared.1.1
  ∧ (InstrumentVariable.tracks_script v = true ∨ force_update = true →
     InstrumentVariable.value v = script_value_of self declared.1.2
     ∧ InstrumentVariable.type v = get_type_string self declared.1.2
     ∧ InstrumentVariable.help_text v
       = script_help_text_of reduction_arguments declared.1.1 declared.2).
Proof.
  destruct declared as [[name value] is_advanced].
  unfold resolve_variable. cbv zeta. unfold mbind at 1, M_bind at 1.
  destruct (find_appropriate_variable_found possible_variables name
              experiment_reference d) as [Hquiet Hfound].
  destruct (_find_appropriate_variable possible_variables name
              experiment_reference d) as [[[found|]|e] d1] eqn:Hfind;
    [| |done]; simpl in Hquiet; subst d1.
  - specialize (Hfound found eq_refl).
    apply name_matches_name in Hfound as (Hname & _).
    destruct (InstrumentVariable.tracks_script found || force_update)
      eqn:Hupdate.
    + destruct (update_or_copy_step found
                  (str_replace_char "]"%char ""
                     (str_replace_char "["%char "" (py_str self value)))
                  (get_type_string self value)
                  (get_help_text
                     (if negb is_advanced then "standard_vars"
                      else "advanced_vars") name reduction_arguments)
                  run_number d)
        as (v' & d1 & -> & Hv & Ht & Hh & Hn & _).
      intros [= <- <-]. simpl. split; [congruence|]. done.
    + intros [= <- <-]. split; [done|].
      apply orb_false_iff in Hupdate as [-> ->]. by intros [?|?].
  - unfold mbind, M_bind, model_save, save. cbn.
    destruct (truthy experiment_reference);
      [destruct experiment_reference|]; cbn; by intros [= <- <-].
Qed.

(** X13.  When [find_or_make_variables] returns, it returns one variable
    for each declared variable, the standard ones first, in the order of
    the dictionaries and under the declared names; and each returned
    variable that tracks the script, or any at all under [force_update],
    carries the value, the type and the help text the script has now. *)
Theorem find_or_make_resolves_declared (self : VariableServices)
    (possible_variables : QuerySet) (run_number : Z) (instrument_id : nat)
    (reduction_arguments : ResolverArguments.t)
    (experiment_reference : option Z) (tracks_script force_update : bool)
    (d d' : DB) (variables : list InstrumentVariable.t) :
  find_or_make_variables self possible_variables run_number instrument_id
    reduction_arguments experiment_reference tracks_script force_update d
  = (Returned variables, d') →
  InstrumentVariable.name <$> variables = declared_names reduction_arguments
  ∧ Forall2
      (λ declared v,
         InstrumentVariable.tracks_script v = true ∨ force_update = true →
         InstrumentVariable.value v = script_value_of self declared.1.2
         ∧ InstrumentVariable.type v = get_type_string self declared.1.2
         ∧ InstrumentVariable.help_text v
           = script_help_text_of reduction_arguments declared.1.1
                                 declared.2)
      (all_vars reduction_arguments) variables.
Proof.
  rewrite find_or_make_variables_loop. intros Hrun.
  eapply for_collect_Forall2 in Hrun;
    [|intros x s y s' Hx; exact (resolve_variable_result _ _ _ _ _ _ _ _
                                   x s s' y Hx)].
  split.
  - rewrite <- all_vars_names.
    induction Hrun as [|x v xs vs [Hname _] _ IH]; [done|].
    simpl. by f_equal.
  - eapply Forall2_impl; [exact Hrun|]. by intros x v [_ ?].
Qed.
(** ** What a resolution keeps *)

Lemma all_rows_lookup {A} (t : Table A) (x : A) :
  x ∈ all_rows t → ∃ i, rows t !! i = Some x.
Proof.
  unfold all_rows. rewrite list_elem_of_omap.
  intros (i & _ & Hi). by exists i.
Qed.

Lemma keeps_variables_refl (names : list string) (force_update : bool)
    (d : DB) :
  keeps_variables names force_update d d.
Proof.
  intros Hwf Hkeyed. split_and!; [done|done|by destruct d|].
  intros k v Hk. by split.
Qed.

Lemma keeps_variables_trans (names : list string) (force_update : bool)
    (d1 d2 d3 : DB) :
  keeps_variables names force_update d1 d2 →
  keeps_variables names force_update d2 d3 →
  keeps_variables names force_update d1 d3.
Proof.
  intros H12 H23 Hwf Hkeyed.
  destruct (H12 Hwf Hkeyed) as (Hwf2 & Hkeyed2 & Hd2 & Hrows2).
  destruct (H23 Hwf2 Hkeyed2) as (Hwf3 & Hkeyed3 & Hd3 & Hrows3).
  split_and!; [done|done| |].
  - rewrite Hd3 at 1. rewrite Hd2 at 1. by destruct d1.
  - intros k v Hk. destruct (Hrows2 k v Hk) as [[v2 Hv2] Hsame2].
    destruct (Hrows3 k v2 Hv2) as [Hsome3 Hsame3].
    split; [done|]. intros Hcond.
    specialize (Hsame2 Hcond). rewrite Hv2 in Hsame2.
    injection Hsame2 as ->. by apply Hsame3.
Qed.

(** One row written, under a new key or over a row that is neither
    pinned nor foreign to the names resolved. *)
Lemma keeps_variables_write (names : list string) (force_update : bool)
    (d : DB) (j : nat) (v' : InstrumentVariable.t) :
  InstrumentVariable.pk v' = Some j →
  (j = next_id (instrument_variables d)
   ∨ ∃ old, rows (instrument_variables d) !! j = Some old
            ∧ InstrumentVariable.name old ∈ names
            ∧ (InstrumentVariable.tracks_script old || force_update
               = true)) →
  keeps_variables names force_update d
    (with_table
       (mkTable (<[j := v']> (rows (instrument_variables d)))
                (next_id (instrument_variables d) `max` S j)) d).
Proof.
  intros Hpk Hj Hwf Hkeyed. cbn.
  split_and!; [| |done|].
  - intros i r. cbn. destruct (decide (i = j)) as [->|Hne]; [lia|].
    rewrite lookup_insert_ne by done. intros Hi%Hwf. lia.
  - by apply map_Forall_insert_2.
  - intros k v Hk. split.
    + apply lookup_insert_is_Some'. by right.
    + intros Hcond. destruct (decide (k = j)) as [->|Hne];
        [|by rewrite lookup_insert_ne].
      destruct Hj as [->|(old & Hold & Hname & Hupdate)].
      * apply Hwf in Hk. lia.
      * rewrite Hold in Hk. injection Hk as ->.
        destruct Hcond as [?|[Htracks ->]]; [done|].
        by rewrite Htracks in Hupdate.
Qed.

(** The loop body of [find_or_make_variables] on a declared variable
    the selection finds no row for: one row is stored, under the next
    key. *)
Lemma resolve_variable_creates (self : VariableServices)
    (possible_variables : QuerySet) (run_number : Z) (instrument_id : nat)
    (reduction_arguments : ResolverArguments.t)
    (experiment_reference : option Z) (tracks_script force_update : bool)
    (declared : string * PyValue * bool) (d : DB) :
  _find_appropriate_variable possible_variables declared.1.1
                             experiment_reference d
  = (Returned None, d) →
  let created :=
    created_variable self run_number instrument_id reduction_arguments
      experiment_reference tracks_script (next_id (instrument_variables d))
      declared in
  resolve_variable self possible_variables run_number instrument_id
    reduction_arguments experiment_reference tracks_script force_update
    declared d
  = (Returned created,
     with_table
       (mkTable (<[next_id (instrument_variables d) := created]>
                   (rows (instrument_variables d)))
                (S (next_id (instrument_variables d)))) d).
Proof.
  destruct declared as [[name value] is_advanced]. cbn [fst snd].
  intros Hfind.
  unfold resolve_variable. cbv zeta. unfold mbind at 1, M_bind at 1.
  rewrite Hfind. unfold created_variable, script_value_of,
    script_help_text_of.
  destruct experiment_reference as [r|]; [destruct (truthy (Some r))|];
    unfold mbind, M_bind, model_save, save; cbn;
    rewrite insert_insert_eq, Nat.max_id; reflexivity.
Qed.

(** The loop body of [find_or_make_variables] keeps what a resolution
    keeps. *)
Lemma resolve_variable_keeps (self : VariableServices)
    (possible_variables : QuerySet) (run_number : Z) (instrument_id : nat)
    (reduction_arguments : ResolverArguments.t)
    (experiment_reference : option Z) (tracks_script force_update : bool)
    (names : list string) (declared : string * PyValue * bool) (d : DB) :
  declared.1.1 ∈ names →
  keeps_variables names force_update d
    (resolve_variable self possible_variables run_number instrument_id
       reduction_arguments experiment_reference tracks_script force_update
       declared d).2.
Proof.
  destruct declared as [[name value] is_advanced]. cbn [fst snd].
  intros Hin.
  unfold resolve_variable. cbv zeta. unfold mbind at 1, M_bind at 1.
  destruct (find_appropriate_variable_found possible_variables name
              experiment_reference d) as [Hquiet Hfound].
  destruct (_find_appropriate_variable possible_variables name
              experiment_reference d) as [[[found|]|e] d1] eqn:Hfind;
    simpl in Hquiet; subst d1; [| |apply keeps_variables_refl].
  - specialize (Hfound found eq_refl).
    apply name_matches_name in Hfound as (Hname & _ & Hrow).
    apply all_rows_lookup in Hrow as [i Hrow].
    destruct (InstrumentVariable.tracks_script found || force_update)
      eqn:Hupdate; [|apply keeps_variables_refl].
    destruct (update_or_copy_step found
                (str_replace_char "]"%char ""
                   (str_replace_char "["%char "" (py_str self value)))
                (get_type_string self value)
                (get_help_text
                   (if negb is_advanced then "standard_vars"
                    else "advanced_vars") name reduction_arguments)
                run_number d)
      as (v' & d1 & -> & _ & _ & _ & _ & _ & [->|(j & Hpk & -> & Hj)]);
      [apply keeps_variables_refl|].
    intros Hwf Hkeyed. apply keeps_variables_write; [done| |done|done].
    destruct Hj as [->|Hj]; [by left|]. right. exists found.
    rewrite (Hkeyed i found Hrow) in Hj. injection Hj as <-.
    split_and!; [done|by rewrite Hname|done].
  - pose proof (resolve_variable_creates self possible_variables run_number
                  instrument_id reduction_arguments experiment_reference
                  tracks_script force_update (name, value, is_advanced) d
                  Hfind) as Hcreate.
    unfold resolve_variable in Hcreate. cbv zeta in Hcreate.
    unfold mbind at 1, M_bind at 1 in Hcreate. rewrite Hfind in Hcreate.
    rewrite Hcreate. cbn [snd].
    replace (S (next_id (instrument_variables d)))
      with (next_id (instrument_variables d)
            `max` S (next_id (instrument_variables d)))%nat by lia.
    apply keeps_variables_write; [done|by left].
Qed.

Lemma for_collect_rel_in {S A B} (R : S → S → Prop) (xs : list A)
    (body : A → M S B) :
  (∀ s, R s s) → (∀ s1 s2 s3, R s1 s2 → R s2 s3 → R s1 s3) →
  (∀ x s, x ∈ xs → R s (body x s).2) →
  ∀ s, R s (for_collect xs body s).2.
Proof.
  intros Hrefl Htrans. induction xs as [|x xs IH]; intros Hbody s.
  - apply Hrefl.
  - rewrite for_collect_cons.
    pose proof (Hbody x s ltac:(by left)) as Hx.
    destruct (body x s) as [[y|e] s1]; [|done].
    assert (R s1 (for_collect xs body s1).2) as Hxs.
    { apply IH. intros x' s' Hin. apply Hbody. by right. }
    destruct (for_collect xs body s1) as [[zs|e] s2];
      by apply (Htrans _ s1).
Qed.

(** X14.  Whatever its outcome, [find_or_make_variables] on a store
    whose variables are keyed in order leaves them keyed in order,
    writes to no other table and removes no row; a stored variable whose
    name the script does not declare stays as it is, and without
    [force_update] so does every stored variable that does not track the
    script. *)
Theorem find_or_make_keeps_rows (self : VariableServices)
    (possible_variables : QuerySet) (run_number : Z) (instrument_id : nat)
    (reduction_arguments : ResolverArguments.t)
    (experiment_reference : option Z) (tracks_script force_update : bool)
    (d : DB) :
  table_wf (instrument_variables d) → keyed (instrument_variables d) →
  let d' :=
    (find_or_make_variables self possible_variables run_number
       instrument_id reduction_arguments experiment_reference tracks_script
       force_update d).2 in
  table_wf (instrument_variables d') ∧ keyed (instrument_variables d')
  ∧ d' = with_table (instrument_variables d') d
  ∧ ∀ k v, rows (instrument_variables d) !! k = Some v →
           is_Some (rows (instrument_variables d') !! k)
           ∧ (InstrumentVariable.name v ∉ declared_names reduction_arguments
              → rows (instrument_variables d') !! k = Some v)
           ∧ (InstrumentVariable.tracks_script v = false →
              force_update = false →
              rows (instrument_variables d') !! k = Some v).
Proof.
  intros Hwf Hkeyed d'.
  assert (keeps_variables (declared_names reduction_arguments) force_update
            d d') as Hkeeps.
  { unfold d'. rewrite find_or_make_variables_loop.
    apply for_collect_rel_in.
    - apply keeps_variables_refl.
    - apply keeps_variables_trans.
    - intros x s Hx. apply resolve_variable_keeps.
      rewrite <- all_vars_names.
      by apply (list_elem_of_fmap_2 (λ x, x.1.1)). }
  destruct (Hkeeps Hwf Hkeyed) as (Hwf' & Hkeyed' & Hd' & Hrows).
  split_and!; [done..|].
  intros k v Hk. destruct (Hrows k v Hk) as [Hsome Hsame].
  split_and!; [done|intros ?; apply Hsame; by left|].
  intros ? ?. apply Hsame. by right.
Qed.
Lemma for_collect_fixed {St A B} (xs : list A) (body : A → M St B) (s : St)
    (g : nat → A → B) :
  (∀ i x, xs !! i = Some x → body x s = (Returned (g i x), s)) →
  for_collect xs body s = (Returned (imap g xs), s).
Proof.
  revert g. induction xs as [|x xs IH]; intros g Hbody; [done|].
  rewrite for_collect_cons, (Hbody 0%nat x eq_refl).
  rewrite (IH (g ∘ S)); [done|].
  intros i y Hi. by apply (Hbody (S i)).
Qed.

Lemma filter_imap_none {A B} (p : B → bool) (g : nat → A → B)
    (xs : list A) :
  (∀ j y, xs !! j = Some y → p (g j y) = false) →
  List.filter p (imap g xs) = [].
Proof.
  revert g. induction xs as [|x xs IH]; intros g Hp; [done|].
  cbn. rewrite (Hp 0%nat x eq_refl). apply IH.
  intros j y Hj. by apply (Hp (S j)).
Qed.

Lemma filter_imap_one {A B} (p : B → bool) (g : nat → A → B)
    (xs : list A) (i : nat) (x : A) :
  xs !! i = Some x →
  (∀ j y, xs !! j = Some y → p (g j y) = bool_decide (j = i)) →
  List.filter p (imap g xs) = [g i x].
Proof.
  revert g i. induction xs as [|x0 xs IH]; intros g i Hi Hp; [done|].
  cbn. rewrite (Hp 0%nat x0 eq_refl). destruct i as [|i].
  - injection Hi as ->. cbn. f_equal. apply filter_imap_none.
    intros j y Hj. unfold compose. by rewrite (Hp (S j) y Hj).
  - cbn. apply (IH (g ∘ S) i Hi).
    intros j y Hj. unfold compose. rewrite (Hp (S j) y Hj).
    apply bool_decide_ext. lia.
Qed.

(** ** Resolution on a store with no row for the declared names *)

Lemma name_matches_none_reference (possible_variables : QuerySet)
    (name : string) (experiment_reference : option Z) (d : DB) :
  name_matches possible_variables name d = [] →
  reference_matches possible_variables name experiment_reference d = [].
Proof.
  intros Hnone.
  destruct (reference_matches _ _ _ _) as [|v rest] eqn:Href; [done|].
  assert (v ∈ name_matches possible_variables name d) as Hin.
  { apply (reference_matches_name _ _ experiment_reference).
    rewrite Href. by left. }
  rewrite Hnone in Hin. by apply not_elem_of_nil in Hin.
Qed.

Lemma find_appropriate_variable_none (possible_variables : QuerySet)
    (name : string) (experiment_reference : option Z) (d : DB) :
  name_matches possible_variables name d = [] →
  _find_appropriate_variable possible_variables name experiment_reference d
  = (Returned None, d).
Proof.
  intros Hnone. rewrite find_appropriate_variable_eq.
  rewrite (name_matches_none_reference _ _ _ _ Hnone).
  unfold qs_first_by_start_run_desc, qs_all, mbind, M_bind, mret, M_ret.
  fold (name_matches possible_variables name d). by rewrite Hnone.
Qed.

Lemma name_matches_insert_new (possible_variables : QuerySet)
    (name : string) (d : DB) (v : InstrumentVariable.t) :
  table_wf (instrument_variables d) →
  name_matches possible_variables name
    (with_table
       (mkTable (<[next_id (instrument_variables d) := v]>
                   (rows (instrument_variables d)))
                (S (next_id (instrument_variables d)))) d)
  = name_matches possible_variables name d
    ++ (if possible_variables v
           && String.eqb (InstrumentVariable.name v) name
        then [v] else []).
Proof.
  intros Hwf. unfold name_matches. cbn [instrument_variables with_table
    InstrumentVariable_Stored].
  rewrite all_rows_insert_new by done.
  rewrite List.filter_app. f_equal.
Qed.

Section Creation.

Variable self : VariableServices.
Variable possible_variables : QuerySet.
Variable run_number : Z.
Variable instrument_id : nat.
Variable reduction_arguments : ResolverArguments.t.
Variable experiment_reference : option Z.
Variable tracks_script force_update : bool.

(** The loop of [find_or_make_variables] over declared variables of
    distinct names, none of which the selection finds a row for: one row
    is created for each, under the next keys in order. *)
Lemma resolve_variables_create (xs : list (string * PyValue * bool))
    (d : DB) :
  table_wf (instrument_variables d) →
  NoDup ((λ x, x.1.1) <$> xs) →
  Forall (λ x, name_matches possible_variables x.1.1 d = []) xs →
  let created :=
    imap (λ i, created_variable self run_number instrument_id
                 reduction_arguments experiment_reference tracks_script
                 (next_id (instrument_variables d) + i)%nat) xs in
  ∃ d', for_collect xs
          (resolve_variable self possible_variables run_number
             instrument_id reduction_arguments experiment_reference
             tracks_script force_update) d
        = (Returned created, d')
        ∧ table_wf (instrument_variables d')
        ∧ all_rows (instrument_variables d')
          = all_rows (instrument_variables d) ++ created
        ∧ next_id (instrument_variables d')
          = (next_id (instrument_variables d) + length xs)%nat
        ∧ d' = with_table (instrument_variables d') d.
Proof.
  revert d. induction xs as [|x xs IH]; intros d Hwf Hnodup Hnone.
  - exists d. cbn. rewrite app_nil_r, Nat.add_0_r.
    split_and!; [done..|by destruct d].
  - apply Forall_cons in Hnone as [Hx Hxs].
    rewrite fmap_cons in Hnodup. apply NoDup_cons in Hnodup as [Hnew Hnodup].
    set (n := next_id (instrument_variables d)).
    set (c := created_variable self run_number instrument_id
                reduction_arguments experiment_reference tracks_script n x).
    set (d1 := with_table (mkTable (<[n := c]> (rows (instrument_variables d)))
                                   (S n)) d).
    assert (resolve_variable self possible_variables run_number
              instrument_id reduction_arguments experiment_reference
              tracks_script force_update x d
            = (Returned c, d1)) as Hstep.
    { apply resolve_variable_creates.
      by apply find_appropriate_variable_none. }
    assert (table_wf (instrument_variables d1)) as Hwf1.
    { intros i r. cbn. destruct (decide (i = n)) as [->|Hne]; [lia|].
      rewrite lookup_insert_ne by done. intros Hi%Hwf. fold n in Hi. lia. }
    destruct (IH d1 Hwf1 Hnodup) as (d' & Hrest & Hwf' & Hrows & Hnext & Hd').
    { apply Forall_forall. intros y Hy.
      cbv beta. unfold d1, n. rewrite name_matches_insert_new by done.
      rewrite Forall_forall in Hxs. rewrite (Hxs y Hy). cbn [app].
      replace (String.eqb (InstrumentVariable.name c) y.1.1) with false;
        [by rewrite andb_false_r|].
      symmetry. apply String.eqb_neq. intros Heq. apply Hnew.
      unfold c, created_variable in Heq. cbn in Heq. rewrite Heq.
      by apply (list_elem_of_fmap_2 (λ x, x.1.1)). }
    exists d'. rewrite for_collect_cons, Hstep, Hrest.
    assert (imap
              (λ i, created_variable self run_number instrument_id
                      reduction_arguments experiment_reference tracks_script
                      (next_id (instrument_variables d1) + i)%nat) xs
            = imap
                ((λ i, created_variable self run_number instrument_id
                         reduction_arguments experiment_reference
                         tracks_script (n + i)%nat) ∘ S) xs) as Himap.
    { apply imap_ext. intros i y _. cbn. f_equal. lia. }
    cbn [imap]. rewrite <- Himap, Nat.add_0_r. fold c.
    split_and!; [done|done| | |].
    + rewrite Hrows. unfold d1, n. cbn [instrument_variables with_table
        InstrumentVariable_Stored].
      rewrite all_rows_insert_new by done. by rewrite <- app_assoc.
    + rewrite Hnext. cbn. lia.
    + rewrite Hd' at 1. unfold d1. by destruct d.
Qed.

(** A second pass over the same declared variables, on the store the
    first pass left: each is resolved to the row the first pass created,
    and nothing is written. *)
Lemma resolve_variable_settled (xs : list (string * PyValue * bool))
    (d d' : DB) (i : nat) (x : string * PyValue * bool) :
  NoDup ((λ x, x.1.1) <$> xs) →
  Forall (λ x, name_matches possible_variables x.1.1 d = []) xs →
  truthy experiment_reference = false →
  (∀ v, InstrumentVariable.start_run v = Some run_number →
        InstrumentVariable.instrument_id v = instrument_id →
        possible_variables v = true) →
  all_rows (instrument_variables d')
  = all_rows (instrument_variables d)
    ++ imap (λ i, created_variable self run_number instrument_id
                    reduction_arguments experiment_reference tracks_script
                    (next_id (instrument_variables d) + i)%nat) xs →
  xs !! i = Some x →
  resolve_variable self possible_variables run_number instrument_id
    reduction_arguments experiment_reference tracks_script force_update
    x d'
  = (Returned
       (created_variable self run_number instrument_id reduction_arguments
          experiment_reference tracks_script
          (next_id (instrument_variables d) + i)%nat x), d').
Proof.
  intros Hnodup Hnone Hfalsy Hselects Hrows Hi.
  set (cv := λ i, created_variable self run_number instrument_id
                    reduction_arguments experiment_reference tracks_script
                    (next_id (instrument_variables d) + i)%nat) in *.
  assert (∀ j y, xs !! j = Some y →
            qs_filter possible_variables
              (λ v, String.eqb (InstrumentVariable.name v) x.1.1) (cv j y)
            = bool_decide (j = i)) as Hname.
  { intros j y Hj. unfold qs_filter.
    rewrite Hselects;
      [|unfold cv, created_variable; cbn; by rewrite Hfalsy|done].
    cbn. destruct (decide (j = i)) as [->|Hne].
    - rewrite Hi in Hj. injection Hj as ->.
      by rewrite String.eqb_refl, bool_decide_eq_true_2.
    - rewrite bool_decide_eq_false_2 by done.
      apply String.eqb_neq. intros Heq. apply Hne.
      eapply NoDup_lookup; [exact Hnodup| |].
      + by rewrite list_lookup_fmap, Hj.
      + rewrite list_lookup_fmap, Hi. cbn. by rewrite Heq. }
  assert (name_matches possible_variables x.1.1 d' = [cv i x]) as Hby_name.
  { unfold name_matches. rewrite Hrows, List.filter_app.
    fold (name_matches possible_variables x.1.1 d).
    rewrite Forall_forall in Hnone.
    rewrite (Hnone x (list_elem_of_lookup_2 _ _ _ Hi)). cbn [app].
    by apply filter_imap_one. }
  assert (_find_appropriate_variable possible_variables x.1.1
            experiment_reference d'
          = (Returned (Some (cv i x)), d')) as Hfind.
  { rewrite find_appropriate_variable_eq.
    assert (reference_matches possible_variables x.1.1
              experiment_reference d'
            = if exact (@None Z) experiment_reference then [cv i x] else [])
      as ->.
    { unfold reference_matches. rewrite Hrows, List.filter_app.
      fold (reference_matches possible_variables x.1.1
              experiment_reference d).
      rewrite Forall_forall in Hnone.
      rewrite (name_matches_none_reference _ _ _ _
                 (Hnone x (list_elem_of_lookup_2 _ _ _ Hi))).
      cbn [app].
      destruct (exact (@None Z) experiment_reference) eqn:Hexact.
      - apply filter_imap_one; [done|]. intros j y Hj.
        rewrite <- (Hname j y Hj). unfold qs_filter.
        replace (exact (InstrumentVariable.experiment_reference (cv j y))
                       experiment_reference) with true
          by (symmetry; exact Hexact).
        by rewrite andb_true_r.
      - apply filter_imap_none. intros j y Hj. unfold qs_filter.
        replace (exact (InstrumentVariable.experiment_reference (cv j y))
                       experiment_reference) with false
          by (symmetry; exact Hexact).
        by rewrite !andb_false_r. }
    destruct (exact (@None Z) experiment_reference); [done|].
    unfold qs_first_by_start_run_desc, qs_all, mbind, M_bind, mret, M_ret.
    fold (name_matches possible_variables x.1.1 d'). by rewrite Hby_name. }
  destruct x as [[name value] is_advanced]. cbn [fst snd] in *.
  unfold resolve_variable. cbv zeta. unfold mbind at 1, M_bind at 1.
  rewrite Hfind.
  destruct (InstrumentVariable.tracks_script _ || force_update); [|done].
  by apply update_or_copy_unchanged.
Qed.

End Creation.

(** X15.  On a store where the selection finds no row for any of the
    declared names, and the names are distinct, [find_or_make_variables]
    creates one variable for each declared variable, in order and under
    the next keys: of the instrument, with the script's value, type and
    help text, tracking the script as asked, with no
    [experiment_reference], and starting at the run number, or, when an
    experiment reference other than zero is given, with no [start_run]
    either: the reference is assigned to [reference_number], which is
    not a field of the model, and is not stored.  The rows that were
    stored stay and the new ones follow them. *)
Theorem find_or_make_creates (self : VariableServices)
    (possible_variables : QuerySet) (run_number : Z) (instrument_id : nat)
    (reduction_arguments : ResolverArguments.t)
    (experiment_reference : option Z) (tracks_script force_update : bool)
    (d : DB) :
  table_wf (instrument_variables d) →
  NoDup (declared_names reduction_arguments) →
  Forall (λ name, name_matches possible_variables name d = [])
         (declared_names reduction_arguments) →
  let created :=
    imap (λ i, created_variable self run_number instrument_id
                 reduction_arguments experiment_reference tracks_script
                 (next_id (instrument_variables d) + i)%nat)
         (all_vars reduction_arguments) in
  ∃ d', find_or_make_variables self possible_variables run_number
          instrument_id reduction_arguments experiment_reference
          tracks_script force_update d
        = (Returned created, d')
        ∧ all_rows (instrument_variables d')
          = all_rows (instrument_variables d) ++ created
        ∧ next_id (instrument_variables d')
          = (next_id (instrument_variables d)
             + length (declared_names reduction_arguments))%nat
        ∧ d' = with_table (instrument_variables d') d.
Proof.
  intros Hwf Hnodup Hnone created.
  rewrite <- all_vars_names in Hnodup, Hnone.
  rewrite Forall_fmap in Hnone.
  destruct (resolve_variables_create self possible_variables run_number
              instrument_id reduction_arguments experiment_reference
              tracks_script force_update (all_vars reduction_arguments) d
              Hwf Hnodup Hnone)
    as (d' & Hrun & _ & Hrows & Hnext & Hd').
  exists d'. rewrite find_or_make_variables_loop.
  split_and!; [done|done| |done].
  by rewrite Hnext, <- all_vars_names, length_fmap.
Qed.

(** X16.  A resolution that had to create its variables settles: on a
    store where the selection finds no row for any of the declared
    names, with the names distinct, no experiment reference other than
    zero and a queryset that selects the variables of the instrument
    starting at the run, [find_or_make_variables] returns the variables
    it creates, and called again with the same arguments on the store
    it left it returns the same variables and leaves that store as it
    is. *)
Theorem find_or_make_settles (self : VariableServices)
    (possible_variables : QuerySet) (run_number : Z) (instrument_id : nat)
    (reduction_arguments : ResolverArguments.t)
    (experiment_reference : option Z) (tracks_script force_update : bool)
    (d : DB) :
  table_wf (instrument_variables d) →
  NoDup (declared_names reduction_arguments) →
  Forall (λ name, name_matches possible_variables name d = [])
         (declared_names reduction_arguments) →
  truthy experiment_reference = false →
  (∀ v, InstrumentVariable.start_run v = Some run_number →
        InstrumentVariable.instrument_id v = instrument_id →
        possible_variables v = true) →
  ∃ variables d',
    find_or_make_variables self possible_variables run_number
      instrument_id reduction_arguments experiment_reference tracks_script
      force_update d
    = (Returned variables, d')
    ∧ length variables = length (declared_names reduction_arguments)
    ∧ find_or_make_variables self possible_variables run_number
        instrument_id reduction_arguments experiment_reference
        tracks_script force_update d'
      = (Returned variables, d').
Proof.
  intros Hwf Hnodup Hnone Hfalsy Hselects.
  rewrite <- all_vars_names in Hnodup, Hnone.
  rewrite Forall_fmap in Hnone.
  destruct (resolve_variables_create self possible_variables run_number
              instrument_id reduction_arguments experiment_reference
              tracks_script force_update (all_vars reduction_arguments) d
              Hwf Hnodup Hnone)
    as (d' & Hrun & _ & Hrows & _ & _).
  eexists _, d'. rewrite !find_or_make_variables_loop.
  split_and!; [exact Hrun| |].
  - by rewrite length_imap, <- all_vars_names, length_fmap.
  - apply for_collect_fixed. intros i x Hi.
    by apply (resolve_variable_settled self possible_variables run_number
                instrument_id reduction_arguments experiment_reference
                tracks_script force_update (all_vars reduction_arguments)
                d d' i x).
Qed.
(** ** The merged arguments *)

Section Merge.

Variable self : VariableServices.

Lemma module_dict_weaken (h h' : Heap) (attr : option nat) :
  bound h attr → h ⊆ h' → module_dict h' attr = module_dict h attr.
Proof.
  destruct attr as [l|]; [|done]. intros [items Hl] Hsub. cbn.
  by rewrite (lookup_weaken _ _ _ _ Hl Hsub), Hl.
Qed.

Lemma bound_weaken (h h' : Heap) (attr : option nat) :
  bound h attr → h ⊆ h' → bound h' attr.
Proof.
  destruct attr as [l|]; [|done]. intros [items Hl] Hsub.
  exists items. by eapply lookup_weaken.
Qed.

(** [deepcopy(getattr(module, name, {}))]: a new object that holds the
    items of the module's dictionary. *)
Lemma deepcopy_getattr (attr : option nat) (h : Heap) :
  bound h attr →
  ∃ l h', (a ← getattr_dict attr; deepcopy a) h = (Returned l, h')
          ∧ h ⊆ h' ∧ h !! l = None
          ∧ h' !! l = Some (module_dict h attr).
Proof.
  intros Hbound. unfold mbind, M_bind.
  destruct attr as [a|]; cbn [getattr_dict].
  - unfold mret, M_ret.
    destruct (deepcopy_spec a h) as (l & -> & Hl).
    exists l, (<[l := default [] (h !! a)]> h).
    split_and!; [done|by apply insert_subseteq|done|].
    by rewrite lookup_insert_eq.
  - destruct (alloc_spec [] h) as (a & -> & Ha).
    destruct (deepcopy_spec a (<[a := []]> h)) as (l & -> & Hl).
    rewrite lookup_insert_eq. cbn [default].
    exists l, (<[l := []]> (<[a := []]> h)).
    split_and!; [done| | |by rewrite lookup_insert_eq].
    + transitivity (<[a := []]> h); by apply insert_subseteq.
    + eapply lookup_weaken_None; [exact Hl|]. by apply insert_subseteq.
Qed.

(** [set_with_correct_type] on a target that holds [defaults], by the
    overrides of the message for the dictionary. *)
Lemma set_with_correct_type_spec
    (message_reduction_arguments : ReductionArguments)
    (reduction_args : dict nat) (dict_name : string) (target : nat)
    (defaults : dict PyValue) (h : Heap) :
  dict_get reduction_args dict_name = Some target →
  h !! target = Some defaults →
  NoDup (dict_keys (overrides_for message_reduction_arguments dict_name)) →
  (Forall (λ name, is_Some (dict_get defaults name))
          (dict_keys (overrides_for message_reduction_arguments dict_name))
   → ∃ merged,
       set_with_correct_type self message_reduction_arguments
                             reduction_args dict_name h
       = (Returned tt, <[target := merged]> h)
       ∧ dict_keys merged = dict_keys defaults
       ∧ ∀ name, dict_get merged name
                 = merged_entry self defaults
                     (overrides_for message_reduction_arguments dict_name)
                     name)
  ∧ (Exists (λ name, dict_get defaults name = None)
            (dict_keys (overrides_for message_reduction_arguments
                                      dict_name))
     → ∃ unknown h',
         set_with_correct_type self message_reduction_arguments
                               reduction_args dict_name h
         = (Raised (KeyError unknown), h')
         ∧ unknown ∈ dict_keys (overrides_for message_reduction_arguments
                                              dict_name)
         ∧ dict_get defaults unknown = None).
Proof.
  intros Htarget Hh. unfold set_with_correct_type, overrides_for.
  rewrite Htarget.
  destruct (dict_get message_reduction_arguments dict_name)
    as [overrides|]; cbn [default].
  - intros Hnodup.
    destruct (coerce_loop_spec self target overrides defaults h Hh Hnodup)
      as [Hknown Hunknown].
    split; [exact Hknown|].
    intros (name & Hin & Hnone)%Exists_exists. by eapply Hunknown.
  - intros _. split.
    + intros _. exists defaults. rewrite insert_id by done.
      by split_and!.
    + intros (name & Hin & _)%Exists_exists.
      by apply elem_of_nil in Hin.
Qed.

(** [merge_arguments] up to its two calls of [set_with_correct_type]:
    the two copies it has made by then. *)
Lemma merge_arguments_steps
    (message_reduction_arguments : ReductionArguments)
    (reduce_vars_module : ReduceVarsModule.t) (h : Heap) :
  bound h (ReduceVarsModule.standard_vars reduce_vars_module) →
  bound h (ReduceVarsModule.advanced_vars reduce_vars_module) →
  ∃ standard advanced h4,
    merge_arguments self message_reduction_arguments reduce_vars_module h
    = (let reduction_args : dict nat :=
         [("standard_vars", standard); ("advanced_vars", advanced)] in
       set_with_correct_type self message_reduction_arguments
                             reduction_args "standard_vars" ;;
       set_with_correct_type self message_reduction_arguments
                             reduction_args "advanced_vars" ;;
       mret (MergedArguments.mk standard advanced
               (default []
                  (ReduceVarsModule.variable_help reduce_vars_module)))) h4
    ∧ standard ≠ advanced
    ∧ h4 !! standard
      = Some (module_dict h
                (ReduceVarsModule.standard_vars reduce_vars_module))
    ∧ h4 !! advanced
      = Some (module_dict h
                (ReduceVarsModule.advanced_vars reduce_vars_module)).
Proof.
  intros Hstd Hadv.
  destruct (deepcopy_getattr
              (ReduceVarsModule.standard_vars reduce_vars_module) h Hstd)
    as (s & h2 & Hs & Hsub2 & Hs_new & Hs_items).
  destruct (deepcopy_getattr
              (ReduceVarsModule.advanced_vars reduce_vars_module) h2
              (bound_weaken _ _ _ Hadv Hsub2))
    as (a & h4 & Ha & Hsub4 & Ha_new & Ha_items).
  rewrite (module_dict_weaken h h2) in Ha_items by done.
  exists s, a, h4. split_and!; [|congruence|by eapply lookup_weaken|done].
  unfold merge_arguments.
  unfold mbind, M_bind in Hs, Ha |- *.
  destruct (getattr_dict (ReduceVarsModule.standard_vars reduce_vars_module)
              h) as [[s0|e] h1]; [|done].
  rewrite Hs.
  destruct (getattr_dict (ReduceVarsModule.advanced_vars reduce_vars_module)
              h2) as [[a0|e] h3]; [|done].
  by rewrite Ha.
Qed.

(** [merge_arguments] on overrides the defaults declare: the two
    dictionaries it returns and what they hold. *)
Lemma merge_arguments_returns
    (message_reduction_arguments : ReductionArguments)
    (reduce_vars_module : ReduceVarsModule.t) (h : Heap) :
  let standard :=
    module_dict h (ReduceVarsModule.standard_vars reduce_vars_module) in
  let advanced :=
    module_dict h (ReduceVarsModule.advanced_vars reduce_vars_module) in
  let standard_overrides :=
    overrides_for message_reduction_arguments "standard_vars" in
  let advanced_overrides :=
    overrides_for message_reduction_arguments "advanced_vars" in
  bound h (ReduceVarsModule.standard_vars reduce_vars_module) →
  bound h (ReduceVarsModule.advanced_vars reduce_vars_module) →
  NoDup (dict_keys standard_overrides) →
  NoDup (dict_keys advanced_overrides) →
  Forall (λ name, is_Some (dict_get standard name))
         (dict_keys standard_overrides) →
  Forall (λ name, is_Some (dict_get advanced name))
         (dict_keys advanced_overrides) →
  ∃ s a h' merged_s merged_a,
    merge_arguments self message_reduction_arguments reduce_vars_module h
    = (Returned
         (MergedArguments.mk s a
            (default []
               (ReduceVarsModule.variable_help reduce_vars_module))), h')
    ∧ h' !! s = Some merged_s ∧ h' !! a = Some merged_a
    ∧ dict_keys merged_s = dict_keys standard
    ∧ dict_keys merged_a = dict_keys advanced
    ∧ (∀ name, dict_get merged_s name
               = merged_entry self standard standard_overrides name)
    ∧ (∀ name, dict_get merged_a name
               = merged_entry self advanced advanced_overrides name).
Proof.
  intros standard advanced standard_overrides advanced_overrides
    Hstd Hadv Hnodup_s Hnodup_a Hknown_s Hknown_a.
  destruct (merge_arguments_steps message_reduction_arguments
              reduce_vars_module h Hstd Hadv)
    as (s & a & h4 & -> & Hsa & Hs & Ha).
  fold standard in Hs. fold advanced in Ha. cbv zeta.
  destruct (set_with_correct_type_spec message_reduction_arguments
              [("standard_vars", s); ("advanced_vars", a)] "standard_vars"
              s standard h4 eq_refl Hs Hnodup_s) as [Hrun_s _].
  destruct (Hrun_s Hknown_s) as (merged_s & Hset_s & Hkeys_s & Hget_s).
  destruct (set_with_correct_type_spec message_reduction_arguments
              [("standard_vars", s); ("advanced_vars", a)] "advanced_vars"
              a advanced (<[s := merged_s]> h4) eq_refl) as [Hrun_a _];
    [by rewrite lookup_insert_ne|done|].
  destruct (Hrun_a Hknown_a) as (merged_a & Hset_a & Hkeys_a & Hget_a).
  unfold mbind at 1, M_bind at 1. rewrite Hset_s.
  unfold mbind at 1, M_bind at 1. rewrite Hset_a.
  exists s, a, (<[a := merged_a]> (<[s := merged_s]> h4)), merged_s,
    merged_a.
  split_and!; [reflexivity| |by rewrite lookup_insert_eq|done..].
  by rewrite lookup_insert_ne, lookup_insert_eq.
Qed.

(** X17.  With the module's two attributes unset or bound to
    dictionaries, the override names distinct and each of them declared
    by the defaults of its dictionary, [merge_arguments] returns, and
    the dictionaries it returns have the names of the module's, in their
    order: under each name the default when the message does not
    override it, and otherwise the override converted to the type of the
    default; the help texts are the module's. *)
Theorem merge_arguments_merges
    (message_reduction_arguments : ReductionArguments)
    (reduce_vars_module : ReduceVarsModule.t) (h : Heap) :
  let standard :=
    module_dict h (ReduceVarsModule.standard_vars reduce_vars_module) in
  let advanced :=
    module_dict h (ReduceVarsModule.advanced_vars reduce_vars_module) in
  let standard_overrides :=
    overrides_for message_reduction_arguments "standard_vars" in
  let advanced_overrides :=
    overrides_for message_reduction_arguments "advanced_vars" in
  bound h (ReduceVarsModule.standard_vars reduce_vars_module) →
  bound h (ReduceVarsModule.advanced_vars reduce_vars_module) →
  NoDup (dict_keys standard_overrides) →
  NoDup (dict_keys advanced_overrides) →
  Forall (λ name, is_Some (dict_get standard name))
         (dict_keys standard_overrides) →
  Forall (λ name, is_Some (dict_get advanced name))
         (dict_keys advanced_overrides) →
  ∃ merged h' arguments,
    merge_arguments self message_reduction_arguments reduce_vars_module h
    = (Returned merged, h')
    ∧ read_arguments merged h' = (Returned arguments, h')
    ∧ dict_keys (ResolverArguments.standard_vars arguments)
      = dict_keys standard
    ∧ dict_keys (ResolverArguments.advanced_vars arguments)
      = dict_keys advanced
    ∧ (∀ name, dict_get (ResolverArguments.standard_vars arguments) name
               = merged_entry self standard standard_overrides name)
    ∧ (∀ name, dict_get (ResolverArguments.advanced_vars arguments) name
               = merged_entry self advanced advanced_overrides name)
    ∧ ResolverArguments.variable_help arguments
      = default [] (ReduceVarsModule.variable_help reduce_vars_module).
Proof.
  intros standard advanced standard_overrides advanced_overrides
    Hstd Hadv Hnodup_s Hnodup_a Hknown_s Hknown_a.
  destruct (merge_arguments_returns message_reduction_arguments
              reduce_vars_module h Hstd Hadv Hnodup_s Hnodup_a Hknown_s
              Hknown_a)
    as (s & a & h' & merged_s & merged_a & Hrun & Hs & Ha & Hkeys_s
        & Hkeys_a & Hget_s & Hget_a).
  eexists _, h', (ResolverArguments.mk merged_s merged_a _).
  split_and!; [exact Hrun| |done..].
  unfold read_arguments, mbind, M_bind, heap_read, mret, M_ret.
  cbn [MergedArguments.standard_vars MergedArguments.advanced_vars
       MergedArguments.variable_help].
  by rewrite Hs, Ha.
Qed.

(** X18.  An override under a name the defaults of its dictionary do not
    declare is not dropped: [merge_arguments] raises [KeyError], with a
    name that is overridden and not declared. *)
Theorem merge_arguments_unknown_override
    (message_reduction_arguments : ReductionArguments)
    (reduce_vars_module : ReduceVarsModule.t) (h : Heap) :
  let standard :=
    module_dict h (ReduceVarsModule.standard_vars reduce_vars_module) in
  let advanced :=
    module_dict h (ReduceVarsModule.advanced_vars reduce_vars_module) in
  let standard_overrides :=
    overrides_for message_reduction_arguments "standard_vars" in
  let advanced_overrides :=
    overrides_for message_reduction_arguments "advanced_vars" in
  bound h (ReduceVarsModule.standard_vars reduce_vars_module) →
  bound h (ReduceVarsModule.advanced_vars reduce_vars_module) →
  NoDup (dict_keys standard_overrides) →
  NoDup (dict_keys advanced_overrides) →
  Exists (λ name, dict_get standard name = None)
         (dict_keys standard_overrides)
  ∨ Exists (λ name, dict_get advanced name = None)
           (dict_keys advanced_overrides) →
  ∃ unknown h',
    merge_arguments self message_reduction_arguments reduce_vars_module h
    = (Raised (KeyError unknown), h')
    ∧ (unknown ∈ dict_keys standard_overrides
       ∧ dict_get standard unknown = None
       ∨ unknown ∈ dict_keys advanced_overrides
         ∧ dict_get advanced unknown = None).
Proof.
  intros standard advanced standard_overrides advanced_overrides
    Hstd Hadv Hnodup_s Hnodup_a Hunknown.
  destruct (merge_arguments_steps message_reduction_arguments
              reduce_vars_module h Hstd Hadv)
    as (s & a & h4 & -> & Hsa & Hs & Ha).
  fold standard in Hs. fold advanced in Ha. cbv zeta.
  destruct (set_with_correct_type_spec message_reduction_arguments
              [("standard_vars", s); ("advanced_vars", a)] "standard_vars"
              s standard h4 eq_refl Hs Hnodup_s) as [Hrun_s Hraise_s].
  destruct (decide (Exists (λ name, dict_get standard name = None)
                           (dict_keys standard_overrides)))
    as [Hbad_s|Hgood_s].
  { destruct (Hraise_s Hbad_s) as (unknown & h' & Hset & Hin & Hnone).
    exists unknown, h'. unfold mbind at 1, M_bind at 1. rewrite Hset.
    split; [done|]. by left. }
  destruct Hunknown as [?|Hbad_a]; [done|].
  destruct Hrun_s as (merged_s & Hset_s & _).
  { apply Forall_forall. intros name Hin.
    destruct (dict_get standard name) eqn:Hname; [done|].
    destruct Hgood_s. apply Exists_exists. by exists name. }
  destruct (set_with_correct_type_spec message_reduction_arguments
              [("standard_vars", s); ("advanced_vars", a)] "advanced_vars"
              a advanced (<[s := merged_s]> h4) eq_refl) as [_ Hraise_a];
    [by rewrite lookup_insert_ne|done|].
  destruct (Hraise_a Hbad_a) as (unknown & h' & Hset & Hin & Hnone).
  exists unknown, h'.
  unfold mbind at 1, M_bind at 1. rewrite Hset_s.
  unfold mbind at 1, M_bind at 1. rewrite Hset.
  split; [done|]. by right.
Qed.

End Merge.
(** ** The first run of an instrument *)

Lemma filter_none {A} (p : A → bool) (l : list A) :
  Forall (λ x, p x = false) l → List.filter p l = [].
Proof.
  induction 1 as [|x l Hx _ IH]; [done|]. cbn. by rewrite Hx.
Qed.

(** X19.  [create_run_variables] for a run whose instrument has no
    stored variable yet, with a module whose attributes are unset or
    bound, override names that are distinct and declared, and declared
    names that are distinct: the arguments are the module's defaults
    with the overrides merged in; one variable is created for each
    declared variable, starting at the run number and tracking the
    script, after the rows that were stored; these variables are what
    [save_run_variables] is given, and its result is the result.  When
    it raises, the store is the one the call started from, without the
    variables created. *)
Theorem create_run_variables_first_run (self : VariableServices)
    (reduction_run : ReductionRun.t)
    (message_reduction_arguments : ReductionArguments) (w : World)
    (instrument : Instrument.t) (experiment : Experiment.t)
    (reduce_vars_module : ReduceVarsModule.t) (h1 : Heap) :
  let run_number := ReductionRun.run_number reduction_run in
  let instrument_id := default 0%nat (Instrument.pk instrument) in
  let standard :=
    module_dict h1 (ReduceVarsModule.standard_vars reduce_vars_module) in
  let advanced :=
    module_dict h1 (ReduceVarsModule.advanced_vars reduce_vars_module) in
  let standard_overrides :=
    overrides_for message_reduction_arguments "standard_vars" in
  let advanced_overrides :=
    overrides_for message_reduction_arguments "advanced_vars" in
  related (instruments (db w)) (ReductionRun.instrument reduction_run)
  = Returned instrument →
  related (experiments (db w)) (ReductionRun.experiment reduction_run)
  = Returned experiment →
  load_reduce_vars self (Instrument.name instrument) (heap w)
  = (Returned reduce_vars_module, h1) →
  bound h1 (ReduceVarsModule.standard_vars reduce_vars_module) →
  bound h1 (ReduceVarsModule.advanced_vars reduce_vars_module) →
  NoDup (dict_keys standard_overrides) →
  NoDup (dict_keys advanced_overrides) →
  Forall (λ name, is_Some (dict_get standard name))
         (dict_keys standard_overrides) →
  Forall (λ name, is_Some (dict_get advanced name))
         (dict_keys advanced_overrides) →
  NoDup (dict_keys standard ++ dict_keys advanced) →
  table_wf (instrument_variables (db w)) →
  Forall (λ v, InstrumentVariable.instrument_id v ≠ instrument_id)
         (all_rows (instrument_variables (db w))) →
  ∃ arguments h' d1,
    let created :=
      imap (λ i, created_variable self run_number instrument_id arguments
                   None true
                   (next_id (instrument_variables (db w)) + i)%nat)
           (all_vars arguments) in
    declared_names arguments = dict_keys standard ++ dict_keys advanced
    ∧ (∀ name, dict_get (ResolverArguments.standard_vars arguments) name
               = merged_entry self standard standard_overrides name)
    ∧ (∀ name, dict_get (ResolverArguments.advanced_vars arguments) name
               = merged_entry self advanced advanced_overrides name)
    ∧ all_rows (instrument_variables d1)
      = all_rows (instrument_variables (db w)) ++ created
    ∧ d1 = with_table (instrument_variables d1) (db w)
    ∧ create_run_variables self reduction_run message_reduction_arguments w
      = match save_run_variables self created reduction_run d1 with
        | (Returned run_variables, d2) =>
            (Returned run_variables, mkWorld h' d2)
        | (Raised e, _) => (Raised e, mkWorld h' (db w))
        end.
Proof.
  intros run_number instrument_id standard advanced standard_overrides
    advanced_overrides Hinstrument Hexperiment Hload Hstd Hadv Hnodup_s
    Hnodup_a Hknown_s Hknown_a Hnames Hwf Hfirst.
  destruct (merge_arguments_returns self message_reduction_arguments
              reduce_vars_module h1 Hstd Hadv Hnodup_s Hnodup_a Hknown_s
              Hknown_a)
    as (s & a & h' & merged_s & merged_a & Hmerge & Hs & Ha & Hkeys_s
        & Hkeys_a & Hget_s & Hget_a).
  set (arguments :=
         ResolverArguments.mk merged_s merged_a
           (default [] (ReduceVarsModule.variable_help reduce_vars_module))).
  assert (read_arguments
            (MergedArguments.mk s a
               (default []
                  (ReduceVarsModule.variable_help reduce_vars_module))) h'
          = (Returned arguments, h')) as Hread.
  { unfold read_arguments, mbind, M_bind, heap_read, mret, M_ret.
    cbn [MergedArguments.standard_vars MergedArguments.advanced_vars
         MergedArguments.variable_help].
    by rewrite Hs, Ha. }
  set (possible_variables :=
         (λ v, (exact (InstrumentVariable.experiment_reference v)
                      (Some (Experiment.reference_number experiment))
                || start_run_lte v run_number)
               && bool_decide (InstrumentVariable.instrument_id v
                               = instrument_id)) : QuerySet).
  assert (declared_names arguments
          = dict_keys standard ++ dict_keys advanced) as Hdeclared.
  { unfold declared_names, arguments.
    cbn [ResolverArguments.standard_vars ResolverArguments.advanced_vars].
    by rewrite Hkeys_s, Hkeys_a. }
  destruct (resolve_variables_create self possible_variables run_number
              instrument_id arguments None true false (all_vars arguments)
              (db w) Hwf)
    as (d1 & Hresolve & _ & Hrows & _ & Hd1).
  { by rewrite all_vars_names, Hdeclared. }
  { apply Forall_forall. intros x _. apply filter_none.
    eapply Forall_impl; [exact Hfirst|]. intros v Hv. unfold qs_filter.
    unfold possible_variables.
    rewrite (bool_decide_eq_false_2 _ Hv). by rewrite andb_false_r. }
  exists arguments, h', d1. cbv zeta.
  split_and!; [done..|].
  unfold create_run_variables, atomic.
  fold run_number.
  unfold mbind at 1, M_bind at 1, in_db at 1. rewrite Hinstrument.
  unfold mbind at 1, M_bind at 1, in_db at 1. cbn [db heap].
  rewrite Hexperiment.
  unfold mbind at 1, M_bind at 1, in_heap at 1. cbn [db heap].
  rewrite Hload.
  unfold mbind at 1, M_bind at 1, in_heap at 1. cbn [db heap].
  rewrite Hmerge.
  unfold mbind at 1, M_bind at 1, in_heap at 1. cbn [db heap].
  rewrite Hread.
  unfold mbind at 1, M_bind at 1, in_db at 1. cbn [db heap].
  fold instrument_id. fold possible_variables.
  rewrite find_or_make_variables_loop, Hresolve.
  unfold in_db. cbn [db heap].
  by destruct (save_run_variables self _ reduction_run d1) as [[rvs|e] d2].
Qed.
(** ** The further properties of the resolver on sample data *)

Lemma update_or_copy_same_run_witness :
  ∃ d', _update_or_copy_if_changed
          (sample_variable 0 "0" true None (Some 10)) "1" "number" "" 10
          (sample_resolver_db [sample_variable 0 "0" true None (Some 10)])
        = (Returned (sample_variable 0 "1" true None (Some 10)), d')
        ∧ next_id (instrument_variables d') = 1%nat.
Proof.
  destruct (update_or_copy_same_run
              (sample_variable 0 "0" true None (Some 10)) "1" "number" ""
              10
              (sample_resolver_db
                 [sample_variable 0 "0" true None (Some 10)]) 0%nat)
    as (d' & Hrun & _ & Hnext & _).
  - apply table_wfb_wf. vm_compute. reflexivity.
  - reflexivity.
  - reflexivity.
  - reflexivity.
  - exists d'. split; [exact Hrun|exact Hnext].
Defined.

Lemma find_or_make_resolves_declared_witness :
  InstrumentVariable.name <$> [sample_variable 1 "1" true None (Some 10)]
  = declared_names (ResolverArguments.mk [("x", PyInt 1)] [] []).
Proof.
  refine (proj1 (find_or_make_resolves_declared sample_services
                   (sample_possible_variables 1234567 10) 10 0%nat
                   (ResolverArguments.mk [("x", PyInt 1)] [] []) None true
                   false
                   (sample_resolver_db
                      [sample_variable 0 "0" true None (Some 5)])
                   (sample_resolver_db
                      [sample_variable 0 "0" true None (Some 5);
                       sample_variable 1 "1" true None (Some 10)])
                   [sample_variable 1 "1" true None (Some 10)] _)).
  vm_compute. reflexivity.
Defined.

Lemma find_or_make_keeps_rows_witness :
  rows (instrument_variables
          (find_or_make_variables sample_services
             (sample_possible_variables 1234567 10) 10 0%nat
             (ResolverArguments.mk [("x", PyInt 1)] [] []) None true false
             (sample_resolver_db
                [sample_variable 0 "0" false None (Some 5)])).2) !! 0%nat
  = Some (sample_variable 0 "0" false None (Some 5)).
Proof.
  destruct (find_or_make_keeps_rows sample_services
              (sample_possible_variables 1234567 10) 10 0%nat
              (ResolverArguments.mk [("x", PyInt 1)] [] []) None true false
              (sample_resolver_db
                 [sample_variable 0 "0" false None (Some 5)]))
    as (_ & _ & _ & Hrows).
  - apply table_wfb_wf. vm_compute. reflexivity.
  - apply (bool_decide_unpack _). vm_compute. exact I.
  - apply (Hrows 0%nat (sample_variable 0 "0" false None (Some 5))).
    + reflexivity.
    + reflexivity.
    + reflexivity.
Defined.

Lemma find_or_make_creates_witness :
  ∃ d', find_or_make_variables sample_services
          (sample_possible_variables 1234567 10) 10 0%nat
          (ResolverArguments.mk [("x", PyInt 1)] [] []) None true false
          (sample_resolver_db [])
        = (Returned [sample_variable 0 "1" true None (Some 10)], d')
        ∧ all_rows (instrument_variables d')
          = [sample_variable 0 "1" true None (Some 10)].
Proof.
  destruct (find_or_make_creates sample_services
              (sample_possible_variables 1234567 10) 10 0%nat
              (ResolverArguments.mk [("x", PyInt 1)] [] []) None true false
              (sample_resolver_db []))
    as (d' & Hrun & Hrows & _).
  - apply table_wfb_wf. vm_compute. reflexivity.
  - apply NoDup_singleton.
  - repeat constructor.
  - exists d'. split; [exact Hrun|exact Hrows].
Defined.

Lemma find_or_make_settles_witness :
  ∃ variables d',
    find_or_make_variables sample_services
      (sample_possible_variables 1234567 10) 10 0%nat
      (ResolverArguments.mk [("x", PyInt 1)] [] []) None true false
      (sample_resolver_db [])
    = (Returned variables, d')
    ∧ find_or_make_variables sample_services
        (sample_possible_variables 1234567 10) 10 0%nat
        (ResolverArguments.mk [("x", PyInt 1)] [] []) None true false d'
      = (Returned variables, d').
Proof.
  destruct (find_or_make_settles sample_services
              (sample_possible_variables 1234567 10) 10 0%nat
              (ResolverArguments.mk [("x", PyInt 1)] [] []) None true false
              (sample_resolver_db []))
    as (variables & d' & Hfirst & _ & Hsecond).
  - apply table_wfb_wf. vm_compute. reflexivity.
  - apply NoDup_singleton.
  - repeat constructor.
  - reflexivity.
  - intros v Hstart Hinstrument.
    unfold sample_possible_variables, start_run_lte.
    rewrite Hstart, Hinstrument.
    destruct (exact (InstrumentVariable.experiment_reference v)
                    (Some 1234567)); reflexivity.
  - exists variables, d'. split; [exact Hfirst|exact Hsecond].
Defined.

Lemma merge_arguments_merges_witness :
  ∃ merged h' arguments,
    merge_arguments sample_services [("standard_vars", [("x", PyInt 5)])]
      (ReduceVarsModule.mk (Some 0%nat) None None)
      {[ 0%nat := [("x", PyStr "a")] ]}
    = (Returned merged, h')
    ∧ read_arguments merged h' = (Returned arguments, h')
    ∧ dict_get (ResolverArguments.standard_vars arguments) "x"
      = Some (PyStr "5").
Proof.
  destruct (merge_arguments_merges sample_services
              [("standard_vars", [("x", PyInt 5)])]
              (ReduceVarsModule.mk (Some 0%nat) None None)
              {[ 0%nat := [("x", PyStr "a")] ]})
    as (merged & h' & arguments & Hrun & Hread & _ & _ & Hget & _).
  - by exists [("x", PyStr "a")].
  - exact I.
  - apply NoDup_singleton.
  - apply NoDup_nil_2.
  - repeat constructor. by exists (PyStr "a").
  - constructor.
  - exists merged, h', arguments.
    split_and!; [exact Hrun|exact Hread|exact (Hget "x")].
Defined.

Lemma merge_arguments_unknown_override_witness :
  ∃ unknown h',
    merge_arguments sample_services [("standard_vars", [("zz", PyInt 1)])]
      (ReduceVarsModule.mk (Some 0%nat) None None)
      {[ 0%nat := [("x", PyInt 1)] ]}
    = (Raised (KeyError unknown), h').
Proof.
  destruct (merge_arguments_unknown_override sample_services
              [("standard_vars", [("zz", PyInt 1)])]
              (ReduceVarsModule.mk (Some 0%nat) None None)
              {[ 0%nat := [("x", PyInt 1)] ]})
    as (unknown & h' & Hrun & _).
  - by exists [("x", PyInt 1)].
  - exact I.
  - apply NoDup_singleton.
  - apply NoDup_nil_2.
  - left. apply Exists_cons_hd. reflexivity.
  - by exists unknown, h'.
Defined.

Lemma create_run_variables_first_run_witness :
  ∃ arguments h' d1,
    create_run_variables sample_services (sample_run Queued) []
      (mkWorld ∅ (sample_resolver_db []))
    = match save_run_variables sample_services
              (imap (λ i, created_variable sample_services 100 0%nat
                            arguments None true (0 + i)%nat)
                    (all_vars arguments))
              (sample_run Queued) d1 with
      | (Returned run_variables, d2) =>
          (Returned run_variables, mkWorld h' d2)
      | (Raised e, _) => (Raised e, mkWorld h' (sample_resolver_db []))
      end.
Proof.
  destruct (create_run_variables_first_run sample_services
              (sample_run Queued) [] (mkWorld ∅ (sample_resolver_db []))
              (Instrument.mk (Some 0%nat) "DEMO" true false)
              (Experiment.mk (Some 0%nat) 1234567)
              (ReduceVarsModule.mk (Some 0%nat) None None)
              {[ 0%nat := [("x", PyInt 1)] ]})
    as (arguments & h' & d1 & _ & _ & _ & _ & _ & Hrun).
  - reflexivity.
  - reflexivity.
  - vm_compute. reflexivity.
  - by exists [("x", PyInt 1)].
  - exact I.
  - apply NoDup_nil_2.
  - apply NoDup_nil_2.
  - constructor.
  - constructor.
  - apply NoDup_singleton.
  - apply table_wfb_wf. vm_compute. reflexivity.
  - constructor.
  - by exists arguments, h', d1.
Defined.

(** ** A copy made by one resolution, met by the next *)

(** [_update_or_copy_if_changed] on a variable that differs from the
    script, at a run number other than its [start_run]: a copy is
    stored under the next key. *)
Lemma update_or_copy_copies (variable : InstrumentVariable.t)
    (new_value new_type new_help_text : string) (run_number : Z) (d : DB) :
  InstrumentVariable.start_run variable ≠ Some run_number →
  new_value ≠ InstrumentVariable.value variable
  ∨ new_type ≠ InstrumentVariable.type variable
  ∨ new_help_text ≠ InstrumentVariable.help_text variable →
  let new_row :=
    InstrumentVariable.mk (Some (next_id (instrument_variables d)))
      (InstrumentVariable.name variable) new_value new_type new_help_text
      (InstrumentVariable.is_advanced variable)
      (InstrumentVariable.instrument_id variable)
      (InstrumentVariable.tracks_script variable)
      (InstrumentVariable.experiment_reference variable)
      (Some run_number) in
  _update_or_copy_if_changed variable new_value new_type new_help_text
                             run_number d
  = (Returned new_row,
     with_table
       (mkTable (<[next_id (instrument_variables d) := new_row]>
                   (rows (instrument_variables d)))
                (S (next_id (instrument_variables d)))) d).
Proof.
  intros Hstart Hchanged new_row. unfold new_row.
  unfold _update_or_copy_if_changed.
  assert (exact (InstrumentVariable.start_run variable) (Some run_number)
          = false) as Hexact.
  { by apply bool_decide_eq_false_2. }
  destruct variable as [pk name value type help adv inst tracks exp start].
  simpl in *.
  destruct (decide (new_value = value)) as [->|Hv];
    destruct (decide (new_type = type)) as [->|Ht];
    destruct (decide (new_help_text = help)) as [->|Hh];
    try (by destruct Hchanged as [?|[?|?]]);
    repeat (simpl;
            first [rewrite String.eqb_refl
                  |rewrite (proj2 (String.eqb_neq _ _) Hv)
                  |rewrite (proj2 (String.eqb_neq _ _) Ht)
                  |rewrite (proj2 (String.eqb_neq _ _) Hh)]);
    simpl; rewrite Hexact; reflexivity.
Qed.

(** X20.  A copy made by one resolution makes the next one fail.  For a
    script that declares one variable, when the selection finds exactly
    one stored row for the name and the experiment reference, the row
    tracks the script or the update is forced, it differs from the
    script in value, type or help text, its [start_run] is not the run
    number, and the queryset selects the copy: [find_or_make_variables]
    returns the copy, stored after the rows that were there; called
    again with the same arguments on the store it left, it raises
    [MultipleObjectsReturned] and writes nothing. *)
Theorem find_or_make_copy_then_raises (self : VariableServices)
    (possible_variables : QuerySet) (run_number : Z) (instrument_id : nat)
    (name : string) (value : PyValue) (variable_help : dict (dict string))
    (experiment_reference : option Z) (tracks_script force_update : bool)
    (d : DB) (variable : InstrumentVariable.t) :
  let reduction_arguments :=
    ResolverArguments.mk [(name, value)] [] variable_help in
  let new_row :=
    InstrumentVariable.mk (Some (next_id (instrument_variables d)))
      (InstrumentVariable.name variable) (script_value_of self value)
      (get_type_string self value)
      (script_help_text_of reduction_arguments name false)
      (InstrumentVariable.is_advanced variable)
      (InstrumentVariable.instrument_id variable)
      (InstrumentVariable.tracks_script variable)
      (InstrumentVariable.experiment_reference variable)
      (Some run_number) in
  table_wf (instrument_variables d) →
  reference_matches possible_variables name experiment_reference d
  = [variable] →
  InstrumentVariable.tracks_script variable || force_update = true →
  InstrumentVariable.start_run variable ≠ Some run_number →
  script_value_of self value ≠ InstrumentVariable.value variable
  ∨ get_type_string self value ≠ InstrumentVariable.type variable
  ∨ script_help_text_of reduction_arguments name false
    ≠ InstrumentVariable.help_text variable →
  possible_variables new_row = true →
  ∃ d1,
    find_or_make_variables self possible_variables run_number
      instrument_id reduction_arguments experiment_reference tracks_script
      force_update d
    = (Returned [new_row], d1)
    ∧ all_rows (instrument_variables d1)
      = all_rows (instrument_variables d) ++ [new_row]
    ∧ find_or_make_variables self possible_variables run_number
        instrument_id reduction_arguments experiment_reference
        tracks_script force_update d1
      = (Raised MultipleObjectsReturned, d1).
Proof.
  intros reduction_arguments new_row Hwf Hmatch Hupdate Hstart Hchanged
    Hselected.
  set (d1 := with_table
               (mkTable (<[next_id (instrument_variables d) := new_row]>
                           (rows (instrument_variables d)))
                        (S (next_id (instrument_variables d)))) d).
  assert (all_rows (instrument_variables d1)
          = all_rows (instrument_variables d) ++ [new_row]) as Hrows.
  { unfold d1. cbn [instrument_variables with_table
      InstrumentVariable_Stored]. by apply all_rows_insert_new. }
  assert (variable ∈ reference_matches possible_variables name
                       experiment_reference d) as Hin.
  { rewrite Hmatch. by left. }
  unfold reference_matches, qs_filter in Hin.
  rewrite list_elem_of_In, filter_In, !andb_true_iff in Hin.
  destruct Hin as (_ & _ & Hname & Hreference).
  exists d1. split_and!; [|done|].
  - rewrite find_or_make_variables_loop.
    change (all_vars reduction_arguments) with [(name, value, false)].
    rewrite for_collect_cons.
    assert (resolve_variable self possible_variables run_number
              instrument_id reduction_arguments experiment_reference
              tracks_script force_update (name, value, false) d
            = (Returned new_row, d1)) as ->; [|done].
    unfold resolve_variable. cbv zeta. unfold mbind at 1, M_bind at 1.
    rewrite find_appropriate_variable_eq, Hmatch, Hupdate.
    by apply update_or_copy_copies.
  - rewrite find_or_make_variables_loop.
    change (all_vars reduction_arguments) with [(name, value, false)].
    rewrite for_collect_cons.
    assert (resolve_variable self possible_variables run_number
              instrument_id reduction_arguments experiment_reference
              tracks_script force_update (name, value, false) d1
            = (Raised MultipleObjectsReturned, d1)) as ->; [|done].
    unfold resolve_variable. cbv zeta. unfold mbind at 1, M_bind at 1.
    rewrite find_appropriate_variable_eq.
    assert (reference_matches possible_variables name experiment_reference
              d1 = [variable; new_row]) as ->; [|done].
    unfold reference_matches. rewrite Hrows, List.filter_app.
    fold (reference_matches possible_variables name experiment_reference
            d).
    rewrite Hmatch. cbn [List.filter app]. unfold qs_filter.
    rewrite Hselected.
    change (InstrumentVariable.name new_row)
      with (InstrumentVariable.name variable).
    change (InstrumentVariable.experiment_reference new_row)
      with (InstrumentVariable.experiment_reference variable).
    by rewrite Hname, Hreference.
Qed.

Lemma find_or_make_copy_then_raises_witness :
  ∃ d1,
    find_or_make_variables sample_services
      (sample_possible_variables 1234567 10) 10 0%nat
      (ResolverArguments.mk [("x", PyInt 1)] [] []) None true false
      (sample_resolver_db [sample_variable 0 "0" true None (Some 5)])
    = (Returned [sample_variable 1 "1" true None (Some 10)], d1)
    ∧ find_or_make_variables sample_services
        (sample_possible_variables 1234567 10) 10 0%nat
        (ResolverArguments.mk [("x", PyInt 1)] [] []) None true false d1
      = (Raised MultipleObjectsReturned, d1).
Proof.
  destruct (find_or_make_copy_then_raises sample_services
              (sample_possible_variables 1234567 10) 10 0%nat "x"
              (PyInt 1) [] None true false
              (sample_resolver_db [sample_variable 0 "0" true None (Some 5)])
              (sample_variable 0 "0" true None (Some 5)))
    as (d1 & Hfirst & _ & Hsecond).
  - apply table_wfb_wf. vm_compute. reflexivity.
  - vm_compute. reflexivity.
  - reflexivity.
  - simpl. intros Heq. discriminate Heq.
  - left. vm_compute. intros Heq. discriminate Heq.
  - vm_compute. reflexivity.
  - exists d1. split; [exact Hfirst|exact Hsecond].
Defined.
